(** * MCP installer: installation dispatcher, environment probes, discovery
      and the IDE configuration writer

    A shallow embedding of [src/core/server_manager.py],
    [src/core/vscode_config.py] and the Docker and Node.js probes of
    [src/core/system_checker.py], with the properties of the specification
    proved, corrected or refuted on it.

    Python code that talks to the outside (subprocesses, HTTP, the file
    system, the environment) is embedded in an exception-and-state monad
    [M]: the state carries the chronological trace of effects, the JSON
    files the program reads back, and the probe results cached by
    [SystemChecker]; the answers of the outside are given by a [World].

    What the embedding leaves out or fixes:
    - the logger, an observer only; a log call is kept where building the
      logged string can itself raise ([bytes.decode]);
    - exceptions outside [Exception] ([KeyboardInterrupt], [SystemExit]);
      among the classes that are modelled, [except] clauses follow Python's
      class hierarchy;
    - the text of a file: a file holds a JSON value or does not parse;
    - values of another type than documented under the keys of a server
      descriptor (a descriptor is a record of optional, typed fields);
    - characters beyond ASCII in the string functions;
    - [pathlib] and [os.path.join], which are a parameter of the [World]. *)

From Stdlib Require Import ZArith Ascii String List Bool Lia.
From Stdlib Require Import Decimal DecimalString.
From stdpp Require Import base option strings gmap.

Open Scope Z_scope.

(** ** Python strings (ASCII fragment) *)

Module PyStr.

(** [s.startswith(p)] *)
Definition startswith (s p : string) : bool := String.prefix p s.

(** [p in s] for strings. *)
Fixpoint contains (s p : string) : bool :=
  String.prefix p s ||
  match s with
  | EmptyString => false
  | String _ s' => contains s' p
  end.

(** Characters for which [str.isspace] holds, among the first 128. *)
Definition isspace (c : ascii) : bool :=
  let n := nat_of_ascii c in
  ((9 <=? n)%nat && (n <=? 13)%nat) || ((28 <=? n)%nat && (n <=? 32)%nat).

Fixpoint lstrip_by (f : ascii -> bool) (s : string) : string :=
  match s with
  | EmptyString => EmptyString
  | String c s' => if f c then lstrip_by f s' else s
  end.

Definition rstrip_by (f : ascii -> bool) (s : string) : string :=
  String.rev (lstrip_by f (String.rev s)).

(** [s.strip()] *)
Definition strip (s : string) : string := rstrip_by isspace (lstrip_by isspace s).

(** [s.lstrip(chars)] *)
Definition lstrip_chars (s chars : string) : string :=
  lstrip_by (fun c => existsb (Ascii.eqb c) (list_ascii_of_string chars)) s.

(** [s.split(sep)] for a one-character separator: never the empty list. *)
Fixpoint split_go (sep : ascii) (cur : string) (s : string) : list string :=
  match s with
  | EmptyString => [String.rev cur]
  | String c s' =>
      if Ascii.eqb c sep then String.rev cur :: split_go sep EmptyString s'
      else split_go sep (String c cur) s'
  end.

Definition split (s : string) (sep : ascii) : list string := split_go sep EmptyString s.

(** [s.replace(old, new)] for a non-empty [old]: occurrences are replaced
    from the left and do not overlap. [skip] counts the characters of a
    match that are still to be dropped. *)
Fixpoint replace_go (old new : string) (skip : nat) (s : string) : string :=
  match s with
  | EmptyString => EmptyString
  | String c s' =>
      match skip with
      | S k => replace_go old new k s'
      | O =>
          if String.prefix old s
          then new +:+ replace_go old new (Nat.pred (String.length old)) s'
          else String c (replace_go old new O s')
      end
  end.

Definition replace (s old new : string) : string :=
  match old with
  | EmptyString => s
  | _ => replace_go old new O s
  end.

Definition is_upper (c : ascii) : bool :=
  let n := nat_of_ascii c in (65 <=? n)%nat && (n <=? 90)%nat.
Definition is_lower (c : ascii) : bool :=
  let n := nat_of_ascii c in (97 <=? n)%nat && (n <=? 122)%nat.
Definition is_digit (c : ascii) : bool :=
  let n := nat_of_ascii c in (48 <=? n)%nat && (n <=? 57)%nat.
Definition to_lower (c : ascii) : ascii :=
  if is_upper c then ascii_of_nat (nat_of_ascii c + 32) else c.
Definition to_upper (c : ascii) : ascii :=
  if is_lower c then ascii_of_nat (nat_of_ascii c - 32) else c.

Fixpoint map_chars (f : ascii -> ascii) (s : string) : string :=
  match s with
  | EmptyString => EmptyString
  | String c s' => String (f c) (map_chars f s')
  end.

(** [s.lower()] *)
Definition lower (s : string) : string := map_chars to_lower s.

(** [s.title()]: a letter is upper-cased when the character before it is
    not a letter, and lower-cased otherwise. *)
Fixpoint title_go (prev_cased : bool) (s : string) : string :=
  match s with
  | EmptyString => EmptyString
  | String c s' =>
      if is_upper c || is_lower c
      then String (if prev_cased then to_lower c else to_upper c) (title_go true s')
      else String c (title_go false s')
  end.
Definition title (s : string) : string := title_go false s.

(** [sep.join(parts)] *)
Definition join (sep : string) (parts : list string) : string := String.concat sep parts.

(** [str(n)] for an integer. *)
Definition of_Z (n : Z) : string := NilZero.string_of_int (Z.to_int n).

(** The white space [int] skips around a literal: tab to carriage return,
    and the space. (The separators 28 to 31, which [str.strip] removes, are
    not among them.) *)
Definition is_int_space (c : ascii) : bool :=
  let n := nat_of_ascii c in
  ((9 <=? n)%nat && (n <=? 13)%nat) || (n =? 32)%nat.

(** The digits of a literal, after an optional sign: single underscores may
    separate digits. [None] stands for [ValueError]. *)
Fixpoint digits_go (acc : Z) (prev_digit : bool) (s : string) : option Z :=
  match s with
  | EmptyString => if prev_digit then Some acc else None
  | String c s' =>
      if is_digit c then digits_go (10 * acc + (Z.of_nat (nat_of_ascii c) - 48)) true s'
      else if Ascii.eqb c "_"%char then
        if prev_digit then
          match s' with
          | EmptyString => None
          | String d _ => if is_digit d then digits_go acc false s' else None
          end
        else None
      else None
  end.

Fixpoint count_digits (s : string) : Z :=
  match s with
  | EmptyString => 0
  | String c s' => (if is_digit c then 1 else 0) + count_digits s'
  end.

(** [sys.int_max_str_digits], at its default. *)
Definition int_max_str_digits : Z := 4300.

(** [int(s)] in base ten: white space around the literal, one optional
    sign, then digits; a literal of more than [int_max_str_digits] digits
    is refused. [None] stands for [ValueError]. *)
Definition int (s : string) : option Z :=
  let literal := rstrip_by is_int_space (lstrip_by is_int_space s) in
  if int_max_str_digits <? count_digits literal then None
  else
    match literal with
    | String "+" r => digits_go 0 false r
    | String "-" r => Z.opp <$> digits_go 0 false r
    | r => digits_go 0 false r
    end.

End PyStr.

(** ** JSON values and Python dictionaries

    [json.load] yields values of this type; a Python [dict] keeps its keys
    in insertion order, so it is an association list with unique keys. *)

#[warnings="-register-all"]
Inductive json : Type :=
| JNull
| JBool (b : bool)
| JInt (n : Z)
| JFloat (mantissa exponent : Z)
| JStr (s : string)
| JArr (items : list json)
| JObj (fields : list (string * json)).

Module Dict.
Section Ops.
Context {V : Type}.

(** [d.get(k)] *)
Fixpoint get (d : list (string * V)) (k : string) : option V :=
  match d with
  | [] => None
  | (k', v) :: d' => if String.eqb k' k then Some v else get d' k
  end.

(** [d[k] = v]: an existing key keeps its position. *)
Fixpoint set (d : list (string * V)) (k : string) (v : V) : list (string * V) :=
  match d with
  | [] => [(k, v)]
  | (k', v') :: d' => if String.eqb k' k then (k, v) :: d' else (k', v') :: set d' k v
  end.

(** [k in d] *)
Definition has (d : list (string * V)) (k : string) : bool :=
  match get d k with Some _ => true | None => false end.


(** [d.update(e)] *)
Definition update (d e : list (string * V)) : list (string * V) :=
  fold_left (fun acc kv => set acc (fst kv) (snd kv)) e d.
End Ops.
End Dict.

(** Truth value of a loaded JSON value ([bool(x)]). *)
Definition json_truthy (j : json) : bool :=
  match j with
  | JNull => false
  | JBool b => b
  | JInt n => negb (n =? 0)
  | JFloat m _ => negb (m =? 0)
  | JStr s => negb (String.eqb s "")
  | JArr l => match l with [] => false | _ => true end
  | JObj kv => match kv with [] => false | _ => true end
  end.

(** ** Exceptions, outcomes and the effect monad *)

(** The exception classes the code tells apart in its [except] clauses, and
    the ones its own operations raise. All are subclasses of [Exception];
    [OtherException] stands for a class that is a subclass of none of the
    others. *)
Inductive exn_class : Set :=
| FileNotFoundError | TimeoutExpired | ValueError | IndexError | KeyError
| TypeError | AttributeError | UnboundLocalError | UnicodeDecodeError
| OSError | RequestException | OtherException.

Record exn : Set := Exn { exn_cls : exn_class; exn_str : string }.

Definition exn_class_eqb (a b : exn_class) : bool :=
  match a, b with
  | FileNotFoundError, FileNotFoundError | TimeoutExpired, TimeoutExpired
  | ValueError, ValueError | IndexError, IndexError | KeyError, KeyError
  | TypeError, TypeError | AttributeError, AttributeError
  | UnboundLocalError, UnboundLocalError | UnicodeDecodeError, UnicodeDecodeError
  | OSError, OSError | RequestException, RequestException
  | OtherException, OtherException => true
  | _, _ => false
  end.

(** [issubclass(a, b)] among these classes: [FileNotFoundError] is an
    [OSError], and so is [requests.RequestException] (an [IOError]);
    [UnicodeDecodeError] is a [ValueError]. *)
Definition issubclass (a b : exn_class) : bool :=
  exn_class_eqb a b
  || match a, b with
     | FileNotFoundError, OSError | RequestException, OSError
     | UnicodeDecodeError, ValueError => true
     | _, _ => false
     end.

Inductive outcome (A : Type) : Type :=
| Ret (a : A)
| Raise (e : exn).
Arguments Ret {A} a.
Arguments Raise {A} e.

(** [subprocess.run(cmd, capture_output=True, timeout=..., shell=...,
    text=..., cwd=...)]. The [creationflags] argument is left out: it is
    [CREATE_NO_WINDOW] on Windows only and hides the console window. *)
Record RunArgs : Set := Run {
  run_cmd : list string;
  run_timeout : Z;
  run_shell : bool;
  run_text : bool;
  run_cwd : option string
}.

Record CompletedProcess : Set := Completed {
  returncode : Z;
  stdout : string;
  stderr : string
}.

(** The dictionary handed to the IDE configuration writer. [command] is a
    string in the npm path and a list in the docker path. *)
Inductive CommandVal : Set :=
| CmdStr (s : string)
| CmdList (l : list string).

Record LaunchDict : Set := Launch {
  l_name : option string;
  l_command : option CommandVal;
  l_args : option (list string);
  l_env : option (list (string * string))
}.

(** Results of the environment probes. *)
Record ProbeResult : Set := Probe {
  status : bool;
  message : string;
  details : string;
  daemon_running : option bool;
  installed : option bool
}.

(** What a computation leaves in the trace: the subprocesses it runs, the
    directories it creates, the files it opens for writing (with the value
    it dumps), its HTTP requests and sleeps, and, to count them, the calls
    of the IDE writer. *)
Inductive event : Type :=
| EvRun (a : RunArgs)
| EvMkdir (path : string)
| EvWrite (path : string) (content : json)
| EvHttpGet (url : string) (params : list (string * string)) (timeout : Z)
| EvSleep (seconds : Z)
| EvAddServer (extension : string) (cfg : LaunchDict).

(** What a file holds when it is opened and given to [json.load]. *)
Inductive fcontent : Type :=
| FJson (j : json)
| FInvalid.

Record HttpResponse : Type := Response {
  status_code : Z;
  text : string;
  (** [response.json()]; [None] when the body does not parse. *)
  json_body : option json
}.

(** The answers of the outside. Those that can change over time take the
    trace of what has happened so far. [path_str] is [str(Path(a) / b / ...)]
    (or [os.path.join]) on the platform; [bytes_decode] is [bytes.decode()],
    [None] when the bytes are not valid UTF-8. Writing a file can fail at
    [open(p, 'w')], before the file is touched ([open_write_error]), or
    later, while the text is written or the file closed ([dump_error]).
    [set_order] is the order in which this process iterates over a set of
    the given strings (it depends on the process's string hashes). *)
Record World : Type := {
  is_windows : bool;
  run_proc : list event -> RunArgs -> outcome CompletedProcess;
  path_exists : list event -> string -> bool;
  path_str : list string -> string;
  home : string;
  environ : string -> option string;
  bytes_decode : string -> option string;
  mkdir_error : list event -> string -> option exn;
  open_write_error : list event -> string -> option exn;
  dump_error : list event -> string -> option exn;
  http_get : list event -> string -> outcome HttpResponse;
  set_order : list string -> list string
}.

Record state : Type := State {
  trace : list event;
  files : gmap string fcontent;
  results : gmap string ProbeResult
}.

Definition M (A : Type) : Type := state -> outcome A * state.

Definition ret {A} (a : A) : M A := fun s => (Ret a, s).
Definition raise {A} (e : exn) : M A := fun s => (Raise e, s).
Definition bind {A B} (m : M A) (k : A -> M B) : M B :=
  fun s => match m s with
           | (Ret a, s') => k a s'
           | (Raise e, s') => (Raise e, s')
           end.

(** [try: body  except Exception as e: handler e] *)
Definition try_except {A} (body : M A) (handler : exn -> M A) : M A :=
  fun s => match body s with
           | (Ret a, s') => (Ret a, s')
           | (Raise e, s') => handler e s'
           end.

Notation "'let*' x ':=' m 'in' k" := (bind m (fun x => k))
  (at level 10, x pattern, m at level 100, k at level 200).

Definition lift_option {A} (o : option A) (e : exn) : M A :=
  match o with Some a => ret a | None => raise e end.

(** Computations that can raise but touch nothing outside. *)
Definition obind {A B} (o : outcome A) (k : A -> outcome B) : outcome B :=
  match o with
  | Ret a => k a
  | Raise e => Raise e
  end.

Notation "'let+' x ':=' o 'in' k" := (obind o (fun x => k))
  (at level 10, x pattern, o at level 100, k at level 200).

Definition or_raise {A} (o : option A) (e : exn) : outcome A :=
  match o with Some a => Ret a | None => Raise e end.

Definition lift {A} (o : outcome A) : M A := fun s => (o, s).

Definition emit (e : event) : M unit :=
  fun s => (Ret tt, State (trace s ++ [e]) (files s) (results s)).

Definition get_trace : M (list event) := fun s => (Ret (trace s), s).

(** The subprocess calls of a trace, in order. *)
Definition subprocess_calls (t : list event) : list RunArgs :=
  omap (fun e => match e with EvRun a => Some a | _ => None end) t.

(** The calls of the IDE writer's [add_server_to_extension] in a trace. *)
Definition writer_calls (t : list event) : list (string * LaunchDict) :=
  omap (fun e => match e with EvAddServer x c => Some (x, c) | _ => None end) t.

(** The files written in a trace. *)
Definition file_writes (t : list event) : list (string * json) :=
  omap (fun e => match e with EvWrite p j => Some (p, j) | _ => None end) t.

Section Effects.
Variable w : World.

Definition subprocess_run (a : RunArgs) : M CompletedProcess :=
  let* t := get_trace in
  let* _ := emit (EvRun a) in
  match run_proc w t a with
  | Ret cp => ret cp
  | Raise e => raise e
  end.

(** [b.decode()] *)
Definition decode (b : string) : M string :=
  lift_option (bytes_decode w b) (Exn UnicodeDecodeError "'utf-8' codec can't decode bytes").

(** [Path(p).exists()] for a path the program does not write itself. *)
Definition exists_ (p : string) : M bool :=
  let* t := get_trace in ret (path_exists w t p).

(** [Path(p).mkdir(parents=True, exist_ok=True)] *)
Definition mkdir (p : string) : M unit :=
  let* t := get_trace in
  match mkdir_error w t p with
  | Some e => raise e
  | None => emit (EvMkdir p)
  end.

(** [with open(p, 'w') as f: json.dump(j, f)]. Opening the file empties
    it. When the dump or the closing of the file then fails, the file is
    left with the beginning of the text only; the writer dumps dicts, and no
    proper beginning of the text of a dict parses. *)
Definition write_json (p : string) (j : json) : M unit :=
  let* t := get_trace in
  match open_write_error w t p with
  | Some e => raise e
  | None =>
      let* _ := emit (EvWrite p j) in
      match dump_error w t p with
      | Some e =>
          fun s => (Raise e, State (trace s) (<[p := FInvalid]> (files s)) (results s))
      | None =>
          fun s => (Ret tt, State (trace s) (<[p := FJson j]> (files s)) (results s))
      end
  end.

Definition sleep (n : Z) : M unit := emit (EvSleep n).
End Effects.

(** ** [vscode_config.py]: the IDE configuration writer *)

Record ExtInfo : Set := {
  ext_name : string;
  ext_id : string;
  config_path : string;
  config_file : string
}.

(** [k in j] on a loaded JSON value: key of a dict, element of a list,
    substring of a string; other values are not iterable. *)
Definition json_contains (j : json) (k : string) : outcome bool :=
  match j with
  | JObj kv => Ret (Dict.has kv k)
  | JArr l => Ret (existsb (fun x => match x with JStr s => String.eqb s k | _ => false end) l)
  | JStr s => Ret (PyStr.contains s k)
  | _ => Raise (Exn TypeError "argument is not iterable")
  end.

(** [j[k]] for a string key. *)
Definition json_getitem (j : json) (k : string) : outcome json :=
  match j with
  | JObj kv => or_raise (Dict.get kv k) (Exn KeyError k)
  | JArr _ => Raise (Exn TypeError "list indices must be integers or slices, not str")
  | JStr _ => Raise (Exn TypeError "string indices must be integers, not 'str'")
  | _ => Raise (Exn TypeError "object is not subscriptable")
  end.

(** [j[k] = v] for a string key; the result is the container after the
    assignment. *)
Definition json_setitem (j : json) (k : string) (v : json) : outcome json :=
  match j with
  | JObj kv => Ret (JObj (Dict.set kv k v))
  | JArr _ => Raise (Exn TypeError "list indices must be integers or slices, not str")
  | _ => Raise (Exn TypeError "object does not support item assignment")
  end.

(** [j.get(k, d)]: only a dict has [get]. *)
Definition json_get (j : json) (k : string) (d : json) : outcome json :=
  match j with
  | JObj kv => Ret (default d (Dict.get kv k))
  | _ => Raise (Exn AttributeError "object has no attribute 'get'")
  end.

(** [for x in j]: the elements of a list, the keys of a dict, the
    characters of a string. *)
Definition json_iter (j : json) : outcome (list json) :=
  match j with
  | JArr l => Ret l
  | JObj kv => Ret (map (fun e => JStr (fst e)) kv)
  | JStr s => Ret (map (fun c => JStr (String c EmptyString)) (list_ascii_of_string s))
  | _ => Raise (Exn TypeError "object is not iterable")
  end.

Definition json_of_command (c : CommandVal) : json :=
  match c with
  | CmdStr s => JStr s
  | CmdList l => JArr (map JStr l)
  end.

(** The entry stored under [mcpServers][name]. *)
Definition server_entry (server_config : LaunchDict) : json :=
  JObj [ ("command", from_option json_of_command (JStr "") (l_command server_config));
         ("args", JArr (map JStr (default [] (l_args server_config))));
         ("env", JObj (map (fun kv => (fst kv, JStr (snd kv))) (default [] (l_env server_config)))) ].

Section VSCodeExtensionConfig.
Variable w : World.

Definition _get_cline_config_path : string :=
  if is_windows w
  then path_str w [default "" (environ w "APPDATA"); "Code"; "User"; "globalStorage";
                   "saoudrizwan.claude-dev"; "settings"]
  else path_str w [home w; ".config"; "Code"; "User"; "globalStorage";
                   "saoudrizwan.claude-dev"; "settings"].

Definition _get_roo_config_path : string :=
  if is_windows w
  then path_str w [default "" (environ w "APPDATA"); "Code"; "User"; "globalStorage";
                   "rooveterinaryinc.roo-cline"; "settings"]
  else path_str w [home w; ".config"; "Code"; "User"; "globalStorage";
                   "rooveterinaryinc.roo-cline"; "settings"].

(** [self.extension_configs], built once in [__init__]. *)
Definition extension_configs : gmap string ExtInfo :=
  <["cline" := {| ext_name := "Cline"; ext_id := "saoudrizwan.claude-dev";
                  config_path := _get_cline_config_path;
                  config_file := "cline_mcp_settings.json" |}]>
  (<["roo" := {| ext_name := "Roo"; ext_id := "rooveterinaryinc.roo-cline";
                 config_path := _get_roo_config_path;
                 config_file := "mcp_settings.json" |}]> ∅).

Definition config_file_of (ext_info : ExtInfo) : string :=
  path_str w [config_path ext_info; config_file ext_info].

(** [config_file.exists()] for a settings file. *)
Definition settings_exists (p : string) : M bool :=
  fun s => (Ret (bool_decide (is_Some (files s !! p))), s).

(** [with open(p) as f: json.load(f)] *)
Definition load_json (p : string) : M json :=
  fun s => match files s !! p with
           | Some (FJson j) => (Ret j, s)
           | Some FInvalid => (Raise (Exn ValueError "Expecting value"), s)
           | None => (Raise (Exn FileNotFoundError p), s)
           end.

(** Python's [None] and a loaded JSON [null] are the same value, [JNull]. *)
Definition get_extension_config (extension : string) : M json :=
  match extension_configs !! extension with
  | None => ret JNull
  | Some ext_info =>
      let config_file := config_file_of ext_info in
      try_except
        (let* present := settings_exists config_file in
         if present then load_json config_file else ret JNull)
        (fun _ => ret JNull)
  end.

Definition _save_extension_config (extension : string) (config : json) : M bool :=
  match extension_configs !! extension with
  | None => ret false
  | Some ext_info =>
      try_except
        (let* _ := mkdir w (config_path ext_info) in
         let* _ := write_json w (config_file_of ext_info) config in
         ret true)
        (fun _ => ret false)
  end.

Definition add_server_to_extension (extension : string) (server_config : LaunchDict) : M bool :=
  let* _ := emit (EvAddServer extension server_config) in
  let* loaded := get_extension_config extension in
  let current_config :=
    match loaded with JNull => JObj [("mcpServers", JObj [])] | c => c end in
  let* present := lift (json_contains current_config "mcpServers") in
  let* current_config :=
    if present then ret current_config
    else lift (json_setitem current_config "mcpServers" (JObj [])) in
  let server_name := default "unknown" (l_name server_config) in
  let* current_config :=
    if String.eqb extension "cline" || String.eqb extension "roo" then
      let* servers := lift (json_getitem current_config "mcpServers") in
      let* servers := lift (json_setitem servers server_name (server_entry server_config)) in
      lift (json_setitem current_config "mcpServers" servers)
    else ret current_config in
  _save_extension_config extension current_config.
End VSCodeExtensionConfig.

(** ** Server descriptors

    A descriptor is a Python [dict] read with [.get]; the keys the
    installer consults are the fields below, each absent ([None]) or present
    with a value of its documented type. [sd_other] holds every other key
    (description, category, tags, ...). *)

Record Configuration : Set := {
  c_command : option CommandVal;
  c_args : option (list string);
  c_env : option (list (string * string));
  c_ports : option (list string);
  c_volumes : option (list string);
  c_environment : option (list (string * string));
  c_run_mode : option string
}.

Definition empty_configuration : Configuration :=
  {| c_command := None; c_args := None; c_env := None; c_ports := None;
     c_volumes := None; c_environment := None; c_run_mode := None |}.

#[warnings="-register-all"]
Inductive ServerDescriptor : Type := Descriptor {
  sd_name : option string;
  sd_type : option string;
  sd_package : option string;
  sd_repository : option string;
  sd_image : option string;
  sd_configuration : option Configuration;
  sd_fallback : option ServerDescriptor;
  sd_command : option CommandVal;
  sd_args : option (list string);
  sd_env : option (list (string * string));
  sd_other : list (string * json)
}.

Definition present {A} (o : option A) : bool :=
  match o with Some _ => true | None => false end.

(** [bool(d)] for a descriptor: a dict is true when it has a key. *)
Definition descriptor_truthy (d : ServerDescriptor) : bool :=
  present (sd_name d) || present (sd_type d) || present (sd_package d)
  || present (sd_repository d) || present (sd_image d)
  || present (sd_configuration d) || present (sd_fallback d)
  || present (sd_command d) || present (sd_args d) || present (sd_env d)
  || match sd_other d with [] => false | _ => true end.

Definition override {A} (new old : option A) : option A :=
  match new with Some v => Some v | None => old end.

(** [t = original.copy(); t.update(fallback)]: every key of [fallback]
    replaces the key of [original]. *)
Definition descriptor_update (original fallback : ServerDescriptor) : ServerDescriptor :=
  {| sd_name := override (sd_name fallback) (sd_name original);
     sd_type := override (sd_type fallback) (sd_type original);
     sd_package := override (sd_package fallback) (sd_package original);
     sd_repository := override (sd_repository fallback) (sd_repository original);
     sd_image := override (sd_image fallback) (sd_image original);
     sd_configuration := override (sd_configuration fallback) (sd_configuration original);
     sd_fallback := override (sd_fallback fallback) (sd_fallback original);
     sd_command := override (sd_command fallback) (sd_command original);
     sd_args := override (sd_args fallback) (sd_args original);
     sd_env := override (sd_env fallback) (sd_env original);
     sd_other := Dict.update (sd_other original) (sd_other fallback) |}.

(** A descriptor handed as it is to the IDE writer, which reads its
    top-level [name], [command], [args] and [env]. *)
Definition descriptor_as_launch (d : ServerDescriptor) : LaunchDict :=
  {| l_name := sd_name d; l_command := sd_command d; l_args := sd_args d; l_env := sd_env d |}.

Definition InstallResult : Set := (bool * string)%type.

(** [isinstance(e, c)], the test of an [except c] clause. *)
Definition is_class (c : exn_class) (e : exn) : bool := issubclass (exn_cls e) c.

Definition nonempty (s : string) : bool := negb (String.eqb s "").

(** The one-character string holding a double quote. *)
Definition dquote : string := String (ascii_of_nat 34) EmptyString.

(** ** [system_checker.py]: the Docker and Node.js probes *)

Definition probe (ok : bool) (msg det : string) : ProbeResult :=
  {| status := ok; message := msg; details := det; daemon_running := None; installed := None |}.

(** [try: body  except (C1, C2, ...) as e: handler e]: other exceptions
    pass through. *)
Definition try_except_when {A} (caught : exn -> bool) (body : M A) (handler : exn -> M A) : M A :=
  try_except body (fun e => if caught e then handler e else raise e).

(** [next((line for line in lines if key in line), '')] *)
Definition first_line_with (key : string) (lines : list string) : string :=
  default "" (head (List.filter (fun line => PyStr.contains line key) lines)).

(** [int(version.lstrip('v').split('.')[0])] *)
Definition parse_major_version (version : string) : outcome Z :=
  let version_num := PyStr.lstrip_chars version "v" in
  let+ first := or_raise (head (PyStr.split version_num "."%char))
                  (Exn IndexError "list index out of range") in
  or_raise (PyStr.int first)
    (Exn ValueError ("invalid literal for int() with base 10: '" +:+ first +:+ "'")).

Section SystemChecker.
Variable w : World.
(** [self.auto_fix], set to [True] by [__init__]. *)
Variable auto_fix : bool.

Definition check_docker : M ProbeResult :=
  try_except
    (let* version_result := subprocess_run w (Run ["docker"; "--version"] 10 false true None) in
     if negb (returncode version_result =? 0) then
       ret (probe false "Docker not installed"
              "Docker is not installed. Required for Docker-based MCP servers.")
     else
       let version := PyStr.strip (stdout version_result) in
       let* daemon_result := subprocess_run w (Run ["docker"; "info"] 15 false true None) in
       if returncode daemon_result =? 0 then
         let info_lines := PyStr.split (stdout daemon_result) "010"%char in
         let containers_line := first_line_with "Containers:" info_lines in
         let images_line := first_line_with "Images:" info_lines in
         let details_parts :=
           ["Version: " +:+ version]
           ++ (if nonempty containers_line then [PyStr.strip containers_line] else [])
           ++ (if nonempty images_line then [PyStr.strip images_line] else []) in
         ret {| status := true; message := "Docker installed and running";
                details := PyStr.join ", " details_parts;
                daemon_running := Some true; installed := None |}
       else
         ret {| status := false; message := "Docker installed but not running";
                details := version +:+ " - Docker daemon is not running. Start Docker Desktop or Docker service.";
                daemon_running := Some false; installed := Some true |})
    (fun e =>
       if is_class TimeoutExpired e then
         ret (probe false "Docker check timed out"
                "Docker command timed out. Docker may be starting or unresponsive.")
       else if is_class FileNotFoundError e then
         ret (probe false "Docker not installed"
                "Docker command not found. Install Docker Desktop or Docker Engine.")
       else
         ret (probe false "Docker check failed" ("Error checking Docker: " +:+ exn_str e))).

(** [self.results] is filled by [check_all] only. *)
Definition get_docker_status : M ProbeResult :=
  fun s => match results s !! "docker" with
           | Some r => (Ret r, s)
           | None => check_docker s
           end.

Definition winget_commands : list (list string) :=
  [ ["winget"; "install"; "OpenJS.NodeJS.LTS"; "--silent"; "--accept-package-agreements"; "--accept-source-agreements"];
    ["winget"; "install"; "OpenJS.NodeJS"; "--silent"; "--accept-package-agreements"; "--accept-source-agreements"];
    ["winget"; "install"; "nodejs"; "--silent"; "--accept-package-agreements"; "--accept-source-agreements"] ].

(** The loop over [winget_commands]: [Some r] is [return r]. Refreshing
    [PATH] from the registry swallows its own errors and shows only in
    what later subprocess calls find. *)
Fixpoint winget_loop (cmds : list (list string)) : M (option ProbeResult) :=
  match cmds with
  | [] => ret None
  | cmd :: rest =>
      let* r := try_except
        (let* result := subprocess_run w (Run cmd 600 false true None) in
         if returncode result =? 0 then
           let* _ := sleep 5 in
           let* test_result := subprocess_run w (Run ["node"; "--version"] 10 false true None) in
           if returncode test_result =? 0 then
             let version := PyStr.strip (stdout test_result) in
             ret (Some (probe true ("Node.js installed successfully: " +:+ version)
                          "Installed via Windows Package Manager (winget)"))
           else ret None
         else ret None)
        (fun _ => ret None) in
      match r with
      | Some p => ret (Some p)
      | None => winget_loop rest
      end
  end.

Definition _install_nodejs : M ProbeResult :=
  try_except
    (let* r :=
       if is_windows w then
         let* winget_check := subprocess_run w (Run ["winget"; "--version"] 10 false true None) in
         if negb (returncode winget_check =? 0) then
           ret (Some (probe false "Cannot auto-install Node.js (winget not available)"
                        "Please install manually from https://nodejs.org (version 18 or higher)"))
         else winget_loop winget_commands
       else ret None in
     match r with
     | Some p => ret p
     | None =>
         ret (probe false "Node.js auto-installation failed"
                "Please install manually: 1) Go to https://nodejs.org 2) Download LTS version 3) Run installer 4) Restart this application")
     end)
    (fun e =>
       ret (probe false ("Node.js installation failed: " +:+ exn_str e)
              "Please install manually from https://nodejs.org")).

(** What [check_nodejs] does with the output of a version command that
    exited with code 0. *)
Definition node_version_found (node_cmd version : string) : M ProbeResult :=
  try_except_when (fun e => is_class ValueError e || is_class IndexError e)
    (let* major_version := lift (parse_major_version version) in
     if 16 <=? major_version then
       let* npm_result := subprocess_run w (Run ["npm"; "--version"] 10 false true None) in
       let npm_info :=
         if returncode npm_result =? 0 then ", npm: " +:+ PyStr.strip (stdout npm_result) else "" in
       ret (probe true ("Node.js " +:+ version +:+ " is installed")
              ("Command: " +:+ node_cmd +:+ ", Version: " +:+ version +:+ npm_info))
     else
       if auto_fix then _install_nodejs
       else ret (probe false ("Node.js " +:+ version +:+ " is too old (need v16+)")
                   ("Current: " +:+ version +:+ ", Required: v16+")))
    (fun _ =>
       ret (probe true ("Node.js " +:+ version +:+ " detected (version parsing failed)")
              ("Command: " +:+ node_cmd +:+ ", Raw version: " +:+ version))).

Definition node_version_args (node_cmd : string) : RunArgs :=
  Run [node_cmd; "--version"] 15 false true None.

(** The loop over [node_commands]; every [except] clause is [continue]. *)
Fixpoint node_commands_loop (node_commands : list string) : M (option ProbeResult) :=
  match node_commands with
  | [] => ret None
  | node_cmd :: rest =>
      let* r := try_except
        (let* result := subprocess_run w (node_version_args node_cmd) in
         if returncode result =? 0 then
           let version := PyStr.strip (stdout result) in
           let* p := node_version_found node_cmd version in
           ret (Some p)
         else ret None)
        (fun _ => ret None) in
      match r with
      | Some p => ret (Some p)
      | None => node_commands_loop rest
      end
  end.

Definition common_paths : list string :=
  [ path_str w [default "" (environ w "PROGRAMFILES"); "nodejs"; "node.exe"];
    path_str w [default "" (environ w "PROGRAMFILES(X86)"); "nodejs"; "node.exe"];
    path_str w [default "" (environ w "APPDATA"); "npm"; "node.exe"];
    path_str w [default "" (environ w "LOCALAPPDATA"); "nvs"; "default"; "node.exe"] ].

Fixpoint common_paths_loop (paths : list string) : M (option ProbeResult) :=
  match paths with
  | [] => ret None
  | path :: rest =>
      let* present := exists_ w path in
      let* r :=
        if present then
          try_except
            (let* result := subprocess_run w (Run [path; "--version"] 10 false true None) in
             if returncode result =? 0 then
               let version := PyStr.strip (stdout result) in
               ret (Some (probe true ("Node.js " +:+ version +:+ " found at " +:+ path)
                            ("Path: " +:+ path +:+ ", Version: " +:+ version +:+ " (not in PATH)")))
             else ret None)
            (fun _ => ret None)
        else ret None in
      match r with
      | Some p => ret (Some p)
      | None => common_paths_loop rest
      end
  end.

Definition check_nodejs : M ProbeResult :=
  let* found := node_commands_loop ["node"; "nodejs"] in
  match found with
  | Some p => ret p
  | None =>
      let* found := if is_windows w then common_paths_loop common_paths else ret None in
      match found with
      | Some p => ret p
      | None =>
          if auto_fix then _install_nodejs
          else ret (probe false "Node.js not found"
                      "Node.js is not installed or not accessible. Please install from https://nodejs.org")
      end
  end.
End SystemChecker.

(** ** [server_manager.py]: installation backends *)

Section MCPServerManager.
Variable w : World.

(** [subprocess.run] as the installer calls it for its own commands:
    through the shell on Windows. *)
Definition run_platform (cmd : list string) (timeout : Z) (text : bool) : M CompletedProcess :=
  subprocess_run w (Run cmd timeout (is_windows w) text None).

Definition _auto_install_nodejs : M bool :=
  try_except
    (let* result := subprocess_run w
        (Run ["winget"; "install"; "OpenJS.NodeJS"; "--accept-package-agreements";
              "--accept-source-agreements"] 300 false true None) in
     ret (returncode result =? 0))
    (fun _ => ret false).

Definition vscode_extensions : list string := ["cline"; "roo"; "claude_desktop"].

(** [for extension in [...]: try: add_server_to_extension(...) except: ...] *)
Fixpoint configure_each (extensions : list string) (vscode_config : LaunchDict) : M unit :=
  match extensions with
  | [] => ret tt
  | extension :: rest =>
      let* _ := try_except
                  (let* _ := add_server_to_extension w extension vscode_config in ret tt)
                  (fun _ => ret tt) in
      configure_each rest vscode_config
  end.

Definition _configure_server_in_vscode (server_config : ServerDescriptor) : M unit :=
  try_except
    (let server_name := default "Unknown" (sd_name server_config) in
     let server_type := default "" (sd_type server_config) in
     let package := default "" (sd_package server_config) in
     if String.eqb server_type "npm" && nonempty package then
       let config := default empty_configuration (sd_configuration server_config) in
       let command := default (CmdStr "npx") (c_command config) in
       let args := default [package] (c_args config) in
       let args :=
         if match args with [] => true | _ => false end
            || negb (existsb (String.eqb package) args)
         then package :: args else args in
       let vscode_config :=
         {| l_name := Some server_name; l_command := Some command;
            l_args := Some args; l_env := Some (default [] (c_env config)) |} in
       configure_each vscode_extensions vscode_config
     else ret tt)
    (fun _ => ret tt).

Definition npm_version_args : RunArgs := Run ["npm"; "--version"] 10 (is_windows w) false None.

(** The availability check of [_install_npm_server]: [Some r] is an early
    [return r], [None] falls through to the installation. *)
Definition npm_check_available : M (option InstallResult) :=
  try_except
    (let* npm_check := subprocess_run w npm_version_args in
     if negb (returncode npm_check =? 0) then
       let* _ := decode w (stderr npm_check) in
       ret (Some (false, "npm is not available. Please install Node.js first."))
     else
       let* _ := decode w (stdout npm_check) in
       ret None)
    (fun e =>
       if is_class FileNotFoundError e then
         if is_windows w then
           let* nodejs_success := _auto_install_nodejs in
           if nodejs_success then
             try_except
               (let* npm_check := subprocess_run w npm_version_args in
                if returncode npm_check =? 0 then
                  let* _ := decode w (stdout npm_check) in
                  ret None
                else
                  ret (Some (false, "Node.js installed but npm still not working. Please restart the application.")))
               (fun _ =>
                  ret (Some (false, "Node.js installed but npm still not available. Please restart the application.")))
           else
             ret (Some (false, "Node.js/npm not found. Please install Node.js from https://nodejs.org/ and restart the application."))
         else
           ret (Some (false, "Node.js/npm not found. Please install Node.js from https://nodejs.org/ and restart the application."))
       else
         ret (Some (false, "Cannot check npm availability: " +:+ exn_str e))).

Definition npm_install_cmd (package : string) : list string := ["npm"; "install"; "-g"; package].

Definition _install_npm_server (server_config : ServerDescriptor) (target_path : option string)
  : M InstallResult :=
  let package := default "" (sd_package server_config) in
  let server_name := default package (sd_name server_config) in
  if negb (nonempty package) then ret (false, "No package specified")
  else
    try_except
      (let* early := npm_check_available in
       match early with
       | Some r => ret r
       | None =>
           let install_cmd := npm_install_cmd package in
           let* ran := try_except
                         (let* result := run_platform install_cmd 300 true in ret (inr result))
                         (fun install_error =>
                            ret (inl (false, "Installation error: " +:+ exn_str install_error))) in
           match ran with
           | inl r => ret r
           | inr result =>
               if returncode result =? 0 then
                 let success_msg := "Successfully installed " +:+ server_name in
                 let* _ := _configure_server_in_vscode server_config in
                 ret (true, success_msg)
               else
                 ret (false, "npm install failed (exit code " +:+ PyStr.of_Z (returncode result)
                             +:+ "): " +:+ stderr result)
           end
       end)
      (fun e =>
         if is_class TimeoutExpired e then ret (false, "Installation timed out")
         else ret (false, "Installation error: " +:+ exn_str e)).

Definition _install_git_server (server_config : ServerDescriptor) (target_path : option string)
  : M InstallResult :=
  let repository := default "" (sd_repository server_config) in
  let server_name := default "Git Server" (sd_name server_config) in
  if negb (nonempty repository) then ret (false, "No repository URL specified")
  else
    try_except
      (let* git_check := run_platform ["git"; "--version"] 10 false in
       if negb (returncode git_check =? 0) then
         ret (false, "git is not available. Please install Git first.")
       else
         let target_path :=
           if nonempty (default "" target_path)
           then path_str w [default "" target_path]
           else path_str w [home w; "mcp-servers";
                            PyStr.lower (PyStr.replace server_name " " "-")] in
         let* _ := mkdir w target_path in
         let clone_cmd := ["git"; "clone"; repository; target_path] in
         let* result := run_platform clone_cmd 300 true in
         if returncode result =? 0 then
           let package_json := path_str w [target_path; "package.json"] in
           let* has_manifest := exists_ w package_json in
           let* _ :=
             if has_manifest then
               let* _ := subprocess_run w (Run ["npm"; "install"] 300 false true (Some target_path)) in
               ret tt
             else ret tt in
           ret (true, "Successfully cloned " +:+ server_name +:+ " to " +:+ target_path)
         else
           ret (false, "git clone failed: " +:+ stderr result))
      (fun e =>
         if is_class TimeoutExpired e then ret (false, "Git clone timed out")
         else ret (false, "Git installation error: " +:+ exn_str e)).

(** The interpreter check of [_install_python_server]: [inl r] is an
    early [return r], [inr python_cmd] the interpreter found. *)
Definition python_check_available : M (InstallResult + string) :=
  let* python_check := run_platform ["python"; "--version"] 10 false in
  if negb (returncode python_check =? 0) then
    let* python_check := run_platform ["python3"; "--version"] 10 false in
    if negb (returncode python_check =? 0) then
      ret (inl (false, "Python is not available. Please install Python first."))
    else ret (inr "python3")
  else ret (inr "python").

Definition _install_python_server (server_config : ServerDescriptor) (target_path : option string)
  : M InstallResult :=
  let package := default "" (sd_package server_config) in
  let repository := default "" (sd_repository server_config) in
  let server_name := default "Python Server" (sd_name server_config) in
  try_except
    (let* checked := python_check_available in
     match checked with
     | inl r => ret r
     | inr python_cmd =>
         if nonempty package then
           let install_cmd := [python_cmd; "-m"; "pip"; "install"; package] in
           let* result := run_platform install_cmd 300 true in
           if returncode result =? 0 then
             ret (true, "Successfully installed Python package " +:+ package)
           else
             ret (false, "pip install failed: " +:+ stderr result)
         else if nonempty repository then
           let install_cmd := [python_cmd; "-m"; "pip"; "install"; "git+" +:+ repository] in
           let* result := subprocess_run w (Run install_cmd 300 false true None) in
           if returncode result =? 0 then
             ret (true, "Successfully installed Python server from " +:+ repository)
           else
             ret (false, "pip install from git failed: " +:+ stderr result)
         else
           ret (false, "No package or repository specified for Python server")
     end)
    (fun e =>
       if is_class TimeoutExpired e then ret (false, "Python installation timed out")
       else ret (false, "Python installation error: " +:+ exn_str e)).

(** *** Docker set-up helpers *)

Definition docker_install_commands : list (list string) :=
  [ ["winget"; "install"; "Docker.DockerDesktop"; "--silent"; "--accept-package-agreements"; "--accept-source-agreements"];
    ["winget"; "install"; "docker"; "--silent"; "--accept-package-agreements"; "--accept-source-agreements"] ].

Fixpoint docker_install_loop (cmds : list (list string)) : M (option InstallResult) :=
  match cmds with
  | [] => ret None
  | cmd :: rest =>
      let* r := try_except
        (let* result := subprocess_run w (Run cmd 600 false true None) in
         if returncode result =? 0 then
           ret (Some (true, "Docker Desktop installed successfully. Please restart the application to complete setup."))
         else ret None)
        (fun _ => ret None) in
      match r with
      | Some x => ret (Some x)
      | None => docker_install_loop rest
      end
  end.

Definition _install_docker : M InstallResult :=
  try_except
    (if is_windows w then
       let* r := docker_install_loop docker_install_commands in
       match r with
       | Some x => ret x
       | None => ret (false, "Automatic Docker installation failed. Please install Docker Desktop manually from https://docker.com/products/docker-desktop")
       end
     else
       ret (false, "Automatic Docker installation not supported on this platform. Please install Docker manually."))
    (fun e => ret (false, "Docker installation failed: " +:+ exn_str e)).

Definition docker_start_commands : list (list string) :=
  [ ["powershell"; "-Command"; "Start-Process"; "'Docker Desktop'"];
    ["cmd"; "/c"; "start"; "Docker Desktop"] ].

Fixpoint docker_start_loop (cmds : list (list string)) : M (option InstallResult) :=
  match cmds with
  | [] => ret None
  | cmd :: rest =>
      let* r := try_except
        (let* result := subprocess_run w (Run cmd 30 false true None) in
         if returncode result =? 0 then
           let* _ := sleep 10 in
           let* docker_status := get_docker_status w in
           if status docker_status then ret (Some (true, "Docker started successfully"))
           else ret (Some (false, "Docker was started but is not yet ready. Please wait a moment and try again."))
         else ret None)
        (fun _ => ret None) in
      match r with
      | Some x => ret (Some x)
      | None => docker_start_loop rest
      end
  end.

Definition _start_docker : M InstallResult :=
  try_except
    (if is_windows w then
       let* r := docker_start_loop docker_start_commands in
       match r with
       | Some x => ret x
       | None => ret (false, "Could not start Docker automatically. Please start Docker Desktop manually.")
       end
     else
       try_except
         (let* result := subprocess_run w (Run ["sudo"; "systemctl"; "start"; "docker"] 30 false true None) in
          if returncode result =? 0 then ret (true, "Docker service started successfully")
          else ret (false, "Failed to start Docker service: " +:+ stderr result))
         (fun e => ret (false, "Failed to start Docker on Linux: " +:+ exn_str e)))
    (fun e => ret (false, "Failed to start Docker: " +:+ exn_str e)).

Definition _ensure_docker_available : M InstallResult :=
  try_except
    (let* docker_status := get_docker_status w in
     let is_installed := default false (installed docker_status) in
     if negb is_installed && PyStr.startswith (message docker_status) "Docker not" then
       _install_docker
     else if is_installed && negb (default false (daemon_running docker_status)) then
       _start_docker
     else if status docker_status then
       ret (true, "Docker is already available")
     else
       ret (false, "Unknown Docker state: " +:+ message docker_status))
    (fun e => ret (false, "Failed to check Docker status: " +:+ exn_str e)).

(** *** Containers *)

Definition _expand_volume_path (volume : string) : M string :=
  let* volume :=
    if PyStr.contains volume "${MCP_WORKSPACE_PATH" then
      let default_workspace := path_str w [home w; "mcp-workspace"] in
      let workspace_path := default default_workspace (environ w "MCP_WORKSPACE_PATH") in
      let* _ := mkdir w workspace_path in
      let volume := PyStr.replace volume "${MCP_WORKSPACE_PATH:-./workspace}" workspace_path in
      ret (PyStr.replace volume "${MCP_WORKSPACE_PATH}" workspace_path)
    else ret volume in
  if PyStr.contains volume "${MCP_DATA_PATH" then
    let default_data := path_str w [home w; "mcp-data"] in
    let data_path := default default_data (environ w "MCP_DATA_PATH") in
    let* _ := mkdir w data_path in
    let volume := PyStr.replace volume "${MCP_DATA_PATH:-./data}" data_path in
    ret (PyStr.replace volume "${MCP_DATA_PATH}" data_path)
  else ret volume.

Definition _cleanup_existing_container (container_name : string) : M unit :=
  try_except
    (let* _ := subprocess_run w (Run ["docker"; "stop"; container_name] 30 false false None) in
     let* _ := subprocess_run w (Run ["docker"; "rm"; container_name] 30 false false None) in
     ret tt)
    (fun _ => ret tt).

Fixpoint volume_flags (volumes : list string) : M (list string) :=
  match volumes with
  | [] => ret []
  | volume :: rest =>
      let* expanded_volume := _expand_volume_path volume in
      let* flags := volume_flags rest in
      ret ("-v" :: expanded_volume :: flags)
  end.

Definition container_name_of (server_name : string) : string :=
  "mcp-" +:+ PyStr.replace (PyStr.lower server_name) " " "-".

Definition _run_docker_container (server_config : ServerDescriptor) (image : string)
  : M InstallResult :=
  let server_name := default "Server" (sd_name server_config) in
  try_except
    (let config := default empty_configuration (sd_configuration server_config) in
     let run_mode := default "daemon" (c_run_mode config) in
     let* configured :=
       if String.eqb run_mode "interactive" then
         ret (inr {| l_name := Some server_name; l_command := Some (CmdStr "docker");
                     l_args := Some ["run"; "-i"; "--rm"; "--init"; "--pull=always"; image];
                     l_env := Some (default [] (c_environment config)) |})
       else
         let container_name := container_name_of server_name in
         let ports := default [] (c_ports config) in
         let volumes := default [] (c_volumes config) in
         let environment := default [] (c_environment config) in
         let* vflags := volume_flags volumes in
         let run_cmd :=
           ["docker"; "run"; "-d"; "--name"; container_name]
           ++ flat_map (fun port => ["-p"; port]) ports
           ++ vflags
           ++ flat_map (fun kv => ["-e"; fst kv +:+ "=" +:+ snd kv]) environment
           ++ ["--restart"; "unless-stopped"]
           ++ [image] in
         let* _ := _cleanup_existing_container container_name in
         let* result := run_platform run_cmd 120 true in
         if negb (returncode result =? 0) then
           ret (inl (false, "Docker run failed: " +:+ stderr result))
         else
           let* command :=
             match default (CmdList ["npx"; "@playwright/mcp"]) (c_command config) with
             | CmdList l => ret l
             | CmdStr _ => raise (Exn TypeError ("can only concatenate list (not " +:+ dquote +:+ "str" +:+ dquote +:+ ") to list"))
             end in
           ret (inr {| l_name := Some server_name; l_command := Some (CmdStr "docker");
                       l_args := Some (["exec"; "-i"; container_name] ++ command);
                       l_env := Some environment |}) in
     match configured with
     | inl r => ret r
     | inr vscode_config =>
         let* _ := add_server_to_extension w "cline" vscode_config in
         let* _ := add_server_to_extension w "roo" vscode_config in
         ret (true, "Successfully configured " +:+ server_name +:+ " for MCP via Docker")
     end)
    (fun e =>
       if is_class TimeoutExpired e then ret (false, "Docker container start timed out")
       else ret (false, "Docker container error: " +:+ exn_str e)).

Definition _docker_image_exists (image : string) : M bool :=
  try_except
    (let* result := subprocess_run w (Run ["docker"; "image"; "inspect"; image] 30 false false None) in
     ret (returncode result =? 0))
    (fun _ => ret false).

Definition dockerfile_map : list (string * string) :=
  [ ("mcp-filesystem", "Dockerfile.filesystem");
    ("mcp-browser", "Dockerfile.playwright");
    ("mcp-git", "Dockerfile.git");
    ("mcp-memory", "Dockerfile.memory") ].

Definition docker_build_cmd (dockerfile_path image : string) : list string :=
  ["docker"; "build"; "-f"; dockerfile_path; "-t"; image; "docker"].

Definition _build_local_docker_image (server_config : ServerDescriptor) (image : string)
  : M InstallResult :=
  let server_name := default "Server" (sd_name server_config) in
  try_except
    (let* image_name := lift_option (head (PyStr.split image ":"%char))
                          (Exn IndexError "list index out of range") in
     match Dict.get dockerfile_map image_name with
     | None => ret (false, "No Dockerfile found for image: " +:+ image_name)
     | Some dockerfile =>
         let dockerfile_path := path_str w ["docker"; dockerfile] in
         let* found := exists_ w dockerfile_path in
         if negb found then ret (false, "Dockerfile not found: " +:+ dockerfile_path)
         else
           let build_cmd := docker_build_cmd dockerfile_path image in
           let* result := run_platform build_cmd 1200 true in
           if returncode result =? 0 then
             let* _ := add_server_to_extension w "cline" (descriptor_as_launch server_config) in
             let* _ := add_server_to_extension w "roo" (descriptor_as_launch server_config) in
             ret (true, "Successfully built and configured " +:+ server_name)
           else
             ret (false, "Docker build failed: " +:+ stderr result)
     end)
    (fun e =>
       if is_class TimeoutExpired e then ret (false, "Docker build timed out")
       else ret (false, "Docker build error: " +:+ exn_str e)).

Definition _build_and_run_docker_image (server_config : ServerDescriptor) (image : string)
  : M InstallResult :=
  let* build_result := _build_local_docker_image server_config image in
  if negb (fst build_result) then ret build_result
  else _run_docker_container server_config image.

(** *** [_install_docker_server_impl]

    The function's local variables [pull_cmd] and [result] are bound only
    by the statements that assign them; a block either returns from the
    function or falls through with the locals as they then are. *)

Record PullLocals : Set := {
  pull_cmd : option (list string);
  result : option CompletedProcess
}.

Inductive flow : Set :=
| Return (r : InstallResult)
| FallThrough (locals : PullLocals).

(** The naming convention for images that are built locally. *)
Definition is_local_build (image : string) : bool :=
  PyStr.startswith image "mcp-" && PyStr.contains image ":".

(** The Docker status check at the head of the function: [Some r] is an
    early [return r]. *)
Definition docker_ready : M (option InstallResult) :=
  let* docker_status := get_docker_status w in
  if negb (status docker_status) then
    let* install_result := _ensure_docker_available in
    if negb (fst install_result) then
      ret (Some (false, "Docker setup failed: " +:+ snd install_result))
    else
      let* docker_status := get_docker_status w in
      if negb (status docker_status) then
        ret (Some (false, "Docker setup completed but Docker still not available"))
      else ret None
  else ret None.

(** The [if image.startswith("mcp-") and ":" in image: ... else: ...]
    statement. *)
Definition docker_image_step (server_config : ServerDescriptor) (image : string) : M flow :=
  if is_local_build image then
    let* present := _docker_image_exists image in
    if present then
      let* r := _run_docker_container server_config image in ret (Return r)
    else
      let* r := _build_and_run_docker_image server_config image in ret (Return r)
  else
    let pull_cmd := ["docker"; "pull"; image] in
    let* result := run_platform pull_cmd 600 true in
    ret (FallThrough {| pull_cmd := Some pull_cmd; result := Some result |}).

Definition unbound (name : string) : exn :=
  Exn UnboundLocalError
    ("cannot access local variable '" +:+ name +:+ "' where it is not associated with a value").

(** The statements after the [if]/[else]: they read [pull_cmd], then
    [result]. *)
Definition docker_after_pull (server_config : ServerDescriptor) (image : string)
    (locals : PullLocals) : M InstallResult :=
  let* pull_cmd := lift_option (pull_cmd locals) (unbound "pull_cmd") in
  let* result := lift_option (result locals) (unbound "result") in
  if returncode result =? 0 then _run_docker_container server_config image
  else ret (false, "docker pull failed: " +:+ stderr result).

Definition _install_docker_server_impl (server_config : ServerDescriptor) : M InstallResult :=
  let image := default "" (sd_image server_config) in
  try_except
    (let* early := docker_ready in
     match early with
     | Some r => ret r
     | None =>
         let* step := docker_image_step server_config image in
         match step with
         | Return r => ret r
         | FallThrough locals => docker_after_pull server_config image locals
         end
     end)
    (fun e =>
       if is_class TimeoutExpired e then ret (false, "Docker pull timed out")
       else ret (false, "Docker installation error: " +:+ exn_str e)).

Definition _install_fallback_server (original_config fallback_config : ServerDescriptor)
  : M InstallResult :=
  let fallback_type := default "unknown" (sd_type fallback_config) in
  try_except
    (let temp_config := descriptor_update original_config fallback_config in
     if String.eqb fallback_type "npm" then _install_npm_server temp_config None
     else if String.eqb fallback_type "python" then _install_python_server temp_config None
     else if String.eqb fallback_type "git" then _install_git_server temp_config None
     else ret (false, "Unsupported fallback type: " +:+ fallback_type))
    (fun e => ret (false, "Fallback installation failed: " +:+ exn_str e)).

Definition _install_docker_server (server_config : ServerDescriptor) : M InstallResult :=
  let image := default "" (sd_image server_config) in
  if negb (nonempty image) then ret (false, "No Docker image specified")
  else
    let fallback_config := sd_fallback server_config in
    try_except
      (_install_docker_server_impl server_config)
      (fun docker_error =>
         match fallback_config with
         | Some fb =>
             if descriptor_truthy fb then _install_fallback_server server_config fb
             else ret (false, "Docker installation failed: " +:+ exn_str docker_error)
         | None => ret (false, "Docker installation failed: " +:+ exn_str docker_error)
         end).

(** *** The dispatcher

    [install_server] reaches its backends through [self]; the dispatcher is
    first given for arbitrary backends and then tied to the four of this
    class. *)
Section Dispatcher.
Variable self_install_npm_server : ServerDescriptor -> option string -> M InstallResult.
Variable self_install_git_server : ServerDescriptor -> option string -> M InstallResult.
Variable self_install_python_server : ServerDescriptor -> option string -> M InstallResult.
Variable self_install_docker_server : ServerDescriptor -> M InstallResult.

(** The body of the [try] statement. *)
Definition dispatch (server_config : ServerDescriptor) (target_path : option string)
  : M InstallResult :=
  let server_type := default "unknown" (sd_type server_config) in
  if String.eqb server_type "npm" then self_install_npm_server server_config target_path
  else if String.eqb server_type "git" then self_install_git_server server_config target_path
  else if String.eqb server_type "python" then self_install_python_server server_config target_path
  else if String.eqb server_type "docker" then self_install_docker_server server_config
  else ret (false, "Unsupported server type: " +:+ server_type).

Definition install_server_via (server_config : ServerDescriptor) (target_path : option string)
  : M InstallResult :=
  try_except
    (dispatch server_config target_path)
    (fun e => ret (false, "Installation failed: " +:+ exn_str e)).
End Dispatcher.

Definition install_server : ServerDescriptor -> option string -> M InstallResult :=
  install_server_via _install_npm_server _install_git_server _install_python_server
                     _install_docker_server.
End MCPServerManager.

(** ** [server_manager.py]: discovery *)

(** [self.servers] is what [json.load] made of [config/servers.json], or
    the built-in default dict: any JSON value. *)


Module Discovery.

(** [re.findall(r'@modelcontextprotocol/server-(\w+)', content)] on ASCII
    text. *)
Definition is_word (c : ascii) : bool :=
  PyStr.is_upper c || PyStr.is_lower c || PyStr.is_digit c || Ascii.eqb c "_"%char.

Fixpoint take_word (s : string) : string :=
  match s with
  | EmptyString => EmptyString
  | String c s' => if is_word c then String c (take_word s') else EmptyString
  end.

Fixpoint drop_chars (n : nat) (s : string) : string :=
  match n, s with
  | S k, String _ s' => drop_chars k s'
  | _, _ => s
  end.

Definition server_prefix : string := "@modelcontextprotocol/server-".

Fixpoint findall_go (skip : nat) (s : string) : list string :=
  match s with
  | EmptyString => []
  | String _ s' =>
      match skip with
      | S k => findall_go k s'
      | O =>
          if String.prefix server_prefix s then
            let word := take_word (drop_chars (String.length server_prefix) s) in
            if nonempty word
            then word :: findall_go (Nat.pred (String.length server_prefix + String.length word)) s'
            else findall_go O s'
          else findall_go O s'
      end
  end.

Definition findall_server_packages (content : string) : list string := findall_go O content.




(** A loop that appends one built entry per item to the local list
    [servers]; when an item raises, the loop stops and [servers] keeps
    what was appended before. *)
Fixpoint append_each (build : json -> outcome json) (items : list json) (servers : list json)
  : list json * option exn :=
  match items with
  | [] => (servers, None)
  | item :: rest =>
      match build item with
      | Ret server => append_each build rest (servers ++ [server])
      | Raise e => (servers, Some e)
      end
  end.

Definition github_server (repo : json) : outcome json :=
  let+ name := json_getitem repo "name" in
  let+ description := json_getitem repo "description" in
  let+ clone_url := json_getitem repo "clone_url" in
  let+ stars := json_getitem repo "stargazers_count" in
  let+ language := json_getitem repo "language" in
  Ret (JObj [ ("name", name);
              ("description", if json_truthy description then description else JStr "No description");
              ("type", JStr "git");
              ("repository", clone_url);
              ("category", JStr "community");
              ("stars", stars);
              ("language", language);
              ("source", JStr "github") ]).

Definition npm_server (package : json) : outcome json :=
  let+ pkg := json_get package "package" (JObj []) in
  let+ name := json_get pkg "name" (JStr "Unknown") in
  let+ description := json_get pkg "description" (JStr "No description") in
  let+ package_name := json_get pkg "name" JNull in
  let+ version := json_get pkg "version" JNull in
  Ret (JObj [ ("name", name);
              ("description", description);
              ("type", JStr "npm");
              ("package", package_name);
              ("version", version);
              ("category", JStr "npm");
              ("source", JStr "npm") ]).


(** [response.json()] *)
Definition response_json (response : HttpResponse) : outcome json :=
  or_raise (json_body response) (Exn ValueError "Expecting value").

Definition github_url : string := "https://api.github.com/search/repositories".
Definition github_params : list (string * string) :=
  [ ("q", "mcp-server OR " +:+ dquote +:+ "model context protocol" +:+ dquote +:+ " server");
    ("sort", "stars"); ("order", "desc"); ("per_page", "20") ].

Section Sources.
Variable w : World.

(** [requests.get(url, params=..., timeout=...)] *)
Definition requests_get (url : string) (params : list (string * string)) (timeout : Z)
  : M HttpResponse :=
  let* t := get_trace in
  let* _ := emit (EvHttpGet url params timeout) in
  lift (http_get w t url).

Definition _discover_github_servers : M (list json) :=
  let* r := try_except
    (let* response := requests_get github_url github_params 8 in
     if status_code response =? 200 then
       let* data := lift (response_json response) in
       let* items := lift (json_get data "items" (JArr [])) in
       let* repos := lift (json_iter items) in
       ret (append_each github_server repos [])
     else ret ([], None))
    (fun e => ret ([], Some e)) in
  ret (fst r).



Variable self_servers : json.

End Sources.
End Discovery.

(** ** [vscode_config.py]: listing, removing and replacing servers *)

(** [list(j.keys())]: only a dict has [keys]. *)
Definition json_keys (j : json) : outcome (list string) :=
  match j with
  | JObj kv => Ret (map fst kv)
  | _ => Raise (Exn AttributeError "object has no attribute 'keys'")
  end.

(** The dict without the key [k]; the other keys keep their order. *)
Definition dict_remove {V} (d : list (string * V)) (k : string) : list (string * V) :=
  List.filter (fun e => negb (String.eqb (fst e) k)) d.

(** [del j[k]] for a string key; the result is the container afterwards. *)
Definition json_delitem (j : json) (k : string) : outcome json :=
  match j with
  | JObj kv =>
      if Dict.has kv k then Ret (JObj (dict_remove kv k)) else Raise (Exn KeyError k)
  | JArr _ => Raise (Exn TypeError "list indices must be integers or slices, not str")
  | _ => Raise (Exn TypeError "object doesn't support item deletion")
  end.

(** [_format_servers_for_cline], which [_format_servers_for_roo] calls. *)
Definition _format_servers_for_cline (servers : list LaunchDict) : list (string * json) :=
  fold_left (fun formatted_servers server =>
               Dict.set formatted_servers (default "unknown" (l_name server)) (server_entry server))
            servers [].

Definition _format_servers_for_roo (servers : list LaunchDict) : list (string * json) :=
  _format_servers_for_cline servers.

Section VSCodeExtensionConfigMore.
Variable w : World.

Definition update_extension_config (extension : string) (mcp_servers : list LaunchDict) : M bool :=
  match extension_configs w !! extension with
  | None => ret false
  | Some ext_info =>
      let config_file := config_file_of w ext_info in
      try_except
        (let* _ := mkdir w (config_path ext_info) in
         let* present := settings_exists config_file in
         let* config := if present then load_json config_file else ret (JObj []) in
         let* config :=
           if String.eqb extension "cline" then
             lift (json_setitem config "mcpServers" (JObj (_format_servers_for_cline mcp_servers)))
           else if String.eqb extension "roo" then
             lift (json_setitem config "mcpServers" (JObj (_format_servers_for_roo mcp_servers)))
           else ret config in
         let* _ := write_json w config_file config in
         ret true)
        (fun _ => ret false)
  end.

Definition remove_server_from_extension (extension server_name : string) : M bool :=
  let* current_config := get_extension_config w extension in
  match current_config with
  | JNull => ret false
  | _ =>
      let* present := lift (json_contains current_config "mcpServers") in
      if negb present then ret false
      else
        let* servers := lift (json_getitem current_config "mcpServers") in
        let* found := lift (json_contains servers server_name) in
        if found then
          let* servers := lift (json_delitem servers server_name) in
          let* current_config := lift (json_setitem current_config "mcpServers" servers) in
          _save_extension_config w extension current_config
        else ret false
  end.

Definition list_configured_servers (extension : string) : M (list string) :=
  let* config := get_extension_config w extension in
  if json_truthy config then
    let* present := lift (json_contains config "mcpServers") in
    if present then
      let* servers := lift (json_getitem config "mcpServers") in
      lift (json_keys servers)
    else ret []
  else ret [].


End VSCodeExtensionConfigMore.

(** ** [server_manager.py]: uninstalling *)

Section Uninstall.
Variable w : World.

(** [for extension in ["cline", "roo"]: remove_server_from_extension(...)] *)
Fixpoint remove_from_each (extensions : list string) (server_name : string) : M unit :=
  match extensions with
  | [] => ret tt
  | extension :: rest =>
      let* _ := remove_server_from_extension w extension server_name in
      remove_from_each rest server_name
  end.

Definition npm_uninstall_args (package : string) : RunArgs :=
  Run ["npm"; "uninstall"; "-g"; package] 120 false true None.

Definition uninstall_server (server_config : ServerDescriptor) : M InstallResult :=
  let server_name := default "Unknown" (sd_name server_config) in
  let server_type := default "" (sd_type server_config) in
  let not_implemented : M InstallResult :=
    ret (false, "Uninstall not implemented for type: " +:+ server_type) in
  try_except
    (if String.eqb server_type "npm" then
       let package := default "" (sd_package server_config) in
       if nonempty package then
         let* result := subprocess_run w (npm_uninstall_args package) in
         if returncode result =? 0 then
           let* _ := remove_from_each ["cline"; "roo"] server_name in
           ret (true, "Successfully uninstalled " +:+ server_name)
         else ret (false, "npm uninstall failed: " +:+ stderr result)
       else not_implemented
     else not_implemented)
    (fun e => ret (false, "Uninstall failed: " +:+ exn_str e)).
End Uninstall.

(** ** [system_checker.py]: winget, the quick Docker check, the summary *)

Section SystemCheckerMore.
Variable w : World.
Variable auto_fix : bool.

Definition _install_winget : M ProbeResult :=
  ret (probe false "winget auto-installation not implemented"
         "Please install from Microsoft Store: 'App Installer'").

Definition check_winget : M ProbeResult :=
  if negb (is_windows w) then
    ret (probe true "winget not applicable (non-Windows)"
           "Windows Package Manager is Windows-specific")
  else
    try_except
      (let* result := subprocess_run w (Run ["winget"; "--version"] 10 false true None) in
       if returncode result =? 0 then
         let version := PyStr.strip (stdout result) in
         ret (probe true ("winget " +:+ version +:+ " is available") ("Version: " +:+ version))
       else
         if auto_fix then _install_winget
         else ret (probe false "winget not available" "Windows Package Manager not installed"))
      (fun e =>
         if auto_fix then _install_winget
         else ret (probe false ("winget check failed: " +:+ exn_str e) (exn_str e))).

Definition is_docker_available : M bool :=
  try_except
    (let* docker_result := check_docker w in
     ret (status docker_result && default false (daemon_running docker_result)))
    (fun _ => ret false).
End SystemCheckerMore.




(** ** Concrete hosts and descriptors

    Small worlds on which the embedding is run. *)

Module Scenario.

Definition posix_join (parts : list string) : string := String.concat "/" parts.

(** A POSIX host: home [/home/user], an empty environment, a writable
    file system, no network; [run] answers the subprocess calls and
    [present] the existence checks. *)
Definition posix_host (run : list event -> RunArgs -> outcome CompletedProcess)
    (present : list event -> string -> bool) : World :=
  {| is_windows := false;
     run_proc := run;
     path_exists := present;
     path_str := posix_join;
     home := "/home/user";
     environ := fun _ => None;
     bytes_decode := Some;
     mkdir_error := fun _ _ => None;
     open_write_error := fun _ _ => None;
     dump_error := fun _ _ => None;
     http_get := fun _ _ => Raise (Exn RequestException "Connection refused");
     set_order := fun names => names |}.

Definition fresh : state := State [] ∅ ∅.

Definition exits (code : Z) (out err : string) : outcome CompletedProcess :=
  Ret (Completed code out err).

Definition nothing_present : list event -> string -> bool := fun _ _ => false.

Definition every_command_succeeds : list event -> RunArgs -> outcome CompletedProcess :=
  fun _ _ => exits 0 "10.2.4" "".

Definition every_command_fails : list event -> RunArgs -> outcome CompletedProcess :=
  fun _ _ => exits 1 "" "command failed".

Definition descriptor (name type package image : option string)
    (fallback : option ServerDescriptor) : ServerDescriptor :=
  {| sd_name := name; sd_type := type; sd_package := package; sd_repository := None;
     sd_image := image; sd_configuration := None; sd_fallback := fallback;
     sd_command := None; sd_args := None; sd_env := None; sd_other := [] |}.

Definition filesystem_server : ServerDescriptor :=
  descriptor (Some "Filesystem MCP Server") (Some "npm")
             (Some "@modelcontextprotocol/server-filesystem") None None.

Definition filesystem_launch : LaunchDict :=
  {| l_name := Some "Filesystem MCP Server"; l_command := Some (CmdStr "npx");
     l_args := Some ["@modelcontextprotocol/server-filesystem"]; l_env := Some [] |}.

Definition ruby_server : ServerDescriptor :=
  descriptor (Some "Ruby MCP Server") (Some "ruby") (Some "mcp-rb") None None.

Definition bare_python_server : ServerDescriptor :=
  descriptor (Some "Python MCP Server") (Some "python") None None None.

Definition filesystem_image_server : ServerDescriptor :=
  descriptor None (Some "docker") None (Some "mcp-filesystem:latest") None.

(** The descriptor of [test_docker_fallback.py] and its fallback. *)
Definition playwright_fallback : ServerDescriptor :=
  descriptor None (Some "npm") (Some "@playwright/mcp") None None.

Definition browser_server : ServerDescriptor :=
  descriptor (Some "Browser Automation MCP Server") (Some "docker") None
             (Some "mcr.microsoft.com/playwright/mcp") (Some playwright_fallback).

(** Docker is installed and running, the image asked for is not there. *)
Definition docker_without_image : list event -> RunArgs -> outcome CompletedProcess :=
  fun _ a =>
    match run_cmd a with
    | "docker" :: "image" :: _ => exits 1 "" "Error: No such image"
    | _ => exits 0 "Docker version 24.0.7, build afdd53b" ""
    end.

(** Docker is installed and running, and pulling an image runs into the
    time limit. *)
Definition docker_pull_times_out : list event -> RunArgs -> outcome CompletedProcess :=
  fun _ a =>
    match run_cmd a with
    | "docker" :: "pull" :: _ =>
        Raise (Exn TimeoutExpired "Command '['docker', 'pull', 'mcr.microsoft.com/playwright/mcp']' timed out after 600 seconds")
    | _ => exits 0 "Docker version 24.0.7, build afdd53b" ""
    end.

Definition windows_join (parts : list string) : string := String.concat "\" parts.

(** A Windows host. *)
Definition windows_host (run : list event -> RunArgs -> outcome CompletedProcess)
    (present : list event -> string -> bool) : World :=
  {| is_windows := true;
     run_proc := run;
     path_exists := present;
     path_str := windows_join;
     home := "C:\Users\user";
     environ := fun k =>
       if String.eqb k "APPDATA" then Some "C:\Users\user\AppData\Roaming" else None;
     bytes_decode := Some;
     mkdir_error := fun _ _ => None;
     open_write_error := fun _ _ => None;
     dump_error := fun _ _ => None;
     http_get := fun _ _ => Raise (Exn RequestException "Connection refused");
     set_order := fun names => names |}.

Definition ran_winget (t : list event) : bool :=
  existsb (fun e => match e with
                    | EvRun a => match run_cmd a with "winget" :: _ => true | _ => false end
                    | _ => false
                    end) t.

(** npm is found only once winget has run. *)
Definition npm_after_winget : list event -> RunArgs -> outcome CompletedProcess :=
  fun t a =>
    match run_cmd a with
    | "npm" :: _ =>
        if ran_winget t then exits 0 "10.2.4" ""
        else Raise (Exn FileNotFoundError "[WinError 2] The system cannot find the file specified")
    | _ => exits 0 "" ""
    end.

Definition git_server : ServerDescriptor :=
  {| sd_name := Some "Example Git Server"; sd_type := Some "git"; sd_package := None;
     sd_repository := Some "https://github.com/example/mcp.git"; sd_image := None;
     sd_configuration := None; sd_fallback := None;
     sd_command := None; sd_args := None; sd_env := None; sd_other := [] |}.

Definition browser_daemon_server : ServerDescriptor :=
  {| sd_name := Some "Browser Automation"; sd_type := Some "docker"; sd_package := None;
     sd_repository := None; sd_image := Some "mcr.microsoft.com/playwright/mcp";
     sd_configuration :=
       Some {| c_command := None; c_args := None; c_env := None;
               c_ports := Some ["3000:3000"];
               c_volumes := Some ["${MCP_WORKSPACE_PATH:-./workspace}:/workspace"];
               c_environment := Some [("NODE_ENV", "production")];
               c_run_mode := None |};
     sd_fallback := None; sd_command := None; sd_args := None; sd_env := None; sd_other := [] |}.

(** The same host with a network. *)
Definition with_network (w : World) (net : list event -> string -> outcome HttpResponse) : World :=
  {| is_windows := is_windows w;
     run_proc := run_proc w;
     path_exists := path_exists w;
     path_str := path_str w;
     home := home w;
     environ := environ w;
     bytes_decode := bytes_decode w;
     mkdir_error := mkdir_error w;
     open_write_error := open_write_error w;
     dump_error := dump_error w;
     http_get := net;
     set_order := set_order w |}.



Definition complete_repo : json :=
  JObj [ ("name", JStr "mcp-server-sqlite"); ("description", JNull);
         ("clone_url", JStr "https://github.com/example/mcp-server-sqlite.git");
         ("stargazers_count", JInt 42); ("language", JStr "Python") ].

(** GitHub answers with two items, the second without the expected keys. *)
Definition github_second_item_broken : list event -> string -> outcome HttpResponse :=
  fun _ url =>
    if String.eqb url Discovery.github_url
    then Ret (Response 200 "" (Some (JObj [("items", JArr [complete_repo; JObj []])])))
    else Raise (Exn RequestException "Connection refused").

(** A backend that raises. *)
Definition broken_backend : ServerDescriptor -> option string -> M InstallResult :=
  fun _ _ => raise (Exn OSError "[Errno 28] No space left on device").

(** A Linux host where no command succeeds and no path exists. *)
Definition bare_linux : World := posix_host every_command_fails nothing_present.

Definition cline_settings : string :=
  "/home/user/.config/Code/User/globalStorage/saoudrizwan.claude-dev/settings/cline_mcp_settings.json".

(** A state in which the settings file of Cline holds [content]. *)
Definition with_cline_settings (content : fcontent) : state :=
  State [] {[ cline_settings := content ]} ∅.

Definition memory_entry : json :=
  JObj [("command", JStr "npx"); ("args", JArr [JStr "@modelcontextprotocol/server-memory"]);
        ("env", JObj [])].

(** Settings of Cline with one server and one unrelated key. *)
Definition settings_with_memory : json :=
  JObj [("mcpServers", JObj [("memory", memory_entry)]); ("theme", JStr "dark")].

(** Every command succeeds but [npm], which exits with code 1. *)
Definition npm_fails : list event -> RunArgs -> outcome CompletedProcess :=
  fun _ a =>
    match run_cmd a with
    | "npm" :: _ => exits 1 "" "npm ERR! code ENOENT"
    | _ => exits 0 "" ""
    end.

Definition everything_present : list event -> string -> bool := fun _ _ => true.

(** A python descriptor with both a package and a repository. *)
Definition python_server_both : ServerDescriptor :=
  {| sd_name := Some "Fetch"; sd_type := Some "python"; sd_package := Some "mcp-server-fetch";
     sd_repository := Some "https://github.com/example/fetch.git"; sd_image := None;
     sd_configuration := None; sd_fallback := None;
     sd_command := None; sd_args := None; sd_env := None; sd_other := [] |}.


(** Node.js 18 is installed under the name [node] only, and there is no
    [npm] command. *)
Definition node18_without_npm : list event -> RunArgs -> outcome CompletedProcess :=
  fun _ a =>
    match run_cmd a with
    | "node" :: _ => exits 0 "v18.17.0" ""
    | _ => Raise (Exn FileNotFoundError "[Errno 2] No such file or directory")
    end.


(** A Linux host on which a first settings file can be written and the
    disk is full from then on: a later write fails after the file has been
    opened. *)
Definition wrote_before (t : list event) : bool :=
  existsb (fun e => match e with EvWrite _ _ => true | _ => false end) t.

Definition disk_fills_up : World :=
  {| is_windows := false;
     run_proc := every_command_fails;
     path_exists := nothing_present;
     path_str := posix_join;
     home := "/home/user";
     environ := fun _ => None;
     bytes_decode := Some;
     mkdir_error := fun _ _ => None;
     open_write_error := fun _ _ => None;
     dump_error := fun t _ =>
       if wrote_before t then Some (Exn OSError "[Errno 28] No space left on device") else None;
     http_get := fun _ _ => Raise (Exn RequestException "Connection refused");
     set_order := fun names => names |}.

(** A version with the information separator 0x1c before the number:
    [str.strip] would remove the character, [int] refuses it. *)
Definition separator_version : string := String "v" (String (ascii_of_nat 28) "18.0").

(** Node.js 18 is installed, and the output of [npm] is not valid UTF-8. *)
Definition node18_npm_garbled : list event -> RunArgs -> outcome CompletedProcess :=
  fun _ a =>
    match run_cmd a with
    | "node" :: _ => exits 0 "v18.17.0" ""
    | _ => Raise (Exn UnicodeDecodeError "'utf-8' codec can't decode byte 0xff in position 0")
    end.

End Scenario.

(** ** Vocabulary of the properties *)

(** [emits_only P m]: whatever the state, [m] only appends to the trace, and
    every event it appends satisfies [P]. *)
Definition emits_only {A} (P : event -> bool) (m : M A) : Prop :=
  forall s, exists tail, trace (snd (m s)) = trace s ++ tail /\ forallb P tail = true.

(** Events of the file system. *)
Definition is_fs_event (e : event) : bool :=
  match e with EvMkdir _ | EvWrite _ _ => true | _ => false end.

Definition python_version_args (w : World) : RunArgs :=
  Run ["python"; "--version"] 10 (is_windows w) false None.
Definition python3_version_args (w : World) : RunArgs :=
  Run ["python3"; "--version"] 10 (is_windows w) false None.

Definition no_source_message : string := "No package or repository specified for Python server".

(** [docker run ...]: the command that starts a container. *)
Definition starts_container (e : event) : bool :=
  match e with
  | EvRun a => match run_cmd a with "docker" :: "run" :: _ => true | _ => false end
  | _ => false
  end.

Definition containers_started (t : list event) : list event := List.filter starts_container t.

Definition no_container (e : event) : bool := negb (starts_container e).

(** The attempt with [node_cmd] after the trace [t] does not end the loop
    over the command names: it raises, or exits with a non-zero code. *)
Definition attempt_fails (w : World) (t : list event) (node_cmd : string) : bool :=
  match run_proc w t (node_version_args node_cmd) with
  | Ret r => negb (returncode r =? 0)
  | Raise _ => true
  end.

Definition after (s : state) (e : event) : state :=
  State (trace s ++ [e]) (files s) (results s).



Definition npm_result (fetched : outcome HttpResponse) : list json :=
  match fetched with
  | Ret response =>
      if status_code response =? 200 then
        match (let+ data := Discovery.response_json response in
               let+ objects := json_get data "objects" (JArr []) in
               json_iter objects) with
        | Ret packages => fst (Discovery.append_each Discovery.npm_server packages [])
        | Raise _ => []
        end
      else []
  | Raise _ => []
  end.







(** ** Vocabulary of the further properties *)

(** What [get_extension_config] reads for an extension from the stored
    files: the parsed settings file, [JNull] when the extension is unknown
    or the file is missing or does not parse. *)
Definition stored_config (w : World) (extension : string) (fs : gmap string fcontent) : json :=
  match extension_configs w !! extension with
  | None => JNull
  | Some ext_info =>
      match fs !! config_file_of w ext_info with
      | Some (FJson j) => j
      | _ => JNull
      end
  end.

(** The servers of a configuration, when it is a dict with a dict under
    ["mcpServers"]. *)
Definition servers_of (config : json) : option (list (string * json)) :=
  match config with
  | JObj kv => match Dict.get kv "mcpServers" with Some (JObj servers) => Some servers | _ => None end
  | _ => None
  end.

(** The configuration [add_server_to_extension] saves, from the one it read:
    the statements between reading and saving, for "cline" and "roo". *)
Definition with_server (loaded : json) (server_name : string) (entry : json) : outcome json :=
  let current_config :=
    match loaded with JNull => JObj [("mcpServers", JObj [])] | c => c end in
  let+ present := json_contains current_config "mcpServers" in
  let+ current_config :=
    if present then Ret current_config
    else json_setitem current_config "mcpServers" (JObj []) in
  let+ servers := json_getitem current_config "mcpServers" in
  let+ servers := json_setitem servers server_name entry in
  json_setitem current_config "mcpServers" servers.

(** What [add_server_to_extension] builds on: the top-level dict and the
    servers of the configuration it read. [None] when the configuration, or
    its ["mcpServers"] entry, is of another JSON type. *)
Definition settings_base (loaded : json) : option (list (string * json) * list (string * json)) :=
  match loaded with
  | JNull => Some ([], [])
  | JObj kv =>
      match Dict.get kv "mcpServers" with
      | None => Some (kv, [])
      | Some (JObj servers) => Some (kv, servers)
      | Some _ => None
      end
  | _ => None
  end.

(** The subprocess calls, writer calls and file-system events aside, an
    event of one of the kinds a probe or a log-free helper may leave. *)
Definition is_run (e : event) : bool :=
  match e with EvRun _ => true | _ => false end.

Definition not_writer (e : event) : bool :=
  match e with EvAddServer _ _ | EvWrite _ _ => false | _ => true end.

Definition is_sleep_or_run (e : event) : bool :=
  match e with EvRun _ | EvSleep _ => true | _ => false end.

(** A subprocess that pulls, builds or runs a Docker image. *)
Definition touches_image (e : event) : bool :=
  match e with
  | EvRun a =>
      match run_cmd a with
      | "docker" :: "pull" :: _ | "docker" :: "build" :: _ | "docker" :: "run" :: _ => true
      | _ => false
      end
  | _ => false
  end.

Definition no_image_command (e : event) : bool := negb (touches_image e).

(** What [update_extension_config] starts from: the top-level dict of the
    settings file, empty when there is no file. *)
Definition update_base (content : option fcontent) : option (list (string * json)) :=
  match content with
  | None => Some []
  | Some (FJson (JObj kv)) => Some kv
  | Some _ => None
  end.

(** The last server of the list given to [_format_servers_for_cline] whose
    name (["unknown"] without one) is [name]. *)
Fixpoint last_named (servers : list LaunchDict) (name : string) : option LaunchDict :=
  match servers with
  | [] => None
  | server :: rest =>
      match last_named rest name with
      | Some later => Some later
      | None => if String.eqb (default "unknown" (l_name server)) name then Some server else None
      end
  end.

(** [m] never raises. *)
Definition returns {A} (m : M A) : Prop :=
  forall s, exists a s', m s = (Ret a, s').

(** [m] only appends events that satisfy [P] to the trace, and changes
    neither the stored files nor the recorded check results. *)
Definition effects_only {A} (P : event -> bool) (m : M A) : Prop :=
  forall s, exists tail,
    snd (m s) = State (trace s ++ tail) (files s) (results s) /\ forallb P tail = true.

(** The descriptor without its repository. *)
Definition without_repository (d : ServerDescriptor) : ServerDescriptor :=
  {| sd_name := sd_name d; sd_type := sd_type d; sd_package := sd_package d;
     sd_repository := None; sd_image := sd_image d; sd_configuration := sd_configuration d;
     sd_fallback := sd_fallback d; sd_command := sd_command d; sd_args := sd_args d;
     sd_env := sd_env d; sd_other := sd_other d |}.

(** The directory [_install_git_server] clones into. *)
Definition clone_target (w : World) (server_config : ServerDescriptor)
    (target_path : option string) : string :=
  if nonempty (default "" target_path)
  then path_str w [default "" target_path]
  else path_str w [home w; "mcp-servers";
                   PyStr.lower (PyStr.replace (default "Git Server" (sd_name server_config)) " " "-")].

(** Every value [m] returns satisfies [Q]. *)
Definition yields {A} (Q : A -> Prop) (m : M A) : Prop :=
  forall s a s', m s = (Ret a, s') -> Q a.

(** What setting Docker up may do: run commands other than docker pull,
    build and run, and wait. *)
Definition docker_setup_event (e : event) : bool :=
  is_sleep_or_run e && no_image_command e.

(** * Properties *)

(** ** The string functions on examples *)

Example strip_version : PyStr.strip ("v18.17.0" +:+ String "010"%char "") = "v18.17.0".
Proof. reflexivity. Qed.
Example split_version : PyStr.split "18.17.0" "."%char = ["18"; "17"; "0"].
Proof. reflexivity. Qed.
Example split_no_sep : PyStr.split "latest" ":"%char = ["latest"].
Proof. reflexivity. Qed.
Example replace_spaces : PyStr.replace "Browser Automation MCP" " " "-" = "Browser-Automation-MCP".
Proof. reflexivity. Qed.
Example replace_long : PyStr.replace "${A:-x}:/w:${A:-x}" "${A:-x}" "/home/u" = "/home/u:/w:/home/u".
Proof. reflexivity. Qed.
Example title_pkg : PyStr.title "brave_search" = "Brave_Search".
Proof. reflexivity. Qed.
Example int_major : PyStr.int "18" = Some 18.
Proof. reflexivity. Qed.
Example int_garbage : PyStr.int "18-nightly" = None.
Proof. reflexivity. Qed.
Example int_empty : PyStr.int "" = None.
Proof. reflexivity. Qed.

Example int_spaces : PyStr.int " 18 " = Some 18.
Proof. reflexivity. Qed.

Example int_separator : PyStr.int (String (ascii_of_nat 28) "18") = None.
Proof. reflexivity. Qed.

Example parse_major_separator :
  parse_major_version Scenario.separator_version
    = Raise (Exn ValueError ("invalid literal for int() with base 10: '"
                             +:+ String (ascii_of_nat 28) "18" +:+ "'")).
Proof. reflexivity. Qed.
Example of_Z_neg : PyStr.of_Z (-15) = "-15".
Proof. reflexivity. Qed.

Example findall_readme :
  Discovery.findall_server_packages
    "npx @modelcontextprotocol/server-memory and @modelcontextprotocol/server-brave_search, @modelcontextprotocol/server-"
  = ["memory"; "brave_search"].
Proof. reflexivity. Qed.

(** ** The installer on examples *)

Example windows_npm_remediation :
  let r := install_server (Scenario.windows_host Scenario.npm_after_winget Scenario.nothing_present)
             Scenario.filesystem_server None Scenario.fresh in
  fst r = Ret (true, "Successfully installed Filesystem MCP Server")
  /\ map run_cmd (subprocess_calls (trace (snd r)))
     = [ ["npm"; "--version"];
         ["winget"; "install"; "OpenJS.NodeJS"; "--accept-package-agreements";
          "--accept-source-agreements"];
         ["npm"; "--version"];
         ["npm"; "install"; "-g"; "@modelcontextprotocol/server-filesystem"] ]
  /\ map fst (file_writes (trace (snd r)))
     = [ "C:\Users\user\AppData\Roaming\Code\User\globalStorage\saoudrizwan.claude-dev\settings\cline_mcp_settings.json";
         "C:\Users\user\AppData\Roaming\Code\User\globalStorage\rooveterinaryinc.roo-cline\settings\mcp_settings.json" ].
Proof. vm_compute. repeat split; reflexivity. Qed.

Example git_clone_with_manifest :
  let r := install_server (Scenario.posix_host Scenario.every_command_succeeds (fun _ _ => true))
             Scenario.git_server None Scenario.fresh in
  fst r = Ret (true, "Successfully cloned Example Git Server to /home/user/mcp-servers/example-git-server")
  /\ subprocess_calls (trace (snd r))
     = [ Run ["git"; "--version"] 10 false false None;
         Run ["git"; "clone"; "https://github.com/example/mcp.git";
              "/home/user/mcp-servers/example-git-server"] 300 false true None;
         Run ["npm"; "install"] 300 false true (Some "/home/user/mcp-servers/example-git-server") ].
Proof. vm_compute. repeat split; reflexivity. Qed.

Example docker_daemon_container :
  let r := install_server (Scenario.posix_host Scenario.every_command_succeeds Scenario.nothing_present)
             Scenario.browser_daemon_server None Scenario.fresh in
  fst r = Ret (true, "Successfully configured Browser Automation for MCP via Docker")
  /\ map run_cmd (subprocess_calls (trace (snd r)))
     = [ ["docker"; "--version"];
         ["docker"; "info"];
         ["docker"; "pull"; "mcr.microsoft.com/playwright/mcp"];
         ["docker"; "stop"; "mcp-browser-automation"];
         ["docker"; "rm"; "mcp-browser-automation"];
         ["docker"; "run"; "-d"; "--name"; "mcp-browser-automation";
          "-p"; "3000:3000"; "-v"; "/home/user/mcp-workspace:/workspace";
          "-e"; "NODE_ENV=production"; "--restart"; "unless-stopped";
          "mcr.microsoft.com/playwright/mcp"] ]
  /\ writer_calls (trace (snd r))
     = [ ("cline", {| l_name := Some "Browser Automation"; l_command := Some (CmdStr "docker");
                      l_args := Some ["exec"; "-i"; "mcp-browser-automation"; "npx"; "@playwright/mcp"];
                      l_env := Some [("NODE_ENV", "production")] |});
         ("roo", {| l_name := Some "Browser Automation"; l_command := Some (CmdStr "docker");
                    l_args := Some ["exec"; "-i"; "mcp-browser-automation"; "npx"; "@playwright/mcp"];
                    l_env := Some [("NODE_ENV", "production")] |}) ].
Proof. vm_compute. repeat split; reflexivity. Qed.

(** ** Reasoning about the monad *)

Lemma try_except_returns {A} (body : M A) (handler : exn -> M A) s :
  (forall e s1, exists a s2, handler e s1 = (Ret a, s2)) ->
  exists a s2, try_except body handler s = (Ret a, s2).
Proof.
  intros Hh. unfold try_except.
  destruct (body s) as [[a|e] s1]; eauto.
Qed.

Lemma omap_snoc {A B} (f : A -> option B) (l : list A) (x : A) :
  omap f (l ++ [x]) = omap f l ++ from_option (fun y => [y]) [] (f x).
Proof.
  rewrite omap_app. simpl. destruct (f x); reflexivity.
Qed.

(** ** The IDE writer *)

Section WriterFacts.
Variable w : World.

Lemma extension_configs_other (extension : string) :
  extension <> "cline" -> extension <> "roo" ->
  extension_configs w !! extension = None.
Proof.
  intros Hc Hr. unfold extension_configs.
  rewrite lookup_insert_ne by congruence.
  rewrite lookup_insert_ne by congruence.
  apply lookup_empty.
Qed.

(** What is read for an extension depends on the stored files only. *)
Lemma get_extension_config_files (extension : string) (s1 s2 : state) :
  files s1 = files s2 ->
  fst (get_extension_config w extension s1) = fst (get_extension_config w extension s2).
Proof.
  intros Hf. unfold get_extension_config.
  destruct (extension_configs w !! extension) as [info|]; [|reflexivity].
  unfold try_except, bind, settings_exists, load_json, ret. rewrite Hf.
  destruct (files s2 !! config_file_of w info) as [[j|]|] eqn:E; simpl;
    rewrite ?Hf, ?E; reflexivity.
Qed.
End WriterFacts.

(** C10. The writer knows the extensions "cline" and "roo" only: for any
    other extension name, [add_server_to_extension] returns [False], writes
    no file, creates no directory, and leaves the stored settings, and so
    what [get_extension_config] reads for every extension, as they were. *)
Theorem add_server_to_unknown_extension
    (w : World) (extension : string) (server_config : LaunchDict) (s : state) :
  extension <> "cline" -> extension <> "roo" ->
  let r := add_server_to_extension w extension server_config s in
  fst r = Ret false
  /\ files (snd r) = files s
  /\ trace (snd r) = trace s ++ [EvAddServer extension server_config]
  /\ file_writes (trace (snd r)) = file_writes (trace s)
  /\ forall other, fst (get_extension_config w other (snd r)) = fst (get_extension_config w other s).
Proof.
  intros Hc Hr r.
  assert (Hnone := extension_configs_other w extension Hc Hr).
  assert (Heq : r = (Ret false,
                     State (trace s ++ [EvAddServer extension server_config]) (files s) (results s))).
  { subst r. unfold add_server_to_extension, get_extension_config, _save_extension_config.
    rewrite Hnone.
    apply String.eqb_neq in Hc, Hr.
    unfold bind, emit, ret, lift; simpl. rewrite Hc, Hr. reflexivity. }
  rewrite Heq; simpl. repeat split.
  - unfold file_writes. rewrite omap_snoc. simpl. apply app_nil_r.
  - intros other. apply get_extension_config_files. reflexivity.
Qed.

Lemma add_server_to_unknown_extension_witness :
  "claude_desktop" <> "cline" /\ "claude_desktop" <> "roo"
  /\ fst (add_server_to_extension
            (Scenario.posix_host Scenario.every_command_succeeds Scenario.nothing_present)
            "claude_desktop" Scenario.filesystem_launch Scenario.fresh) = Ret false.
Proof.
  split; [discriminate|]. split; [discriminate|].
  apply (add_server_to_unknown_extension
           (Scenario.posix_host Scenario.every_command_succeeds Scenario.nothing_present)
           "claude_desktop" Scenario.filesystem_launch Scenario.fresh); discriminate.
Defined.

(** ** The dispatcher *)

(** C1. A descriptor whose type (["unknown"] when the key is absent) is
    none of npm, git, python, docker makes [install_server] return
    [(False, "Unsupported server type: <type>")]; the state, and with it the
    list of subprocess calls, is left as it was. *)
Theorem install_server_unsupported_type
    (w : World) (server_config : ServerDescriptor) (target_path : option string) (s : state) :
  let server_type := default "unknown" (sd_type server_config) in
  server_type <> "npm" -> server_type <> "git" ->
  server_type <> "python" -> server_type <> "docker" ->
  install_server w server_config target_path s
    = (Ret (false, "Unsupported server type: " +:+ server_type), s)
  /\ subprocess_calls (trace (snd (install_server w server_config target_path s)))
     = subprocess_calls (trace s).
Proof.
  intros server_type Hn Hg Hp Hd.
  assert (Heq : install_server w server_config target_path s
                = (Ret (false, "Unsupported server type: " +:+ server_type), s)).
  { unfold install_server, install_server_via, dispatch, try_except.
    fold server_type.
    apply String.eqb_neq in Hn, Hg, Hp, Hd.
    rewrite Hn, Hg, Hp, Hd. reflexivity. }
  split; [exact Heq|]. rewrite Heq. reflexivity.
Qed.

Lemma install_server_unsupported_type_witness :
  install_server (Scenario.posix_host Scenario.every_command_succeeds Scenario.nothing_present)
      Scenario.ruby_server None Scenario.fresh
  = (Ret (false, "Unsupported server type: ruby"), Scenario.fresh).
Proof.
  apply (install_server_unsupported_type
           (Scenario.posix_host Scenario.every_command_succeeds Scenario.nothing_present)
           Scenario.ruby_server None Scenario.fresh); discriminate.
Defined.

(** C2. [install_server] always returns a pair and never raises, whatever
    backends it dispatches to; when the backend it selects raises [e], the
    result is [(False, "Installation failed: " + str(e))]. *)
Theorem install_server_never_raises
    (w : World)
    (npm git python : ServerDescriptor -> option string -> M InstallResult)
    (docker : ServerDescriptor -> M InstallResult)
    (server_config : ServerDescriptor) (target_path : option string) (s : state) :
  (exists r s', install_server_via npm git python docker server_config target_path s = (Ret r, s'))
  /\ (exists r s', install_server w server_config target_path s = (Ret r, s'))
  /\ (forall e s',
        dispatch npm git python docker server_config target_path s = (Raise e, s') ->
        install_server_via npm git python docker server_config target_path s
          = (Ret (false, "Installation failed: " +:+ exn_str e), s')).
Proof.
  split; [|split].
  - apply try_except_returns. intros e s1. eexists _, _. reflexivity.
  - apply try_except_returns. intros e s1. eexists _, _. reflexivity.
  - intros e s' Hraise. unfold install_server_via, try_except. rewrite Hraise. reflexivity.
Qed.

Lemma install_server_never_raises_witness :
  install_server_via Scenario.broken_backend Scenario.broken_backend Scenario.broken_backend
      (fun d => Scenario.broken_backend d None) Scenario.filesystem_server None Scenario.fresh
  = (Ret (false, "Installation failed: [Errno 28] No space left on device"), Scenario.fresh).
Proof.
  apply (proj2 (proj2 (install_server_never_raises
           (Scenario.posix_host Scenario.every_command_succeeds Scenario.nothing_present)
           Scenario.broken_backend Scenario.broken_backend Scenario.broken_backend
           (fun d => Scenario.broken_backend d None)
           Scenario.filesystem_server None Scenario.fresh))
           (Exn OSError "[Errno 28] No space left on device") Scenario.fresh).
  reflexivity.
Defined.

(** ** Which effects a computation can have *)

Section EmitsOnly.
Context {A B : Type} (P : event -> bool).

Lemma emits_only_ret (a : A) : emits_only P (ret a).
Proof. intros s. exists []. rewrite app_nil_r. auto. Qed.

Lemma emits_only_raise (e : exn) : emits_only P (@raise A e).
Proof. intros s. exists []. rewrite app_nil_r. auto. Qed.

Lemma emits_only_lift (o : outcome A) : emits_only P (lift o).
Proof. intros s. exists []. rewrite app_nil_r. auto. Qed.

Lemma emits_only_lift_option (o : option A) (e : exn) : emits_only P (lift_option o e).
Proof. destruct o; [apply emits_only_ret | apply emits_only_raise]. Qed.

Lemma emits_only_bind (m : M A) (k : A -> M B) :
  emits_only P m -> (forall a, emits_only P (k a)) -> emits_only P (bind m k).
Proof.
  intros Hm Hk s. unfold bind.
  destruct (Hm s) as (t1 & E1 & F1).
  destruct (m s) as [[a|e] s1]; simpl in *.
  - destruct (Hk a s1) as (t2 & E2 & F2).
    exists (t1 ++ t2). rewrite E2, E1, app_assoc, forallb_app, F1, F2. auto.
  - exists t1. auto.
Qed.

Lemma emits_only_try (body : M A) (handler : exn -> M A) :
  emits_only P body -> (forall e, emits_only P (handler e)) ->
  emits_only P (try_except body handler).
Proof.
  intros Hm Hk s. unfold try_except.
  destruct (Hm s) as (t1 & E1 & F1).
  destruct (body s) as [[a|e] s1]; simpl in *.
  - exists t1. auto.
  - destruct (Hk e s1) as (t2 & E2 & F2).
    exists (t1 ++ t2). rewrite E2, E1, app_assoc, forallb_app, F1, F2. auto.
Qed.
End EmitsOnly.

Lemma emits_only_emit (P : event -> bool) (e : event) :
  P e = true -> emits_only P (emit e).
Proof. intros H s. exists [e]. simpl. rewrite H. auto. Qed.

Lemma emits_only_get_trace (P : event -> bool) : emits_only P get_trace.
Proof. intros s. exists []. rewrite app_nil_r. auto. Qed.

Lemma emits_only_subprocess_run (P : event -> bool) (w : World) (a : RunArgs) :
  P (EvRun a) = true -> emits_only P (subprocess_run w a).
Proof.
  intros H. unfold subprocess_run.
  apply emits_only_bind; [apply emits_only_get_trace|]. intros t.
  apply emits_only_bind; [apply emits_only_emit; exact H|]. intros _.
  destruct (run_proc w t a); [apply emits_only_ret | apply emits_only_raise].
Qed.

Lemma emits_only_mkdir (P : event -> bool) (w : World) (p : string) :
  P (EvMkdir p) = true -> emits_only P (mkdir w p).
Proof.
  intros H. unfold mkdir.
  apply emits_only_bind; [apply emits_only_get_trace|]. intros t.
  destruct (mkdir_error w t p); [apply emits_only_raise | apply emits_only_emit; exact H].
Qed.

Lemma emits_only_write_json (P : event -> bool) (w : World) (p : string) (j : json) :
  P (EvWrite p j) = true -> emits_only P (write_json w p j).
Proof.
  intros H. unfold write_json.
  apply emits_only_bind; [apply emits_only_get_trace|]. intros t.
  destruct (open_write_error w t p); [apply emits_only_raise|].
  apply emits_only_bind; [apply emits_only_emit; exact H|]. intros _.
  destruct (dump_error w t p); intros s; exists []; simpl; rewrite app_nil_r; auto.
Qed.

Lemma fs_events_no_calls (tail : list event) :
  forallb is_fs_event tail = true ->
  subprocess_calls tail = [] /\ writer_calls tail = [].
Proof.
  induction tail as [|e tail IH]; simpl; [auto|].
  intros H. apply andb_true_iff in H as [He Ht].
  destruct (IH Ht) as [IH1 IH2].
  destruct e; try discriminate; simpl; auto.
Qed.

Lemma subprocess_calls_app (t1 t2 : list event) :
  subprocess_calls (t1 ++ t2) = subprocess_calls t1 ++ subprocess_calls t2.
Proof. apply omap_app. Qed.

Lemma writer_calls_app (t1 t2 : list event) :
  writer_calls (t1 ++ t2) = writer_calls t1 ++ writer_calls t2.
Proof. apply omap_app. Qed.

Lemma subprocess_calls_add_server (x : string) (c : LaunchDict) (t : list event) :
  subprocess_calls (EvAddServer x c :: t) = subprocess_calls t.
Proof. reflexivity. Qed.

Lemma writer_calls_add_server (x : string) (c : LaunchDict) (t : list event) :
  writer_calls (EvAddServer x c :: t) = (x, c) :: writer_calls t.
Proof. reflexivity. Qed.

Lemma subprocess_run_ret (w : World) (a : RunArgs) (s : state) (cp : CompletedProcess) :
  run_proc w (trace s) a = Ret cp ->
  subprocess_run w a s = (Ret cp, State (trace s ++ [EvRun a]) (files s) (results s)).
Proof. intros H. unfold subprocess_run, bind, get_trace, emit. simpl. rewrite H. reflexivity. Qed.

Lemma subprocess_run_raise (w : World) (a : RunArgs) (s : state) (e : exn) :
  run_proc w (trace s) a = Raise e ->
  subprocess_run w a s = (Raise e, State (trace s ++ [EvRun a]) (files s) (results s)).
Proof. intros H. unfold subprocess_run, bind, get_trace, emit. simpl. rewrite H. reflexivity. Qed.

Section WriterEffects.
Variable w : World.

Lemma get_extension_config_silent (extension : string) (s : state) :
  snd (get_extension_config w extension s) = s.
Proof.
  unfold get_extension_config.
  destruct (extension_configs w !! extension) as [info|]; [|reflexivity].
  unfold try_except, bind, settings_exists, load_json, ret.
  destruct (files s !! config_file_of w info) as [[j|]|] eqn:E; simpl;
    rewrite ?E; reflexivity.
Qed.

Lemma emits_only_save (extension : string) (config : json) :
  emits_only is_fs_event (_save_extension_config w extension config).
Proof.
  unfold _save_extension_config.
  destruct (extension_configs w !! extension) as [info|]; [|apply emits_only_ret].
  apply emits_only_try; [|intros; apply emits_only_ret].
  apply emits_only_bind; [apply emits_only_mkdir; reflexivity|]. intros _.
  apply emits_only_bind; [apply emits_only_write_json; reflexivity|]. intros _.
  apply emits_only_ret.
Qed.

(** A call of the writer is recorded once; all it does besides is create
    the settings directory and write the settings file. *)
Lemma add_server_trace (extension : string) (server_config : LaunchDict) (s : state) :
  exists tail,
    trace (snd (add_server_to_extension w extension server_config s))
      = trace s ++ EvAddServer extension server_config :: tail
    /\ forallb is_fs_event tail = true.
Proof.
  unfold add_server_to_extension.
  set (rest := fun _ : unit => bind (get_extension_config w extension) _).
  assert (Hrest : emits_only is_fs_event (rest tt)).
  { unfold rest.
    apply emits_only_bind.
    { intros s1. exists []. rewrite get_extension_config_silent, app_nil_r. auto. }
    intros loaded.
    apply emits_only_bind; [apply emits_only_lift|]. intros present.
    apply emits_only_bind.
    { destruct present; [apply emits_only_ret | apply emits_only_lift]. }
    intros cfg1.
    apply emits_only_bind.
    { destruct (_ || _); [|apply emits_only_ret].
      apply emits_only_bind; [apply emits_only_lift|]. intros servers.
      apply emits_only_bind; [apply emits_only_lift|]. intros servers'.
      apply emits_only_lift. }
    intros cfg2. apply emits_only_save. }
  unfold bind at 1. unfold emit at 1. simpl.
  destruct (Hrest (State (trace s ++ [EvAddServer extension server_config]) (files s) (results s)))
    as (tail & E & F).
  exists tail. split; [|exact F].
  rewrite E. simpl. rewrite <- app_assoc. reflexivity.
Qed.
End WriterEffects.

(** ** The npm backend *)

Section NpmFacts.
Variable w : World.

(** The loop over the extensions calls the writer once for each, in
    order, runs no subprocess, and always completes. *)
Lemma configure_each_calls (extensions : list string) (vscode_config : LaunchDict) (s : state) :
  let r := configure_each w extensions vscode_config s in
  fst r = Ret tt
  /\ subprocess_calls (trace (snd r)) = subprocess_calls (trace s)
  /\ writer_calls (trace (snd r))
     = writer_calls (trace s) ++ map (fun x => (x, vscode_config)) extensions.
Proof.
  revert s. induction extensions as [|extension rest IH]; intros s; cbv zeta.
  - simpl. rewrite app_nil_r. auto.
  - destruct (add_server_trace w extension vscode_config s) as (tail & E & F).
    destruct (fs_events_no_calls tail F) as [Fs Fw].
    assert (Hstep : exists s1,
               configure_each w (extension :: rest) vscode_config s
               = configure_each w rest vscode_config s1
               /\ trace s1 = trace s ++ EvAddServer extension vscode_config :: tail).
    { simpl. unfold bind, try_except.
      destruct (add_server_to_extension w extension vscode_config s) as [[b|e] s1];
        simpl in *; exists s1; auto. }
    destruct Hstep as (s1 & Hs & E1). rewrite Hs.
    destruct (IH s1) as (R1 & R2 & R3). rewrite R1, R2, R3, E1.
    rewrite subprocess_calls_app, writer_calls_app.
    rewrite subprocess_calls_add_server, writer_calls_add_server, Fs, Fw.
    rewrite app_nil_r, <- app_assoc. auto.
Qed.

(** Configuring the editors never raises and runs no subprocess; for an npm
    descriptor with a package it calls the writer for cline, roo and
    claude_desktop, once each. *)
Lemma configure_server_in_vscode_npm (server_config : ServerDescriptor) (s : state) :
  default "" (sd_type server_config) = "npm" ->
  nonempty (default "" (sd_package server_config)) = true ->
  let r := _configure_server_in_vscode w server_config s in
  fst r = Ret tt
  /\ subprocess_calls (trace (snd r)) = subprocess_calls (trace s)
  /\ map fst (writer_calls (trace (snd r)))
     = map fst (writer_calls (trace s)) ++ ["cline"; "roo"; "claude_desktop"].
Proof.
  intros Ht Hp. unfold _configure_server_in_vscode. rewrite Ht, Hp. cbv zeta.
  change (String.eqb "npm" "npm" && true) with true. cbv iota.
  unfold try_except.
  match goal with |- context [configure_each w vscode_extensions ?c s] =>
    destruct (configure_each_calls vscode_extensions c s) as (R1 & R2 & R3);
    destruct (configure_each w vscode_extensions c s) as [[[]|e] s1]
  end; simpl in *; try discriminate.
  rewrite R2, R3, map_app. auto.
Qed.

(** The probe lets the installation through when [npm --version] exits with
    code 0 and its output decodes. *)
Lemma npm_check_available_ok (s : state) (npm_check : CompletedProcess) (version : string) :
  run_proc w (trace s) (npm_version_args w) = Ret npm_check ->
  returncode npm_check = 0 ->
  bytes_decode w (stdout npm_check) = Some version ->
  npm_check_available w s
    = (Ret None, State (trace s ++ [EvRun (npm_version_args w)]) (files s) (results s)).
Proof.
  intros Hrun Hrc Hdec. unfold npm_check_available, try_except, bind.
  rewrite (subprocess_run_ret _ _ _ _ Hrun), Hrc. simpl.
  unfold decode. rewrite Hdec. reflexivity.
Qed.
End NpmFacts.

Lemma configure_server_in_vscode_returns
    (w : World) (server_config : ServerDescriptor) (s : state) :
  fst (_configure_server_in_vscode w server_config s) = Ret tt.
Proof.
  unfold _configure_server_in_vscode, try_except.
  match goal with |- context [match ?b s with _ => _ end] => destruct (b s) as [[[]|e] s1] end;
    reflexivity.
Qed.

(** What [install_server] comes to for the descriptor of C7 once the npm
    probe has let it through, by the outcome of the installation command. *)
Lemma install_filesystem_after_probe
    (w : World) (server_config : ServerDescriptor) (target_path : option string) (s s1 : state) :
  sd_name server_config = Some "Filesystem MCP Server" ->
  sd_type server_config = Some "npm" ->
  sd_package server_config = Some "@modelcontextprotocol/server-filesystem" ->
  npm_check_available w s = (Ret None, s1) ->
  install_server w server_config target_path s =
    match run_proc w (trace s1)
            (Run ["npm"; "install"; "-g"; "@modelcontextprotocol/server-filesystem"]
                 300 (is_windows w) true None) with
    | Ret cp =>
        if returncode cp =? 0
        then (Ret (true, "Successfully installed Filesystem MCP Server"),
              snd (_configure_server_in_vscode w server_config
                     (State (trace s1
                               ++ [EvRun (Run ["npm"; "install"; "-g"; "@modelcontextprotocol/server-filesystem"]
                                              300 (is_windows w) true None)])
                            (files s1) (results s1))))
        else (Ret (false, "npm install failed (exit code " +:+ PyStr.of_Z (returncode cp)
                               +:+ "): " +:+ stderr cp),
              State (trace s1
                       ++ [EvRun (Run ["npm"; "install"; "-g"; "@modelcontextprotocol/server-filesystem"]
                                      300 (is_windows w) true None)])
                    (files s1) (results s1))
    | Raise e =>
        (Ret (false, "Installation error: " +:+ exn_str e),
         State (trace s1
                  ++ [EvRun (Run ["npm"; "install"; "-g"; "@modelcontextprotocol/server-filesystem"]
                                 300 (is_windows w) true None)])
               (files s1) (results s1))
    end.
Proof.
  intros Hname Htype Hpkg Hprobe.
  unfold install_server, install_server_via, dispatch.
  rewrite Htype. simpl.
  unfold _install_npm_server. rewrite Hpkg, Hname. simpl.
  unfold try_except, bind.
  rewrite Hprobe.
  unfold run_platform, npm_install_cmd.
  match goal with |- context [run_proc w ?t ?a] =>
    destruct (run_proc w t a) as [cp|e] eqn:Hinstall end.
  - rewrite (subprocess_run_ret w _ s1 cp Hinstall). simpl.
    destruct (returncode cp =? 0) eqn:Hcp; [|reflexivity].
    match goal with |- context [_configure_server_in_vscode w server_config ?s2] =>
      pose proof (configure_server_in_vscode_returns w server_config s2) as Hc;
      destruct (_configure_server_in_vscode w server_config s2) as [[[]|e] s3]
    end; simpl in *; try discriminate. reflexivity.
  - rewrite (subprocess_run_raise w _ s1 e Hinstall). reflexivity.
Qed.

(** C7. An npm descriptor named "Filesystem MCP Server" with package
    "@modelcontextprotocol/server-filesystem": once the npm probe has let the
    installation through (leaving the state [s1]), the next and only other
    subprocess is [npm install -g @modelcontextprotocol/server-filesystem];
    when that exits with code 0 the result is
    [(True, "Successfully installed Filesystem MCP Server")] and the writer
    has been called once for each of cline, roo and claude_desktop. This
    holds for every behaviour of the file system, so a failure while
    configuring the editors does not change the result. *)
Theorem install_filesystem_npm_server
    (w : World) (server_config : ServerDescriptor) (target_path : option string) (s s1 : state)
    (result : CompletedProcess) :
  sd_name server_config = Some "Filesystem MCP Server" ->
  sd_type server_config = Some "npm" ->
  sd_package server_config = Some "@modelcontextprotocol/server-filesystem" ->
  npm_check_available w s = (Ret None, s1) ->
  let install_cmd := ["npm"; "install"; "-g"; "@modelcontextprotocol/server-filesystem"] in
  let install := Run install_cmd 300 (is_windows w) true None in
  let r := install_server w server_config target_path s in
  subprocess_calls (trace (snd r)) = subprocess_calls (trace s1) ++ [install]
  /\ (run_proc w (trace s1) install = Ret result ->
      returncode result = 0 ->
      fst r = Ret (true, "Successfully installed Filesystem MCP Server")
      /\ map fst (writer_calls (trace (snd r)))
         = map fst (writer_calls (trace s1)) ++ ["cline"; "roo"; "claude_desktop"]).
Proof.
  intros Hname Htype Hpkg Hprobe install_cmd install r.
  assert (Hr := install_filesystem_after_probe w server_config target_path s s1
                  Hname Htype Hpkg Hprobe).
  fold install_cmd in Hr. fold install in Hr. fold r in Hr.
  assert (Ht : default "" (sd_type server_config) = "npm") by (rewrite Htype; reflexivity).
  assert (Hp : nonempty (default "" (sd_package server_config)) = true)
    by (rewrite Hpkg; reflexivity).
  assert (Hcalls : forall fs rs,
             subprocess_calls (trace (State (trace s1 ++ [EvRun install]) fs rs))
             = subprocess_calls (trace s1) ++ [install]).
  { intros fs rs. simpl. rewrite subprocess_calls_app. reflexivity. }
  destruct (run_proc w (trace s1) install) as [cp|e].
  - destruct (returncode cp =? 0) eqn:Hcp.
    + match type of Hr with _ = (_, snd (_configure_server_in_vscode w server_config ?s2)) =>
        destruct (configure_server_in_vscode_npm w server_config s2 Ht Hp) as (R1 & R2 & R3)
      end.
      rewrite Hr. simpl fst. simpl snd. rewrite R2, R3. split; [apply Hcalls|].
      intros _ _. split; [reflexivity|].
      simpl. rewrite writer_calls_app. simpl. rewrite app_nil_r. reflexivity.
    + rewrite Hr. split; [apply Hcalls|].
      intros Hres Hzero. inversion Hres; subst. rewrite Hzero in Hcp. discriminate.
  - rewrite Hr. split; [apply Hcalls|]. intros Hres. discriminate.
Qed.

Lemma install_filesystem_npm_server_witness :
  let w := Scenario.posix_host Scenario.every_command_succeeds Scenario.nothing_present in
  let r := install_server w Scenario.filesystem_server None Scenario.fresh in
  subprocess_calls (trace (snd r))
    = [ Run ["npm"; "--version"] 10 false false None;
        Run ["npm"; "install"; "-g"; "@modelcontextprotocol/server-filesystem"] 300 false true None ]
  /\ fst r = Ret (true, "Successfully installed Filesystem MCP Server")
  /\ map fst (writer_calls (trace (snd r))) = ["cline"; "roo"; "claude_desktop"].
Proof.
  intros w r.
  destruct (install_filesystem_npm_server w Scenario.filesystem_server None Scenario.fresh
              (State [EvRun (Run ["npm"; "--version"] 10 false false None)] ∅ ∅)
              (Completed 0 "10.2.4" "")
              eq_refl eq_refl eq_refl eq_refl) as [Hcalls Hok].
  destruct (Hok eq_refl eq_refl) as [Hres Hwriter].
  split; [exact Hcalls|]. split; [exact Hres | exact Hwriter].
Defined.

(** ** The python backend *)

(** C4, as the code has it. For a python descriptor with neither a package
    nor a repository, [install_server] first looks for an interpreter: it
    runs [python --version] and, when that exits with a non-zero code,
    [python3 --version], and nothing else. When the check finds an
    interpreter, the result is [(False, "No package or repository specified
    for Python server")]. *)
Theorem install_python_without_source
    (w : World) (server_config : ServerDescriptor) (target_path : option string) (s : state) :
  sd_type server_config = Some "python" ->
  default "" (sd_package server_config) = "" ->
  default "" (sd_repository server_config) = "" ->
  let r := install_server w server_config target_path s in
  (subprocess_calls (trace (snd r)) = subprocess_calls (trace s) ++ [python_version_args w]
   \/ subprocess_calls (trace (snd r))
      = subprocess_calls (trace s) ++ [python_version_args w; python3_version_args w])
  /\ (forall python_cmd s1,
        python_check_available w s = (Ret (inr python_cmd), s1) ->
        r = (Ret (false, no_source_message), s1)).
Proof.
  intros Htype Hpkg Hrepo r. subst r.
  unfold install_server, install_server_via, dispatch. rewrite Htype. simpl.
  unfold _install_python_server. rewrite Hpkg, Hrepo. simpl.
  split.
  - unfold python_version_args, python3_version_args.
    unfold try_except, bind, python_check_available, run_platform, bind,
      subprocess_run, bind, get_trace, emit, ret, raise. simpl.
    destruct (run_proc w (trace s) _) as [cp|e]; simpl.
    + destruct (returncode cp =? 0); simpl.
      * left. rewrite subprocess_calls_app. reflexivity.
      * right. destruct (run_proc w (trace s ++ _) _) as [cp3|e3]; simpl.
        -- destruct (returncode cp3 =? 0); simpl;
             rewrite !subprocess_calls_app, <- app_assoc; reflexivity.
        -- destruct (is_class TimeoutExpired e3); simpl;
             rewrite !subprocess_calls_app, <- app_assoc; reflexivity.
    + left. destruct (is_class TimeoutExpired e); simpl;
        rewrite subprocess_calls_app; reflexivity.
  - intros python_cmd s1 Hfound. unfold try_except, bind. rewrite Hfound. reflexivity.
Qed.

Lemma install_python_without_source_witness :
  let w := Scenario.posix_host Scenario.every_command_succeeds Scenario.nothing_present in
  install_server w Scenario.bare_python_server None Scenario.fresh
  = (Ret (false, no_source_message),
     State [EvRun (Run ["python"; "--version"] 10 false false None)] ∅ ∅).
Proof.
  intros w.
  apply (proj2 (install_python_without_source w Scenario.bare_python_server None Scenario.fresh
                  eq_refl eq_refl eq_refl) "python").
  reflexivity.
Defined.

(** C4 as stated fails: on a host without Python the same descriptor gets
    another message, after two subprocess calls. *)
Lemma install_python_without_source_counterexample :
  let w := Scenario.posix_host Scenario.every_command_fails Scenario.nothing_present in
  let r := install_server w Scenario.bare_python_server None Scenario.fresh in
  ~ (fst r = Ret (false, no_source_message) /\ subprocess_calls (trace (snd r)) = [])
  /\ fst r = Ret (false, "Python is not available. Please install Python first.")
  /\ subprocess_calls (trace (snd r)) = [python_version_args w; python3_version_args w].
Proof.
  vm_compute. split; [|split; reflexivity].
  intros [H _]. discriminate H.
Qed.

(** ** The docker backend *)

Ltac emits_step :=
  match goal with
  | |- emits_only _ (ret _) => apply emits_only_ret
  | |- emits_only _ (raise _) => apply emits_only_raise
  | |- emits_only _ (lift _) => apply emits_only_lift
  | |- emits_only _ (lift_option _ _) => apply emits_only_lift_option
  | |- emits_only _ (subprocess_run _ _) => apply emits_only_subprocess_run; reflexivity
  | |- emits_only _ (bind _ _) => apply emits_only_bind; [|intros ?]
  | |- emits_only _ (try_except _ _) => apply emits_only_try; [|intros ?]
  | |- emits_only _ (if ?b then _ else _) => destruct b
  | |- emits_only _ (match ?x with _ => _ end) => destruct x
  end.

Lemma containers_started_tail (t tail : list event) :
  forallb no_container tail = true ->
  containers_started (t ++ tail) = containers_started t.
Proof.
  intros H. unfold containers_started. rewrite List.filter_app.
  assert (E : List.filter starts_container tail = []).
  { induction tail as [|e tail IH]; simpl in *; [reflexivity|].
    apply andb_true_iff in H as [He Ht]. unfold no_container in He.
    destruct (starts_container e); [discriminate|auto]. }
  rewrite E. apply app_nil_r.
Qed.

Section DockerFacts.
Variable w : World.

Lemma check_docker_no_container : emits_only no_container (check_docker w).
Proof. unfold check_docker. repeat emits_step. Qed.

Lemma get_docker_status_no_container : emits_only no_container (get_docker_status w).
Proof.
  intros s. unfold get_docker_status.
  destruct (results s !! "docker"); [|apply check_docker_no_container].
  exists []. rewrite app_nil_r. auto.
Qed.

Lemma docker_image_exists_no_container (image : string) :
  emits_only no_container (_docker_image_exists w image).
Proof. unfold _docker_image_exists. repeat emits_step. Qed.

(** With Docker available, a local-build image that is not there, and no
    build file for it, the installation stops at the missing file. *)
Lemma install_docker_missing_dockerfile
    (server_config : ServerDescriptor) (s s1 s2 : state) (docker_status : ProbeResult) :
  sd_image server_config = Some "mcp-filesystem:latest" ->
  get_docker_status w s = (Ret docker_status, s1) ->
  status docker_status = true ->
  _docker_image_exists w "mcp-filesystem:latest" s1 = (Ret false, s2) ->
  path_exists w (trace s2) (path_str w ["docker"; "Dockerfile.filesystem"]) = false ->
  _install_docker_server w server_config s
    = (Ret (false, "Dockerfile not found: " +:+ path_str w ["docker"; "Dockerfile.filesystem"]), s2).
Proof.
  intros Himage Hstatus Hup Himg Hfile.
  unfold _install_docker_server, _install_docker_server_impl. rewrite Himage. simpl.
  unfold try_except, bind, docker_ready, bind. rewrite Hstatus, Hup. simpl.
  unfold docker_image_step, bind. simpl. rewrite Himg.
  unfold _build_and_run_docker_image, bind, _build_local_docker_image, try_except, bind.
  simpl. unfold exists_, bind, get_trace. simpl. rewrite Hfile. reflexivity.
Qed.
End DockerFacts.

(** C5, as the code has it. For a docker descriptor with image
    "mcp-filesystem:latest", when Docker is available, the image is not
    there and the build file [docker/Dockerfile.filesystem] does not exist,
    the result is [(False, "Dockerfile not found: <path of the build file>")],
    and no container is started. *)
Theorem install_filesystem_image_without_dockerfile
    (w : World) (server_config : ServerDescriptor) (target_path : option string)
    (s s1 s2 : state) (docker_status : ProbeResult) :
  sd_type server_config = Some "docker" ->
  sd_image server_config = Some "mcp-filesystem:latest" ->
  get_docker_status w s = (Ret docker_status, s1) ->
  status docker_status = true ->
  _docker_image_exists w "mcp-filesystem:latest" s1 = (Ret false, s2) ->
  path_exists w (trace s2) (path_str w ["docker"; "Dockerfile.filesystem"]) = false ->
  install_server w server_config target_path s
    = (Ret (false, "Dockerfile not found: " +:+ path_str w ["docker"; "Dockerfile.filesystem"]), s2)
  /\ containers_started (trace s2) = containers_started (trace s).
Proof.
  intros Htype Himage Hstatus Hup Himg Hfile. split.
  - unfold install_server, install_server_via, dispatch, try_except.
    rewrite Htype. simpl.
    rewrite (install_docker_missing_dockerfile w server_config s s1 s2 docker_status
               Himage Hstatus Hup Himg Hfile).
    reflexivity.
  - destruct (get_docker_status_no_container w s) as (t1 & E1 & F1).
    destruct (docker_image_exists_no_container w "mcp-filesystem:latest" s1) as (t2 & E2 & F2).
    rewrite Hstatus in E1. rewrite Himg in E2. simpl in E1, E2.
    rewrite E2, E1.
    rewrite (containers_started_tail _ t2 F2). apply (containers_started_tail _ t1 F1).
Qed.

Lemma install_filesystem_image_without_dockerfile_witness :
  let w := Scenario.posix_host Scenario.docker_without_image Scenario.nothing_present in
  let r := install_server w Scenario.filesystem_image_server None Scenario.fresh in
  fst r = Ret (false, "Dockerfile not found: docker/Dockerfile.filesystem")
  /\ containers_started (trace (snd r)) = [].
Proof.
  intros w r.
  destruct (install_filesystem_image_without_dockerfile w Scenario.filesystem_image_server None
              Scenario.fresh
              (snd (get_docker_status w Scenario.fresh))
              (snd (_docker_image_exists w "mcp-filesystem:latest"
                      (snd (get_docker_status w Scenario.fresh))))
              {| status := true; message := "Docker installed and running";
                 details := "Version: Docker version 24.0.7, build afdd53b";
                 daemon_running := Some true; installed := None |}
              eq_refl eq_refl eq_refl eq_refl eq_refl eq_refl) as [Hres Hnone].
  subst r. rewrite Hres. split; [reflexivity | exact Hnone].
Defined.

(** C5 as stated fails: in that situation the message is not the one for an
    image without an entry in the build-file table. *)
Lemma install_filesystem_image_counterexample :
  let w := Scenario.posix_host Scenario.docker_without_image Scenario.nothing_present in
  let r := install_server w Scenario.filesystem_image_server None Scenario.fresh in
  fst (get_docker_status w Scenario.fresh)
    = Ret {| status := true; message := "Docker installed and running";
             details := "Version: Docker version 24.0.7, build afdd53b";
             daemon_running := Some true; installed := None |}
  /\ fst (_docker_image_exists w "mcp-filesystem:latest" Scenario.fresh) = Ret false
  /\ path_exists w [] "docker/Dockerfile.filesystem" = false
  /\ fst r <> Ret (false, "No Dockerfile found for image: mcp-filesystem")
  /\ fst r = Ret (false, "Dockerfile not found: docker/Dockerfile.filesystem").
Proof.
  vm_compute. repeat split; try reflexivity; discriminate.
Qed.

(** *** The local variable [pull_cmd] *)

Section PullCmd.
Variable w : World.

(** The local-build branch of the [if] statement always leaves the
    function by [return]. *)
Lemma local_build_returns (server_config : ServerDescriptor) (image : string) (s : state) :
  is_local_build image = true ->
  forall locals s', docker_image_step w server_config image s <> (Ret (FallThrough locals), s').
Proof.
  intros Hlocal locals s'. unfold docker_image_step. rewrite Hlocal.
  unfold bind.
  destruct (_docker_image_exists w image s) as [[[|]|e] s1]; [| |discriminate].
  - destruct (_run_docker_container w server_config image s1) as [[r|e] s2]; discriminate.
  - destruct (_build_and_run_docker_image w server_config image s1) as [[r|e] s2]; discriminate.
Qed.
End PullCmd.

(** C6, as the code has it. Whenever [_install_docker_server_impl] gets past
    the [if]/[else] on the image name to the statements that read
    [pull_cmd], the image does not follow the local-build convention and
    both [pull_cmd] and [result] have been assigned, [pull_cmd] with
    [["docker", "pull", image]]. *)
Theorem pull_cmd_assigned_when_read
    (w : World) (server_config : ServerDescriptor) (image : string)
    (s s' : state) (locals : PullLocals) :
  docker_image_step w server_config image s = (Ret (FallThrough locals), s') ->
  is_local_build image = false
  /\ pull_cmd locals = Some ["docker"; "pull"; image]
  /\ exists pulled, result locals = Some pulled.
Proof.
  intros Hstep. destruct (is_local_build image) eqn:Hlocal.
  - exfalso. exact (local_build_returns w server_config image s Hlocal locals s' Hstep).
  - unfold docker_image_step in Hstep. rewrite Hlocal in Hstep.
    unfold bind, run_platform in Hstep.
    destruct (subprocess_run w _ s) as [[cp|e] s1]; [|discriminate].
    inversion Hstep; subst. simpl. eauto.
Qed.

Lemma pull_cmd_assigned_when_read_witness :
  let w := Scenario.posix_host Scenario.every_command_succeeds Scenario.nothing_present in
  let pull := ["docker"; "pull"; "nginx:latest"] in
  let locals := {| pull_cmd := Some pull; result := Some (Completed 0 "10.2.4" "") |} in
  docker_image_step w Scenario.filesystem_image_server "nginx:latest" Scenario.fresh
    = (Ret (FallThrough locals), State [EvRun (Run pull 600 false true None)] ∅ ∅)
  /\ is_local_build "nginx:latest" = false
  /\ pull_cmd locals = Some pull.
Proof.
  intros w pull locals.
  assert (Hstep : docker_image_step w Scenario.filesystem_image_server "nginx:latest" Scenario.fresh
                  = (Ret (FallThrough locals), State [EvRun (Run pull 600 false true None)] ∅ ∅))
    by reflexivity.
  destruct (pull_cmd_assigned_when_read w Scenario.filesystem_image_server "nginx:latest"
              Scenario.fresh _ locals Hstep) as (Hremote & Hbound & _).
  split; [exact Hstep|]. split; [exact Hremote | exact Hbound].
Defined.

(** C6 as stated fails: no descriptor, host and state take a local-build
    image to the statements after the [if]/[else] with [pull_cmd]
    unassigned. *)
Lemma unbound_pull_cmd_counterexample :
  ~ exists (w : World) (server_config : ServerDescriptor) (s s' : state) (locals : PullLocals),
      is_local_build (default "" (sd_image server_config)) = true
      /\ docker_image_step w server_config (default "" (sd_image server_config)) s
         = (Ret (FallThrough locals), s')
      /\ pull_cmd locals = None.
Proof.
  intros (w & server_config & s & s' & locals & Hlocal & Hstep & Hnone).
  exact (local_build_returns w server_config _ s Hlocal locals s' Hstep).
Qed.

(** *** The fallback *)

Section FallbackFacts.
Variable w : World.

(** [_install_docker_server_impl] handles every exception itself. *)
Lemma install_docker_server_impl_returns (server_config : ServerDescriptor) (s : state) :
  exists r s', _install_docker_server_impl w server_config s = (Ret r, s').
Proof.
  unfold _install_docker_server_impl. apply try_except_returns.
  intros e s1. destruct (is_class TimeoutExpired e); eexists _, _; reflexivity.
Qed.

(** So the [except] clause of [_install_docker_server], and with it the
    fallback, is never entered. *)
Lemma install_docker_server_is_impl (server_config : ServerDescriptor) (s : state) :
  nonempty (default "" (sd_image server_config)) = true ->
  _install_docker_server w server_config s = _install_docker_server_impl w server_config s.
Proof.
  intros Himage. unfold _install_docker_server. rewrite Himage. simpl.
  unfold try_except.
  destruct (install_docker_server_impl_returns server_config s) as (r & s' & E).
  rewrite E. reflexivity.
Qed.
End FallbackFacts.

(** C3 at the descriptor of [test_docker_fallback.py], on a host where
    Docker runs and [docker pull] hits its time limit: the exception is
    turned into a result inside [_install_docker_server_impl], the result
    is [(False, "Docker pull timed out")], and no npm command is run,
    although the npm fallback would have succeeded on this host. *)
Theorem docker_failure_skips_fallback :
  let w := Scenario.posix_host Scenario.docker_pull_times_out Scenario.nothing_present in
  let r := install_server w Scenario.browser_server None Scenario.fresh in
  fst r = Ret (false, "Docker pull timed out")
  /\ subprocess_calls (trace (snd r))
     = [ Run ["docker"; "--version"] 10 false true None;
         Run ["docker"; "info"] 15 false true None;
         Run ["docker"; "pull"; "mcr.microsoft.com/playwright/mcp"] 600 false true None ]
  /\ sd_fallback Scenario.browser_server = Some Scenario.playwright_fallback
  /\ fst (_install_fallback_server w Scenario.browser_server Scenario.playwright_fallback (snd r))
     = Ret (true, "Successfully installed Browser Automation MCP Server").
Proof.
  vm_compute. repeat split; reflexivity.
Qed.

(** ** The Node.js probe *)

Section NodeFacts.
Variable w : World.
Variable auto_fix : bool.




Lemma node_commands_loop_next (node_cmd : string) (rest : list string) (s : state) :
  attempt_fails w (trace s) node_cmd = true ->
  node_commands_loop w auto_fix (node_cmd :: rest) s
    = node_commands_loop w auto_fix rest (after s (EvRun (node_version_args node_cmd))).
Proof.
  unfold attempt_fails. intros Hfail. simpl. unfold bind, try_except, bind.
  destruct (run_proc w (trace s) (node_version_args node_cmd)) as [r|e] eqn:Hrun.
  - rewrite (subprocess_run_ret w _ s r Hrun).
    destruct (returncode r =? 0); [discriminate|]. reflexivity.
  - rewrite (subprocess_run_raise w _ s e Hrun). reflexivity.
Qed.
End NodeFacts.



(** ** Discovery *)

Section DiscoveryFacts.
Variable w : World.








End DiscoveryFacts.







(** An exception while an entry is built from an item of the answer is not a
    failed request: it ends that source's loop, and the entries built before
    it stay in the list. *)
Example discover_github_second_item_broken :
  let w := Scenario.with_network
             (Scenario.posix_host Scenario.every_command_succeeds Scenario.nothing_present)
             Scenario.github_second_item_broken in
  fst (Discovery._discover_github_servers w Scenario.fresh)
    = Ret [ JObj [ ("name", JStr "mcp-server-sqlite");
                   ("description", JStr "No description");
                   ("type", JStr "git");
                   ("repository", JStr "https://github.com/example/mcp-server-sqlite.git");
                   ("category", JStr "community");
                   ("stars", JInt 42);
                   ("language", JStr "Python");
                   ("source", JStr "github") ] ].
Proof. reflexivity. Qed.

(** * Further properties of the code *)

(** ** Dictionaries *)

Section DictFacts.
Context {V : Type}.

Lemma dict_get_set_eq (d : list (string * V)) (k : string) (v : V) :
  Dict.get (Dict.set d k v) k = Some v.
Proof.
  induction d as [|[k' v'] d IH]; simpl.
  - rewrite String.eqb_refl. reflexivity.
  - destruct (String.eqb k' k) eqn:E; simpl.
    + rewrite String.eqb_refl. reflexivity.
    + rewrite E. exact IH.
Qed.

Lemma dict_get_set_ne (d : list (string * V)) (k k' : string) (v : V) :
  k <> k' -> Dict.get (Dict.set d k v) k' = Dict.get d k'.
Proof.
  intros Hne. induction d as [|[k0 v0] d IH]; simpl.
  - apply String.eqb_neq in Hne. rewrite Hne. reflexivity.
  - destruct (String.eqb k0 k) eqn:E; simpl.
    + apply String.eqb_eq in E. subst k0.
      apply String.eqb_neq in Hne. rewrite Hne. reflexivity.
    + destruct (String.eqb k0 k'); [reflexivity | exact IH].
Qed.

Lemma dict_set_set (d : list (string * V)) (k : string) (v v' : V) :
  Dict.set (Dict.set d k v) k v' = Dict.set d k v'.
Proof.
  induction d as [|[k0 v0] d IH]; simpl.
  - rewrite String.eqb_refl. reflexivity.
  - destruct (String.eqb k0 k) eqn:E; simpl.
    + rewrite String.eqb_refl. reflexivity.
    + rewrite E, IH. reflexivity.
Qed.

Lemma dict_set_get (d : list (string * V)) (k : string) (v : V) :
  Dict.get d k = Some v -> Dict.set d k v = d.
Proof.
  induction d as [|[k0 v0] d IH]; simpl; [discriminate|].
  destruct (String.eqb k0 k) eqn:E.
  - apply String.eqb_eq in E. subst k0. intros H. inversion H. reflexivity.
  - intros H. rewrite (IH H). reflexivity.
Qed.


Lemma dict_get_none_keys (d : list (string * V)) (k : string) :
  Dict.get d k = None <-> ~ In k (map fst d).
Proof.
  induction d as [|[k0 v0] d IH]; simpl.
  - split; [intros _ [] | reflexivity].
  - destruct (String.eqb k0 k) eqn:E.
    + apply String.eqb_eq in E. split; [discriminate | intros H; exfalso; apply H; auto].
    + apply String.eqb_neq in E. rewrite IH. split.
      * intros H [H1|H1]; [exact (E H1) | exact (H H1)].
      * intros H H1. apply H. auto.
Qed.

Lemma dict_get_remove_eq (d : list (string * V)) (k : string) :
  Dict.get (dict_remove d k) k = None.
Proof.
  induction d as [|[k0 v0] d IH]; simpl; [reflexivity|].
  destruct (String.eqb k0 k) eqn:E; simpl; [exact IH|].
  rewrite E. exact IH.
Qed.

Lemma dict_get_remove_ne (d : list (string * V)) (k k' : string) :
  k <> k' -> Dict.get (dict_remove d k) k' = Dict.get d k'.
Proof.
  intros Hne. induction d as [|[k0 v0] d IH]; simpl; [reflexivity|].
  destruct (String.eqb k0 k) eqn:E; simpl.
  - apply String.eqb_eq in E. subst k0. apply String.eqb_neq in Hne. rewrite Hne. exact IH.
  - destruct (String.eqb k0 k'); [reflexivity | exact IH].
Qed.
End DictFacts.

(** ** The IDE writer: adding, listing, removing, replacing *)

Section WriterMore.
Variable w : World.

Lemma get_extension_config_eq (extension : string) (s : state) :
  get_extension_config w extension s = (Ret (stored_config w extension (files s)), s).
Proof.
  unfold get_extension_config, stored_config.
  destruct (extension_configs w !! extension) as [info|]; [|reflexivity].
  unfold try_except, bind, settings_exists, load_json, ret.
  destruct (files s !! config_file_of w info) as [[j|]|] eqn:E; simpl; rewrite ?E; reflexivity.
Qed.

Lemma extension_configs_known (extension : string) (info : ExtInfo) :
  extension_configs w !! extension = Some info ->
  String.eqb extension "cline" || String.eqb extension "roo" = true.
Proof.
  intros H.
  destruct (String.eqb_spec extension "cline") as [|Hc]; [reflexivity|].
  destruct (String.eqb_spec extension "roo") as [|Hr]; [reflexivity|].
  rewrite (extension_configs_other w extension Hc Hr) in H. discriminate.
Qed.

(** Saving never raises; it answers [True] exactly when the file was
    written, and then the file holds the configuration. *)
Lemma save_extension_config_result (extension : string) (config : json) (s : state) :
  exists b s', _save_extension_config w extension config s = (Ret b, s')
    /\ (b = true ->
        exists info, extension_configs w !! extension = Some info
          /\ files s' = <[config_file_of w info := FJson config]> (files s))
    /\ (b = false ->
        files s' = files s
        \/ exists info, extension_configs w !! extension = Some info
             /\ files s' = <[config_file_of w info := FInvalid]> (files s)).
Proof.
  unfold _save_extension_config.
  destruct (extension_configs w !! extension) as [info|].
  - unfold try_except, bind, mkdir, write_json, bind, get_trace, emit, ret, raise. simpl.
    destruct (mkdir_error w (trace s) (config_path info)); simpl.
    + eexists _, _. split; [reflexivity|]. split; [discriminate | left; reflexivity].
    + destruct (open_write_error w _ (config_file_of w info)); simpl.
      * eexists _, _. split; [reflexivity|]. split; [discriminate | left; reflexivity].
      * destruct (dump_error w _ (config_file_of w info)); simpl.
        -- eexists _, _. split; [reflexivity|]. split; [discriminate|].
           intros _. right. exists info. auto.
        -- eexists _, _. split; [reflexivity|]. split; [|discriminate].
           intros _. exists info. auto.
  - eexists _, _. split; [reflexivity|]. split; [discriminate | left; reflexivity].
Qed.

Lemma add_server_eq (extension : string) (server_config : LaunchDict) (s : state) (info : ExtInfo) :
  extension_configs w !! extension = Some info ->
  add_server_to_extension w extension server_config s =
    match with_server (stored_config w extension (files s))
            (default "unknown" (l_name server_config)) (server_entry server_config) with
    | Ret config =>
        _save_extension_config w extension config (after s (EvAddServer extension server_config))
    | Raise e => (Raise e, after s (EvAddServer extension server_config))
    end.
Proof.
  intros Hinfo. unfold add_server_to_extension.
  unfold bind at 1. unfold emit at 1. cbv beta iota. fold (after s (EvAddServer extension server_config)).
  unfold bind at 1. rewrite get_extension_config_eq.
  rewrite (extension_configs_known extension info Hinfo).
  change (files (after s (EvAddServer extension server_config))) with (files s).
  unfold with_server, bind, lift, ret, obind.
  destruct (json_contains _ "mcpServers") as [[|]|e]; [| |reflexivity].
  - destruct (json_getitem _ "mcpServers") as [servers|e]; [|reflexivity].
    destruct (json_setitem servers _ _) as [servers'|e]; [|reflexivity].
    destruct (json_setitem _ "mcpServers" servers') as [c|e]; reflexivity.
  - destruct (json_setitem _ "mcpServers" (JObj [])) as [c0|e]; [|reflexivity].
    destruct (json_getitem c0 "mcpServers") as [servers|e]; [|reflexivity].
    destruct (json_setitem servers _ _) as [servers'|e]; [|reflexivity].
    destruct (json_setitem c0 "mcpServers" servers') as [c|e]; reflexivity.
Qed.

Lemma with_server_base (loaded : json) (name : string) (entry : json)
    (kv servers : list (string * json)) :
  settings_base loaded = Some (kv, servers) ->
  with_server loaded name entry
    = Ret (JObj (Dict.set kv "mcpServers" (JObj (Dict.set servers name entry)))).
Proof.
  unfold settings_base, with_server.
  destruct loaded as [| | | | |l|kv0]; try discriminate.
  - intros H. inversion H; subst. reflexivity.
  - destruct (Dict.get kv0 "mcpServers") as [[| | | | | |servers0]|] eqn:E; try discriminate.
    + intros H. inversion H; subst. simpl. unfold Dict.has. rewrite E. simpl.
      rewrite E. simpl. reflexivity.
    + intros H. inversion H; subst. simpl. unfold Dict.has. rewrite E. simpl.
      rewrite dict_get_set_eq. simpl. rewrite dict_set_set. reflexivity.
Qed.

Lemma with_server_no_base (loaded : json) (name : string) (entry : json) :
  settings_base loaded = None ->
  exists e, with_server loaded name entry = Raise e /\ exn_cls e = TypeError.
Proof.
  unfold settings_base, with_server.
  destruct loaded as [|b|n|m x|t|l|kv0]; try discriminate.
  1-3: intros _; eexists; split; reflexivity.
  - intros _. simpl. destruct (PyStr.contains t "mcpServers"); simpl; eexists; split; reflexivity.
  - intros _. simpl. destruct (existsb _ l); simpl; eexists; split; reflexivity.
  - simpl. unfold Dict.has.
    destruct (Dict.get kv0 "mcpServers") as [[|b|n|m x|t|l|servers0]|] eqn:E; try discriminate;
      intros _; simpl; rewrite E; simpl; eexists; split; reflexivity.
Qed.
End WriterMore.

Section WriterAdd.
Variable w : World.

Lemma extension_configs_none (extension : string) :
  extension_configs w !! extension = None ->
  String.eqb extension "cline" = false /\ String.eqb extension "roo" = false.
Proof.
  intros H. unfold extension_configs in H.
  destruct (String.eqb_spec extension "cline") as [->|Hc].
  { rewrite lookup_insert_eq in H. discriminate. }
  destruct (String.eqb_spec extension "roo") as [->|Hr]; [|auto].
  rewrite lookup_insert_ne in H by discriminate.
  rewrite lookup_insert_eq in H. discriminate.
Qed.

Lemma extension_configs_cline_roo (extension : string) :
  extension = "cline" \/ extension = "roo" ->
  exists info, extension_configs w !! extension = Some info.
Proof.
  unfold extension_configs. intros [->| ->].
  - rewrite lookup_insert_eq. eauto.
  - rewrite lookup_insert_ne by discriminate. rewrite lookup_insert_eq. eauto.
Qed.

(** A call that answers [True] has written, to the settings file of the
    extension, the configuration it read with the entry set. *)
Lemma add_server_true (extension : string) (server_config : LaunchDict) (s s' : state) :
  add_server_to_extension w extension server_config s = (Ret true, s') ->
  exists info kv servers,
    extension_configs w !! extension = Some info
    /\ settings_base (stored_config w extension (files s)) = Some (kv, servers)
    /\ files s'
       = <[config_file_of w info :=
             FJson (JObj (Dict.set kv "mcpServers"
                            (JObj (Dict.set servers (default "unknown" (l_name server_config))
                                            (server_entry server_config)))))]> (files s).
Proof.
  intros H. destruct (extension_configs w !! extension) as [info|] eqn:Hinfo.
  - rewrite (add_server_eq w extension server_config s info Hinfo) in H.
    destruct (settings_base (stored_config w extension (files s))) as [[kv servers]|] eqn:Hb.
    + rewrite (with_server_base _ _ _ kv servers Hb) in H.
      match type of H with _save_extension_config w extension ?c ?s0 = _ =>
        destruct (save_extension_config_result w extension c s0) as (b & s2 & E & Ht & _) end.
      rewrite E in H. inversion H; subst.
      destruct (Ht eq_refl) as (info' & Hi' & Hfiles).
      rewrite Hinfo in Hi'. inversion Hi'; subst info'.
      exists info, kv, servers. auto.
    + destruct (with_server_no_base _ (default "unknown" (l_name server_config))
                  (server_entry server_config) Hb) as (e & E & _).
      rewrite E in H. discriminate.
  - exfalso. destruct (extension_configs_none extension Hinfo) as [Hc Hr].
    unfold add_server_to_extension, _save_extension_config in H.
    rewrite Hinfo in H. unfold bind at 1 in H. unfold emit at 1 in H. cbv beta iota in H.
    unfold bind at 1 in H. rewrite get_extension_config_eq in H.
    unfold stored_config in H. rewrite Hinfo, Hc, Hr in H. simpl in H. discriminate.
Qed.

Lemma stored_config_insert (extension : string) (info : ExtInfo) (fs : gmap string fcontent)
    (config : json) :
  extension_configs w !! extension = Some info ->
  stored_config w extension (<[config_file_of w info := FJson config]> fs) = config.
Proof.
  intros Hinfo. unfold stored_config. rewrite Hinfo, lookup_insert_eq. reflexivity.
Qed.

Lemma list_configured_servers_of (extension : string) (s : state) (servers : list (string * json)) :
  servers_of (stored_config w extension (files s)) = Some servers ->
  list_configured_servers w extension s = (Ret (map fst servers), s).
Proof.
  unfold servers_of, list_configured_servers. intros H.
  unfold bind at 1. rewrite get_extension_config_eq.
  destruct (stored_config w extension (files s)) as [| | | | | |kv]; try discriminate.
  destruct (Dict.get kv "mcpServers") as [[| | | | | |servers0]|] eqn:E; try discriminate.
  inversion H; subst servers0.
  assert (Hne : json_truthy (JObj kv) = true) by (destruct kv; [discriminate | reflexivity]).
  rewrite Hne. unfold bind, lift, json_contains, json_getitem, Dict.has. rewrite E. reflexivity.
Qed.
End WriterAdd.



(** X3. Adding the same server a second time never raises. When the second
    call answers [True], the stored files are those left by the first. When
    it answers [False], either nothing was touched, or the write failed
    after the settings file had been opened: that file alone is then left
    truncated, and no longer parses. *)
Theorem add_server_twice
    (w : World) (extension : string) (server_config : LaunchDict) (s s1 : state) :
  add_server_to_extension w extension server_config s = (Ret true, s1) ->
  exists b s2 info,
    extension_configs w !! extension = Some info
    /\ add_server_to_extension w extension server_config s1 = (Ret b, s2)
    /\ (b = true -> files s2 = files s1)
    /\ (b = false ->
        files s2 = files s1
        \/ files s2 = <[config_file_of w info := FInvalid]> (files s1)).
Proof.
  intros H.
  destruct (add_server_true w extension server_config s s1 H) as (info & kv & servers & Hi & _ & Hf).
  rewrite (add_server_eq w extension server_config s1 info Hi).
  set (name := default "unknown" (l_name server_config)) in *.
  set (entry := server_entry server_config) in *.
  set (config := JObj (Dict.set kv "mcpServers" (JObj (Dict.set servers name entry)))) in *.
  assert (Hstored : stored_config w extension (files s1) = config).
  { rewrite Hf. apply (stored_config_insert w extension info _ _ Hi). }
  assert (Hbase : settings_base config
                  = Some (Dict.set kv "mcpServers" (JObj (Dict.set servers name entry)),
                          Dict.set servers name entry)).
  { unfold config, settings_base. rewrite dict_get_set_eq. reflexivity. }
  rewrite Hstored, (with_server_base config name entry _ _ Hbase), !dict_set_set.
  fold config.
  destruct (save_extension_config_result w extension config
              (after s1 (EvAddServer extension server_config))) as (b & s2 & E & Ht & Hfalse).
  exists b, s2, info. split; [exact Hi|]. split; [exact E|]. split.
  - intros Hb. destruct (Ht Hb) as (info' & Hi' & Hfiles).
    rewrite Hi in Hi'. inversion Hi'; subst info'.
    rewrite Hfiles. simpl. rewrite Hf. apply insert_insert_eq.
  - intros Hb. destruct (Hfalse Hb) as [Hsame | (info' & Hi' & Hfiles)].
    + left. exact Hsame.
    + right. rewrite Hi in Hi'. inversion Hi'; subst info'. exact Hfiles.
Qed.



Lemma add_server_twice_witness :
  let s1 := snd (add_server_to_extension Scenario.disk_fills_up "cline" Scenario.filesystem_launch
                   Scenario.fresh) in
  exists b s2 info,
    extension_configs Scenario.disk_fills_up !! "cline" = Some info
    /\ add_server_to_extension Scenario.disk_fills_up "cline" Scenario.filesystem_launch s1
       = (Ret b, s2)
    /\ (b = true -> files s2 = files s1)
    /\ (b = false ->
        files s2 = files s1
        \/ files s2 = <[config_file_of Scenario.disk_fills_up info := FInvalid]> (files s1)).
Proof.
  intros s1.
  apply (add_server_twice Scenario.disk_fills_up "cline" Scenario.filesystem_launch
           Scenario.fresh s1).
  vm_compute. reflexivity.
Defined.

(** On that host the first addition stores the settings and the second,
    whose write fails midway, answers [False] and leaves the file
    unparsable: the server added first is no longer read back. *)
Example add_server_twice_truncates :
  let w := Scenario.disk_fills_up in
  let first := add_server_to_extension w "cline" Scenario.filesystem_launch Scenario.fresh in
  let second := add_server_to_extension w "cline" Scenario.filesystem_launch (snd first) in
  fst first = Ret true
  /\ fst second = Ret false
  /\ files (snd second) !! Scenario.cline_settings = Some FInvalid
  /\ fst (list_configured_servers w "cline" (snd first)) = Ret ["Filesystem MCP Server"]
  /\ fst (list_configured_servers w "cline" (snd second)) = Ret [].
Proof. vm_compute. repeat split; reflexivity. Qed.



(** A settings file that holds [null] is not refused: [json.load] gives
    [None], the same value [get_extension_config] returns for a missing
    file, and the file is replaced. *)
Example add_server_null_settings :
  let s := Scenario.with_cline_settings (FJson JNull) in
  let r := add_server_to_extension Scenario.bare_linux "cline" Scenario.filesystem_launch s in
  fst r = Ret true
  /\ files (snd r) !! Scenario.cline_settings
     = Some (FJson (JObj [("mcpServers",
                           JObj [("Filesystem MCP Server",
                                  server_entry Scenario.filesystem_launch)])])).
Proof. vm_compute. split; reflexivity. Qed.

Section WriterRemove.
Variable w : World.

Lemma remove_server_eq (extension server_name : string) (s : state) :
  remove_server_from_extension w extension server_name s =
    match stored_config w extension (files s) with
    | JNull => (Ret false, s)
    | config =>
        match (let+ present := json_contains config "mcpServers" in
               if negb present then Ret None
               else
                 let+ servers := json_getitem config "mcpServers" in
                 let+ found := json_contains servers server_name in
                 if found then
                   let+ servers := json_delitem servers server_name in
                   let+ config := json_setitem config "mcpServers" servers in
                   Ret (Some config)
                 else Ret None) with
        | Ret (Some config') => _save_extension_config w extension config' s
        | Ret None => (Ret false, s)
        | Raise e => (Raise e, s)
        end
    end.
Proof.
  unfold remove_server_from_extension. unfold bind at 1. rewrite get_extension_config_eq.
  destruct (stored_config w extension (files s)) as [|b|n|m x|t|l|kv]; try reflexivity.
  - (* JStr *)
    unfold bind, lift, ret, obind. simpl json_contains. cbv beta iota.
    destruct (PyStr.contains t "mcpServers"); reflexivity.
  - (* JArr *)
    unfold bind, lift, ret, obind. simpl json_contains. cbv beta iota.
    destruct (existsb _ l); reflexivity.
  - (* JObj *)
    unfold bind, lift, ret, obind, json_contains, json_getitem, Dict.has.
    destruct (Dict.get kv "mcpServers") as [v|] eqn:E; simpl; [|reflexivity].
    destruct v as [|b|n|m x|t|l|servers]; simpl; try reflexivity.
    + destruct (PyStr.contains t server_name); reflexivity.
    + destruct (existsb _ l); reflexivity.
    + unfold json_delitem, Dict.has.
      destruct (Dict.get servers server_name); reflexivity.
Qed.
End WriterRemove.

Section WriterRemoveFacts.
Variable w : World.

Lemma remove_server_true (extension server_name : string) (s s' : state) :
  remove_server_from_extension w extension server_name s = (Ret true, s') ->
  exists info kv servers,
    extension_configs w !! extension = Some info
    /\ stored_config w extension (files s) = JObj kv
    /\ Dict.get kv "mcpServers" = Some (JObj servers)
    /\ files s'
       = <[config_file_of w info :=
             FJson (JObj (Dict.set kv "mcpServers" (JObj (dict_remove servers server_name))))]>
           (files s).
Proof.
  intros H. rewrite remove_server_eq in H.
  destruct (stored_config w extension (files s)) as [|b|n|m x|t|l|kv] eqn:Hst;
    try (simpl in H; discriminate).
  - simpl in H. destruct (PyStr.contains t "mcpServers"); simpl in H; discriminate.
  - simpl in H. destruct (existsb _ l); simpl in H; discriminate.
  - unfold obind, json_contains, json_getitem, Dict.has in H.
    destruct (Dict.get kv "mcpServers") as [v|] eqn:E; simpl in H; [|discriminate].
    destruct v as [|b|n|m x|t|l|servers]; simpl in H; try discriminate.
    + destruct (PyStr.contains t server_name); simpl in H; discriminate.
    + destruct (existsb _ l); simpl in H; discriminate.
    + unfold Dict.has in H.
      destruct (Dict.get servers server_name) as [entry|] eqn:F; simpl in H; [|discriminate].
      match type of H with _save_extension_config w extension ?c ?s0 = _ =>
        destruct (save_extension_config_result w extension c s0) as (b & s2 & E2 & Ht & _) end.
      rewrite E2 in H. inversion H; subst.
      destruct (Ht eq_refl) as (info & Hi & Hfiles).
      exists info, kv, servers. auto.
Qed.
End WriterRemoveFacts.

(** X5. When [remove_server_from_extension] answers [True], the settings
    read back no longer list the server, and every other server keeps its
    entry. *)
Theorem remove_server_then_absent
    (w : World) (extension server_name : string) (s s' : state) :
  remove_server_from_extension w extension server_name s = (Ret true, s') ->
  exists servers servers',
    servers_of (stored_config w extension (files s)) = Some servers
    /\ servers_of (stored_config w extension (files s')) = Some servers'
    /\ Dict.get servers' server_name = None
    /\ list_configured_servers w extension s' = (Ret (map fst servers'), s')
    /\ ~ In server_name (map fst servers')
    /\ forall other, other <> server_name -> Dict.get servers' other = Dict.get servers other.
Proof.
  intros H.
  destruct (remove_server_true w extension server_name s s' H)
    as (info & kv & servers & Hi & Hst & Hget & Hf).
  exists servers, (dict_remove servers server_name).
  assert (Hs' : servers_of (stored_config w extension (files s'))
                = Some (dict_remove servers server_name)).
  { rewrite Hf, (stored_config_insert w extension info _ _ Hi).
    unfold servers_of. rewrite dict_get_set_eq. reflexivity. }
  split; [rewrite Hst; unfold servers_of; rewrite Hget; reflexivity|].
  split; [exact Hs'|]. split; [apply dict_get_remove_eq|].
  split; [apply (list_configured_servers_of w extension s' _ Hs')|].
  split; [apply dict_get_none_keys, dict_get_remove_eq|].
  intros other Hne. apply dict_get_remove_ne. congruence.
Qed.

(** X6. When the settings are missing or unreadable, have no "mcpServers",
    or have servers without [server_name], [remove_server_from_extension]
    answers [False] and does nothing: no directory is created, no file
    written. *)
Theorem remove_server_not_configured
    (w : World) (extension server_name : string) (s : state)
    (kv servers : list (string * json)) :
  settings_base (stored_config w extension (files s)) = Some (kv, servers) ->
  Dict.get servers server_name = None ->
  remove_server_from_extension w extension server_name s = (Ret false, s).
Proof.
  intros Hb Hnone. rewrite remove_server_eq.
  destruct (stored_config w extension (files s)) as [|b|n|m x|t|l|kv0]; try discriminate.
  - reflexivity.
  - unfold settings_base in Hb. unfold obind, json_contains, json_getitem, Dict.has.
    destruct (Dict.get kv0 "mcpServers") as [v|]; simpl; [|reflexivity].
    destruct v as [|b|n|m x|t|l|servers0]; try discriminate.
    inversion Hb; subst. simpl. unfold Dict.has. rewrite Hnone. reflexivity.
Qed.

Lemma remove_server_then_absent_witness :
  let s := Scenario.with_cline_settings (FJson Scenario.settings_with_memory) in
  let s' := snd (remove_server_from_extension Scenario.bare_linux "cline" "memory" s) in
  exists servers servers',
    servers_of (stored_config Scenario.bare_linux "cline" (files s)) = Some servers
    /\ servers_of (stored_config Scenario.bare_linux "cline" (files s')) = Some servers'
    /\ Dict.get servers' "memory" = None
    /\ list_configured_servers Scenario.bare_linux "cline" s' = (Ret (map fst servers'), s')
    /\ ~ In "memory" (map fst servers')
    /\ forall other, other <> "memory" -> Dict.get servers' other = Dict.get servers other.
Proof.
  intros s s'.
  apply (remove_server_then_absent Scenario.bare_linux "cline" "memory" s s').
  vm_compute. reflexivity.
Defined.

Lemma remove_server_not_configured_witness :
  remove_server_from_extension Scenario.bare_linux "cline" "memory" Scenario.fresh
    = (Ret false, Scenario.fresh).
Proof.
  apply (remove_server_not_configured Scenario.bare_linux "cline" "memory" Scenario.fresh [] []).
  - vm_compute. reflexivity.
  - reflexivity.
Defined.

(** X7. Removing a server that [add_server_to_extension] has just added
    never raises; when the removal answers [True], the server is no longer
    configured and every other server has the entry it had before the
    addition. *)
Theorem add_then_remove_server
    (w : World) (extension : string) (server_config : LaunchDict) (s s1 : state) :
  add_server_to_extension w extension server_config s = (Ret true, s1) ->
  let name := default "unknown" (l_name server_config) in
  exists b s2,
    remove_server_from_extension w extension name s1 = (Ret b, s2)
    /\ (b = true ->
        exists kv servers servers2,
          settings_base (stored_config w extension (files s)) = Some (kv, servers)
          /\ servers_of (stored_config w extension (files s2)) = Some servers2
          /\ Dict.get servers2 name = None
          /\ forall other, other <> name -> Dict.get servers2 other = Dict.get servers other).
Proof.
  intros H name.
  destruct (add_server_true w extension server_config s s1 H)
    as (info & kv & servers & Hi & Hb & Hf).
  fold name in Hf.
  assert (Hst : stored_config w extension (files s1)
                = JObj (Dict.set kv "mcpServers"
                          (JObj (Dict.set servers name (server_entry server_config))))).
  { rewrite Hf. apply (stored_config_insert w extension info _ _ Hi). }
  assert (Hrem : remove_server_from_extension w extension name s1
                 = _save_extension_config w extension
                     (JObj (Dict.set kv "mcpServers"
                              (JObj (dict_remove (Dict.set servers name (server_entry server_config))
                                                 name)))) s1).
  { rewrite remove_server_eq, Hst.
    unfold obind, json_contains, json_getitem, json_delitem, json_setitem, Dict.has.
    rewrite dict_get_set_eq. simpl. unfold Dict.has. rewrite dict_get_set_eq. simpl.
    rewrite dict_set_set. reflexivity. }
  destruct (save_extension_config_result w extension
              (JObj (Dict.set kv "mcpServers"
                       (JObj (dict_remove (Dict.set servers name (server_entry server_config))
                                          name)))) s1) as (b & s2 & E & Ht & _).
  exists b, s2. split; [rewrite Hrem; exact E|].
  intros ->. destruct (Ht eq_refl) as (info' & Hi' & Hfiles).
  exists kv, servers, (dict_remove (Dict.set servers name (server_entry server_config)) name).
  split; [exact Hb|]. split.
  { rewrite Hfiles, (stored_config_insert w extension info' _ _ Hi').
    unfold servers_of. rewrite dict_get_set_eq. reflexivity. }
  split; [apply dict_get_remove_eq|].
  intros other Hne. rewrite dict_get_remove_ne by congruence.
  apply dict_get_set_ne. congruence.
Qed.

Lemma add_then_remove_server_witness :
  let s := Scenario.with_cline_settings (FJson Scenario.settings_with_memory) in
  let s1 := snd (add_server_to_extension Scenario.bare_linux "cline" Scenario.filesystem_launch s) in
  exists b s2,
    remove_server_from_extension Scenario.bare_linux "cline" "Filesystem MCP Server" s1 = (Ret b, s2)
    /\ (b = true ->
        exists kv servers servers2,
          settings_base (stored_config Scenario.bare_linux "cline" (files s)) = Some (kv, servers)
          /\ servers_of (stored_config Scenario.bare_linux "cline" (files s2)) = Some servers2
          /\ Dict.get servers2 "Filesystem MCP Server" = None
          /\ forall other, other <> "Filesystem MCP Server" ->
               Dict.get servers2 other = Dict.get servers other).
Proof.
  intros s s1.
  apply (add_then_remove_server Scenario.bare_linux "cline" Scenario.filesystem_launch s s1).
  vm_compute. reflexivity.
Defined.

Section WriterUpdate.
Variable w : World.

Lemma update_extension_config_result
    (extension : string) (mcp_servers : list LaunchDict) (s : state) :
  exists b s',
    update_extension_config w extension mcp_servers s = (Ret b, s')
    /\ (b = true ->
        exists info kv,
          extension_configs w !! extension = Some info
          /\ update_base (files s !! config_file_of w info) = Some kv
          /\ files s'
             = <[config_file_of w info :=
                   FJson (JObj (Dict.set kv "mcpServers"
                                  (JObj (_format_servers_for_cline mcp_servers))))]> (files s))
    /\ (b = false ->
        files s' = files s
        \/ exists info kv,
             extension_configs w !! extension = Some info
             /\ update_base (files s !! config_file_of w info) = Some kv
             /\ files s' = <[config_file_of w info := FInvalid]> (files s)).
Proof.
  unfold update_extension_config.
  destruct (extension_configs w !! extension) as [info|] eqn:Hinfo.
  2:{ eexists _, _. split; [reflexivity|]. split; [discriminate | left; reflexivity]. }
  pose proof (extension_configs_known w extension info Hinfo) as Hknown.
  assert (Hset : forall config,
             (if String.eqb extension "cline"
              then lift (json_setitem config "mcpServers" (JObj (_format_servers_for_cline mcp_servers)))
              else if String.eqb extension "roo"
                   then lift (json_setitem config "mcpServers"
                                (JObj (_format_servers_for_roo mcp_servers)))
                   else ret config)
             = lift (json_setitem config "mcpServers" (JObj (_format_servers_for_cline mcp_servers)))).
  { intros config. destruct (String.eqb extension "cline"); [reflexivity|].
    simpl in Hknown. rewrite Hknown. reflexivity. }
  assert (Hwrite : forall kv (s1 : state),
             files s1 = files s ->
             update_base (files s !! config_file_of w info) = Some kv ->
             exists b s',
               try_except
                 (let* _ := write_json w (config_file_of w info)
                              (JObj (Dict.set kv "mcpServers"
                                       (JObj (_format_servers_for_cline mcp_servers)))) in
                  ret true)
                 (fun _ => ret false) s1 = (Ret b, s')
               /\ (b = true ->
                   files s'
                   = <[config_file_of w info :=
                         FJson (JObj (Dict.set kv "mcpServers"
                                        (JObj (_format_servers_for_cline mcp_servers))))]> (files s))
               /\ (b = false ->
                   files s' = files s
                   \/ files s' = <[config_file_of w info := FInvalid]> (files s))).
  { intros kv s1 Hs1 _.
    unfold try_except, bind, write_json, bind, get_trace, emit, ret, raise. simpl.
    destruct (open_write_error w (trace s1) (config_file_of w info)); simpl.
    - eexists _, _. split; [reflexivity|]. split; [discriminate | left; exact Hs1].
    - destruct (dump_error w (trace s1) (config_file_of w info)); simpl.
      + eexists _, _. split; [reflexivity|]. split; [discriminate|].
        intros _. right. rewrite Hs1. reflexivity.
      + eexists _, _. split; [reflexivity|]. split; [|discriminate].
        intros _. rewrite Hs1. reflexivity. }
  unfold try_except at 1. unfold bind at 1, mkdir, bind at 1, get_trace. cbv beta iota.
  destruct (mkdir_error w (trace s) (config_path info)).
  { unfold raise, ret. eexists _, _. split; [reflexivity|]. split; [discriminate | left; reflexivity]. }
  unfold emit at 1. cbv beta iota.
  unfold bind at 1, settings_exists. cbv beta iota.
  change (files (State (trace s ++ [EvMkdir (config_path info)]) (files s) (results s)))
    with (files s).
  set (s1 := State (trace s ++ [EvMkdir (config_path info)]) (files s) (results s)).
  destruct (files s !! config_file_of w info) as [[j|]|] eqn:Hfile.
  - rewrite bool_decide_eq_true_2 by eauto.
    unfold bind at 1, load_json. cbv beta iota. simpl files. rewrite Hfile.
    unfold bind at 1. rewrite Hset. unfold lift at 1.
    destruct j as [|b|n|m x|t|l|kv];
      try (simpl; unfold ret; eexists _, _; split; [reflexivity|];
           split; [discriminate | left; reflexivity]).
    simpl json_setitem. cbv beta iota.
    destruct (Hwrite kv s1 eq_refl eq_refl) as (b & s' & E & Ht & Hf).
    exists b, s'. split; [exact E|]. split.
    + intros Hb. exists info, kv.
      split; [reflexivity|]. split; [rewrite ?Hfile; reflexivity | exact (Ht Hb)].
    + intros Hb. destruct (Hf Hb) as [H|H]; [left; exact H|].
      right. exists info, kv.
      split; [reflexivity|]. split; [rewrite ?Hfile; reflexivity | exact H].
  - rewrite bool_decide_eq_true_2 by eauto.
    unfold bind at 1, load_json. cbv beta iota. simpl files. rewrite Hfile.
    unfold ret. eexists _, _. split; [reflexivity|]. split; [discriminate | left; reflexivity].
  - rewrite bool_decide_eq_false_2 by (intros [x Hx]; discriminate).
    unfold bind at 1, ret at 1. cbv beta iota.
    unfold bind at 1. rewrite Hset. unfold lift at 1. simpl json_setitem. cbv beta iota.
    destruct (Hwrite [] s1 eq_refl eq_refl) as (b & s' & E & Ht & Hf).
    exists b, s'. split; [exact E|]. split.
    + intros Hb. exists info, [].
      split; [reflexivity|]. split; [rewrite ?Hfile; reflexivity | exact (Ht Hb)].
    + intros Hb. destruct (Hf Hb) as [H|H]; [left; exact H|].
      right. exists info, [].
      split; [reflexivity|]. split; [rewrite ?Hfile; reflexivity | exact H].
Qed.
End WriterUpdate.

(** X8. When [update_extension_config] answers [True], the servers of the
    settings are exactly the formatted list it was given (the servers
    configured before are replaced, not merged), and every top-level key
    other than "mcpServers" keeps its value. *)
Theorem update_extension_config_replaces
    (w : World) (extension : string) (mcp_servers : list LaunchDict) (s s' : state) :
  update_extension_config w extension mcp_servers s = (Ret true, s') ->
  servers_of (stored_config w extension (files s')) = Some (_format_servers_for_cline mcp_servers)
  /\ list_configured_servers w extension s'
     = (Ret (map fst (_format_servers_for_cline mcp_servers)), s')
  /\ forall kv, stored_config w extension (files s) = JObj kv ->
       exists kv', stored_config w extension (files s') = JObj kv'
         /\ forall key, key <> "mcpServers" -> Dict.get kv' key = Dict.get kv key.
Proof.
  intros H.
  destruct (update_extension_config_result w extension mcp_servers s)
    as (b & s2 & E & Ht & _).
  rewrite E in H. inversion H; subst b s2.
  destruct (Ht eq_refl) as (info & kv0 & Hi & Hbase & Hf).
  assert (Hs : servers_of (stored_config w extension (files s'))
               = Some (_format_servers_for_cline mcp_servers)).
  { rewrite Hf, (stored_config_insert w extension info _ _ Hi).
    unfold servers_of. rewrite dict_get_set_eq. reflexivity. }
  split; [exact Hs|]. split; [apply (list_configured_servers_of w extension s' _ Hs)|].
  intros kv Hkv. eexists. split.
  { rewrite Hf. apply (stored_config_insert w extension info _ _ Hi). }
  intros key Hne. rewrite dict_get_set_ne by congruence.
  unfold stored_config in Hkv. rewrite Hi in Hkv. unfold update_base in Hbase.
  destruct (files s !! config_file_of w info) as [[j|]|]; try discriminate.
  subst j. inversion Hbase. reflexivity.
Qed.

Lemma update_extension_config_replaces_witness :
  let s := Scenario.with_cline_settings (FJson Scenario.settings_with_memory) in
  let s' := snd (update_extension_config Scenario.bare_linux "cline" [Scenario.filesystem_launch] s) in
  servers_of (stored_config Scenario.bare_linux "cline" (files s'))
    = Some (_format_servers_for_cline [Scenario.filesystem_launch])
  /\ list_configured_servers Scenario.bare_linux "cline" s' = (Ret ["Filesystem MCP Server"], s')
  /\ forall kv, stored_config Scenario.bare_linux "cline" (files s) = JObj kv ->
       exists kv', stored_config Scenario.bare_linux "cline" (files s') = JObj kv'
         /\ forall key, key <> "mcpServers" -> Dict.get kv' key = Dict.get kv key.
Proof.
  intros s s'.
  apply (update_extension_config_replaces Scenario.bare_linux "cline" [Scenario.filesystem_launch]
           s s').
  vm_compute. reflexivity.
Defined.

(** X9. [update_extension_config] never raises, and it does not overwrite a
    settings file it cannot use: when the file exists but does not parse, or
    holds JSON that is not an object, the answer is [False] and every file
    is as before. *)
Theorem update_extension_config_unusable_file
    (w : World) (extension : string) (mcp_servers : list LaunchDict) (s : state) (info : ExtInfo) :
  extension_configs w !! extension = Some info ->
  update_base (files s !! config_file_of w info) = None ->
  exists s',
    update_extension_config w extension mcp_servers s = (Ret false, s')
    /\ files s' = files s.
Proof.
  intros Hi Hbase.
  destruct (update_extension_config_result w extension mcp_servers s)
    as (b & s' & E & Ht & Hfalse).
  destruct b.
  - destruct (Ht eq_refl) as (info' & kv & Hi' & Hbase' & _).
    rewrite Hi in Hi'. inversion Hi'; subst info'. rewrite Hbase in Hbase'. discriminate.
  - exists s'. split; [exact E|].
    destruct (Hfalse eq_refl) as [Hsame | (info' & kv & Hi' & Hbase' & _)]; [exact Hsame|].
    rewrite Hi in Hi'. inversion Hi'; subst info'. rewrite Hbase in Hbase'. discriminate.
Qed.

Lemma update_extension_config_unusable_file_witness :
  let s := Scenario.with_cline_settings FInvalid in
  exists s',
    update_extension_config Scenario.bare_linux "cline" [Scenario.filesystem_launch] s
      = (Ret false, s')
    /\ files s' = files s.
Proof.
  intros s.
  refine (update_extension_config_unusable_file Scenario.bare_linux "cline"
            [Scenario.filesystem_launch] s
            {| ext_name := "Cline"; ext_id := "saoudrizwan.claude-dev";
               config_path := _get_cline_config_path Scenario.bare_linux;
               config_file := "cline_mcp_settings.json" |} _ _).
  - vm_compute. reflexivity.
  - vm_compute. reflexivity.
Defined.

(** X10. Where [update_extension_config] refuses an unparsable settings
    file, [add_server_to_extension] replaces it: when the file of a known
    extension is missing or does not parse and the call answers [True], the
    settings afterwards hold the new server and nothing else. *)
Theorem add_server_replaces_unreadable
    (w : World) (extension : string) (server_config : LaunchDict) (s s' : state) :
  stored_config w extension (files s) = JNull ->
  add_server_to_extension w extension server_config s = (Ret true, s') ->
  stored_config w extension (files s')
    = JObj [("mcpServers",
             JObj [(default "unknown" (l_name server_config), server_entry server_config)])].
Proof.
  intros Hnull H.
  destruct (add_server_true w extension server_config s s' H)
    as (info & kv & servers & Hi & Hb & Hf).
  rewrite Hnull in Hb. inversion Hb; subst kv servers.
  rewrite Hf. apply (stored_config_insert w extension info _ _ Hi).
Qed.

Lemma add_server_replaces_unreadable_witness :
  let s := Scenario.with_cline_settings FInvalid in
  stored_config Scenario.bare_linux "cline"
    (files (snd (add_server_to_extension Scenario.bare_linux "cline" Scenario.filesystem_launch s)))
    = JObj [("mcpServers",
             JObj [("Filesystem MCP Server", server_entry Scenario.filesystem_launch)])].
Proof.
  intros s.
  apply (add_server_replaces_unreadable Scenario.bare_linux "cline" Scenario.filesystem_launch s).
  - vm_compute. reflexivity.
  - vm_compute. reflexivity.
Defined.

Section FormatServers.

Lemma format_servers_fold (servers : list LaunchDict) (acc : list (string * json)) (name : string) :
  Dict.get (fold_left (fun formatted_servers server =>
                         Dict.set formatted_servers (default "unknown" (l_name server))
                                  (server_entry server)) servers acc) name
    = match last_named servers name with
      | Some server => Some (server_entry server)
      | None => Dict.get acc name
      end.
Proof.
  revert acc. induction servers as [|server rest IH]; intros acc; simpl; [reflexivity|].
  rewrite IH. destruct (last_named rest name); [reflexivity|].
  destruct (String.eqb_spec (default "unknown" (l_name server)) name) as [<-|Hne].
  - apply dict_get_set_eq.
  - apply dict_get_set_ne. exact Hne.
Qed.

Lemma dict_set_keys {V} (d : list (string * V)) (k : string) (v : V) :
  map fst (Dict.set d k v) = if Dict.has d k then map fst d else map fst d ++ [k].
Proof.
  unfold Dict.has. induction d as [|[k0 v0] d IH]; simpl; [reflexivity|].
  destruct (String.eqb_spec k0 k) as [->|Hne]; simpl; [reflexivity|].
  rewrite IH. destruct (Dict.get d k); reflexivity.
Qed.

Lemma dict_set_nodup {V} (d : list (string * V)) (k : string) (v : V) :
  NoDup (map fst d) -> NoDup (map fst (Dict.set d k v)).
Proof.
  intros Hd. rewrite dict_set_keys. unfold Dict.has.
  destruct (Dict.get d k) eqn:E; [exact Hd|].
  apply NoDup_app. split; [exact Hd|]. split.
  - intros x Hx Hin. apply list_elem_of_In in Hin. simpl in Hin. destruct Hin as [<-|[]].
    apply list_elem_of_In in Hx. apply dict_get_none_keys in E. contradiction.
  - apply NoDup_singleton.
Qed.

Lemma format_servers_nodup (servers : list LaunchDict) (acc : list (string * json)) :
  NoDup (map fst acc) ->
  NoDup (map fst (fold_left (fun formatted_servers server =>
                               Dict.set formatted_servers (default "unknown" (l_name server))
                                        (server_entry server)) servers acc)).
Proof.
  revert acc. induction servers as [|server rest IH]; intros acc Hacc; simpl; [exact Hacc|].
  apply IH, dict_set_nodup, Hacc.
Qed.
End FormatServers.

(** X11. [_format_servers_for_cline] keeps one entry per name: the keys are
    pairwise distinct, and a name is mapped to the entry of the last server
    of the list that carries it (a server without a name counts as
    "unknown"); a name no server carries is absent. *)
Theorem format_servers_last_wins (servers : list LaunchDict) (name : string) :
  NoDup (map fst (_format_servers_for_cline servers))
  /\ Dict.get (_format_servers_for_cline servers) name
     = option_map server_entry (last_named servers name)
  /\ _format_servers_for_roo servers = _format_servers_for_cline servers.
Proof.
  split; [apply format_servers_nodup; constructor|].
  split; [|reflexivity].
  unfold _format_servers_for_cline. rewrite format_servers_fold.
  destruct (last_named servers name); reflexivity.
Qed.

(** ** Effects that leave the settings alone *)

Section EffectsOnly.
Context {A B : Type} (P : event -> bool).

Lemma effects_only_ret (a : A) : effects_only P (ret a).
Proof. intros [t f r]. exists []. simpl. rewrite app_nil_r. auto. Qed.

Lemma effects_only_raise (e : exn) : effects_only P (@raise A e).
Proof. intros [t f r]. exists []. simpl. rewrite app_nil_r. auto. Qed.

Lemma effects_only_lift (o : outcome A) : effects_only P (lift o).
Proof. intros [t f r]. exists []. simpl. rewrite app_nil_r. auto. Qed.

Lemma effects_only_lift_option (o : option A) (e : exn) : effects_only P (lift_option o e).
Proof. destruct o; [apply effects_only_ret | apply effects_only_raise]. Qed.

Lemma effects_only_bind (m : M A) (k : A -> M B) :
  effects_only P m -> (forall a, effects_only P (k a)) -> effects_only P (bind m k).
Proof.
  intros Hm Hk s. unfold bind.
  destruct (Hm s) as (t1 & E1 & F1).
  destruct (m s) as [[a|e] s1]; simpl in *.
  - destruct (Hk a s1) as (t2 & E2 & F2).
    exists (t1 ++ t2). rewrite E2, E1. simpl. rewrite app_assoc, forallb_app, F1, F2. auto.
  - exists t1. auto.
Qed.

Lemma effects_only_try (body : M A) (handler : exn -> M A) :
  effects_only P body -> (forall e, effects_only P (handler e)) ->
  effects_only P (try_except body handler).
Proof.
  intros Hm Hk s. unfold try_except.
  destruct (Hm s) as (t1 & E1 & F1).
  destruct (body s) as [[a|e] s1]; simpl in *.
  - exists t1. auto.
  - destruct (Hk e s1) as (t2 & E2 & F2).
    exists (t1 ++ t2). rewrite E2, E1. simpl. rewrite app_assoc, forallb_app, F1, F2. auto.
Qed.

Lemma effects_only_emits (m : M A) : effects_only P m -> emits_only P m.
Proof.
  intros H s. destruct (H s) as (tail & E & F). exists tail. rewrite E. auto.
Qed.
End EffectsOnly.

Lemma effects_only_weaken {A} (P Q : event -> bool) (m : M A) :
  (forall e, P e = true -> Q e = true) -> effects_only P m -> effects_only Q m.
Proof.
  intros HPQ H s. destruct (H s) as (tail & E & F). exists tail. split; [exact E|].
  apply forallb_forall. intros e He. apply HPQ.
  rewrite forallb_forall in F. apply F, He.
Qed.

Lemma effects_only_emit (P : event -> bool) (e : event) :
  P e = true -> effects_only P (emit e).
Proof. intros H s. exists [e]. simpl. rewrite H. auto. Qed.

Lemma effects_only_get_trace (P : event -> bool) : effects_only P get_trace.
Proof. intros [t f r]. exists []. simpl. rewrite app_nil_r. auto. Qed.

Lemma effects_only_subprocess_run (P : event -> bool) (w : World) (a : RunArgs) :
  P (EvRun a) = true -> effects_only P (subprocess_run w a).
Proof.
  intros H. unfold subprocess_run.
  apply effects_only_bind; [apply effects_only_get_trace|]. intros t.
  apply effects_only_bind; [apply effects_only_emit; exact H|]. intros _.
  destruct (run_proc w t a); [apply effects_only_ret | apply effects_only_raise].
Qed.

Lemma effects_only_mkdir (P : event -> bool) (w : World) (p : string) :
  P (EvMkdir p) = true -> effects_only P (mkdir w p).
Proof.
  intros H. unfold mkdir.
  apply effects_only_bind; [apply effects_only_get_trace|]. intros t.
  destruct (mkdir_error w t p); [apply effects_only_raise | apply effects_only_emit; exact H].
Qed.

Lemma effects_only_exists (P : event -> bool) (w : World) (p : string) :
  effects_only P (exists_ w p).
Proof.
  unfold exists_. apply effects_only_bind; [apply effects_only_get_trace|].
  intros t. apply effects_only_ret.
Qed.

Lemma effects_only_decode (P : event -> bool) (w : World) (b : string) :
  effects_only P (decode w b).
Proof. unfold decode. apply effects_only_lift_option. Qed.

Lemma effects_only_sleep (P : event -> bool) (n : Z) :
  P (EvSleep n) = true -> effects_only P (sleep n).
Proof. intros H. unfold sleep. apply effects_only_emit, H. Qed.

Ltac effects_step :=
  match goal with
  | |- effects_only _ (ret _) => apply effects_only_ret
  | |- effects_only _ (raise _) => apply effects_only_raise
  | |- effects_only _ (lift _) => apply effects_only_lift
  | |- effects_only _ (lift_option _ _) => apply effects_only_lift_option
  | |- effects_only _ (decode _ _) => apply effects_only_decode
  | |- effects_only _ (exists_ _ _) => apply effects_only_exists
  | |- effects_only _ (subprocess_run _ _) => apply effects_only_subprocess_run; reflexivity
  | |- effects_only _ (run_platform _ _ _ _) =>
      unfold run_platform; apply effects_only_subprocess_run; reflexivity
  | |- effects_only _ (mkdir _ _) => apply effects_only_mkdir; reflexivity
  | |- effects_only _ (sleep _) => apply effects_only_sleep; reflexivity
  | |- effects_only _ (bind _ _) => apply effects_only_bind; [|intros ?]
  | |- effects_only _ (try_except _ _) => apply effects_only_try; [|intros ?]
  | |- effects_only _ (if ?b then _ else _) => destruct b
  | |- effects_only _ (match ?x with _ => _ end) => destruct x
  end.

Lemma not_writer_no_calls (tail : list event) :
  forallb not_writer tail = true -> writer_calls tail = [] /\ file_writes tail = [].
Proof.
  induction tail as [|e tail IH]; simpl; [auto|].
  intros H. apply andb_true_iff in H as [He Ht].
  destruct (IH Ht) as [IH1 IH2].
  destruct e; try discriminate; simpl; auto.
Qed.

Lemma file_writes_app (t1 t2 : list event) :
  file_writes (t1 ++ t2) = file_writes t1 ++ file_writes t2.
Proof. apply omap_app. Qed.

(** ** The backends of [install_server] *)

(** X12. A descriptor of type npm without a package, of type git without a
    repository, or of type docker without an image is refused by
    [install_server] before anything is done: the result names the missing
    field and the state is untouched (no probe is run, unlike for the
    python backend). *)
Theorem install_server_missing_source
    (w : World) (server_config : ServerDescriptor) (target_path : option string) (s : state) :
  (sd_type server_config = Some "npm" ->
   nonempty (default "" (sd_package server_config)) = false ->
   install_server w server_config target_path s = (Ret (false, "No package specified"), s))
  /\ (sd_type server_config = Some "git" ->
      nonempty (default "" (sd_repository server_config)) = false ->
      install_server w server_config target_path s = (Ret (false, "No repository URL specified"), s))
  /\ (sd_type server_config = Some "docker" ->
      nonempty (default "" (sd_image server_config)) = false ->
      install_server w server_config target_path s = (Ret (false, "No Docker image specified"), s)).
Proof.
  unfold install_server, install_server_via, dispatch, try_except.
  split; [|split]; intros Ht Hsrc; rewrite Ht; simpl.
  - unfold _install_npm_server. rewrite Hsrc. reflexivity.
  - unfold _install_git_server. rewrite Hsrc. reflexivity.
  - unfold _install_docker_server. rewrite Hsrc. reflexivity.
Qed.

Lemma install_server_missing_source_witness :
  install_server Scenario.bare_linux
    (Scenario.descriptor (Some "Memory") (Some "npm") None None None) None Scenario.fresh
    = (Ret (false, "No package specified"), Scenario.fresh).
Proof.
  apply (proj1 (install_server_missing_source Scenario.bare_linux
                  (Scenario.descriptor (Some "Memory") (Some "npm") None None None)
                  None Scenario.fresh)); reflexivity.
Defined.

Section QuietBackends.
Variable w : World.

Lemma install_git_server_quiet (server_config : ServerDescriptor) (target_path : option string) :
  effects_only not_writer (_install_git_server w server_config target_path).
Proof. unfold _install_git_server. repeat effects_step. Qed.

Lemma python_check_available_quiet : effects_only not_writer (python_check_available w).
Proof. unfold python_check_available. repeat effects_step. Qed.

Lemma install_python_server_quiet (server_config : ServerDescriptor) (target_path : option string) :
  effects_only not_writer (_install_python_server w server_config target_path).
Proof.
  unfold _install_python_server.
  apply effects_only_try; [|intros e; repeat effects_step].
  apply effects_only_bind; [apply python_check_available_quiet|].
  intros checked. repeat effects_step.
Qed.
End QuietBackends.

(** X13. The git and python backends never configure an IDE extension:
    whatever the descriptor, the host and the outcome (success included),
    they make no call of the settings writer, write no settings file, and
    leave the stored settings as they were (their effects are subprocesses
    and, for git, the creation of the target directory). *)
Theorem git_and_python_backends_leave_settings
    (w : World) (server_config : ServerDescriptor) (target_path : option string) (s : state) :
  let after_git := snd (_install_git_server w server_config target_path s) in
  let after_python := snd (_install_python_server w server_config target_path s) in
  (files after_git = files s
   /\ writer_calls (trace after_git) = writer_calls (trace s)
   /\ file_writes (trace after_git) = file_writes (trace s))
  /\ (files after_python = files s
      /\ writer_calls (trace after_python) = writer_calls (trace s)
      /\ file_writes (trace after_python) = file_writes (trace s)).
Proof.
  intros after_git after_python. split.
  - destruct (install_git_server_quiet w server_config target_path s) as (tail & E & F).
    unfold after_git. rewrite E. simpl.
    destruct (not_writer_no_calls tail F) as [Hw Hf].
    rewrite writer_calls_app, file_writes_app, Hw, Hf, !app_nil_r. auto.
  - destruct (install_python_server_quiet w server_config target_path s) as (tail & E & F).
    unfold after_python. rewrite E. simpl.
    destruct (not_writer_no_calls tail F) as [Hw Hf].
    rewrite writer_calls_app, file_writes_app, Hw, Hf, !app_nil_r. auto.
Qed.

(** X14. After a successful clone, the exit code of [npm install] in the
    cloned directory does not count: whatever it is, the git backend
    reports success. Only an exception counts, and a time-out of
    [npm install] is then reported as "Git clone timed out". *)
Theorem git_clone_ignores_npm_install
    (w : World) (server_config : ServerDescriptor) (target_path : option string)
    (s s1 s2 s3 : state) (git_check result : CompletedProcess) :
  let repository := default "" (sd_repository server_config) in
  let target := clone_target w server_config target_path in
  nonempty repository = true ->
  run_platform w ["git"; "--version"] 10 false s = (Ret git_check, s1) ->
  returncode git_check = 0 ->
  mkdir w target s1 = (Ret tt, s2) ->
  run_platform w ["git"; "clone"; repository; target] 300 true s2 = (Ret result, s3) ->
  returncode result = 0 ->
  path_exists w (trace s3) (path_str w [target; "package.json"]) = true ->
  let npm_install := subprocess_run w (Run ["npm"; "install"] 300 false true (Some target)) s3 in
  (forall done s4, npm_install = (Ret done, s4) ->
     _install_git_server w server_config target_path s
       = (Ret (true, "Successfully cloned " +:+ default "Git Server" (sd_name server_config)
                       +:+ " to " +:+ target), s4))
  /\ (forall e s4, npm_install = (Raise e, s4) -> is_class TimeoutExpired e = true ->
        _install_git_server w server_config target_path s
          = (Ret (false, "Git clone timed out"), s4)).
Proof.
  intros repository target Hrepo Hgit Hcode Hmkdir Hclone Hcode2 Hmanifest npm_install.
  assert (Hhead : forall k handler,
            try_except
              (let* git_check := run_platform w ["git"; "--version"] 10 false in
               if negb (returncode git_check =? 0)
               then ret (false, "git is not available. Please install Git first.")
               else
                 let* _ := mkdir w target in
                 let* result := run_platform w ["git"; "clone"; repository; target] 300 true in
                 if returncode result =? 0 then
                   let* has_manifest := exists_ w (path_str w [target; "package.json"]) in
                   let* _ := if has_manifest then k else ret tt in
                   ret (true, "Successfully cloned " +:+ default "Git Server" (sd_name server_config)
                                +:+ " to " +:+ target)
                 else ret (false, "git clone failed: " +:+ stderr result))
              handler s
            = match k s3 with
              | (Ret _, s4) =>
                  (Ret (true, "Successfully cloned " +:+ default "Git Server" (sd_name server_config)
                                +:+ " to " +:+ target), s4)
              | (Raise e, s4) => handler e s4
              end).
  { intros k handler. unfold try_except. unfold bind at 1. rewrite Hgit, Hcode.
    change (negb (0 =? 0)) with false. cbv iota.
    unfold bind at 1. rewrite Hmkdir. unfold bind at 1. rewrite Hclone, Hcode2.
    change (0 =? 0) with true. cbv iota. unfold bind at 1, exists_, bind at 1, get_trace, ret at 1.
    cbv beta iota. rewrite Hmanifest. unfold bind at 1.
    destruct (k s3) as [[a|e] s4]; reflexivity. }
  unfold _install_git_server. fold repository. rewrite Hrepo.
  change (negb true) with false. cbv iota.
  fold (clone_target w server_config target_path). fold target.
  split.
  - intros done s4 Hnpm. rewrite Hhead. unfold bind at 1. fold npm_install. rewrite Hnpm.
    reflexivity.
  - intros e s4 Hnpm Htimeout. rewrite Hhead. unfold bind at 1. fold npm_install. rewrite Hnpm.
    rewrite Htimeout. reflexivity.
Qed.

Lemma git_clone_ignores_npm_install_witness :
  fst (_install_git_server (Scenario.posix_host Scenario.npm_fails Scenario.everything_present)
         Scenario.git_server None Scenario.fresh)
    = Ret (true, "Successfully cloned Example Git Server to /home/user/mcp-servers/example-git-server").
Proof.
  edestruct (git_clone_ignores_npm_install
               (Scenario.posix_host Scenario.npm_fails Scenario.everything_present)
               Scenario.git_server None Scenario.fresh) as [Hdone _].
  - reflexivity.
  - reflexivity.
  - reflexivity.
  - reflexivity.
  - reflexivity.
  - reflexivity.
  - reflexivity.
  - rewrite (Hdone (Completed 1 "" "npm ERR! code ENOENT") _ eq_refl). reflexivity.
Defined.

(** X15. For the python backend a package takes precedence: when the
    descriptor names one, its repository is never looked at, and the
    backend behaves as on the descriptor without the repository. *)
Theorem python_package_over_repository
    (w : World) (server_config : ServerDescriptor) (target_path : option string) (s : state) :
  nonempty (default "" (sd_package server_config)) = true ->
  _install_python_server w server_config target_path s
    = _install_python_server w (without_repository server_config) target_path s.
Proof.
  intros Hpackage. unfold _install_python_server, without_repository. simpl.
  rewrite Hpackage. reflexivity.
Qed.

Lemma python_package_over_repository_witness :
  let w := Scenario.posix_host Scenario.every_command_succeeds Scenario.nothing_present in
  _install_python_server w Scenario.python_server_both None Scenario.fresh
    = _install_python_server w (without_repository Scenario.python_server_both) None
        Scenario.fresh
  /\ subprocess_calls
       (trace (snd (_install_python_server w Scenario.python_server_both None Scenario.fresh)))
     = [ Run ["python"; "--version"] 10 false false None;
         Run ["python"; "-m"; "pip"; "install"; "mcp-server-fetch"] 300 false true None ].
Proof.
  intros w. split.
  - apply (python_package_over_repository w Scenario.python_server_both None Scenario.fresh).
    reflexivity.
  - vm_compute. reflexivity.
Defined.

(** ** Containers *)

(** X16. [_cleanup_existing_container] never raises and writes no
    settings file.
    It runs [docker stop] and then, whatever the exit code of the stop,
    [docker rm]; the removal is skipped only when the stop itself raised. *)
Theorem cleanup_existing_container_effects (w : World) (container_name : string) (s : state) :
  let stop := Run ["docker"; "stop"; container_name] 30 false false None in
  let rm := Run ["docker"; "rm"; container_name] 30 false false None in
  exists s',
    _cleanup_existing_container w container_name s = (Ret tt, s')
    /\ files s' = files s
    /\ trace s' = trace s ++ EvRun stop ::
                  match run_proc w (trace s) stop with
                  | Ret _ => [EvRun rm]
                  | Raise _ => []
                  end.
Proof.
  intros stop rm.
  unfold _cleanup_existing_container, try_except, bind, subprocess_run, bind, get_trace, emit, ret,
    raise. simpl. fold stop rm.
  destruct (run_proc w (trace s) stop) as [c|e]; simpl.
  - destruct (run_proc w (trace s ++ [EvRun stop]) rm) as [c'|e']; simpl;
      eexists; (split; [reflexivity|]); (split; [reflexivity|]);
      rewrite <- app_assoc; reflexivity.
  - eexists. split; [reflexivity|]. split; reflexivity.
Qed.

Section ContainerFacts.
Variable w : World.

Lemma expand_volume_path_quiet (volume : string) :
  effects_only not_writer (_expand_volume_path w volume).
Proof. unfold _expand_volume_path. repeat effects_step. Qed.

Lemma volume_flags_quiet (volumes : list string) :
  effects_only not_writer (volume_flags w volumes).
Proof.
  induction volumes as [|volume rest IH]; simpl; [apply effects_only_ret|].
  apply effects_only_bind; [apply expand_volume_path_quiet|]. intros expanded.
  apply effects_only_bind; [exact IH|]. intros flags. apply effects_only_ret.
Qed.

Lemma cleanup_existing_container_quiet (container_name : string) :
  effects_only not_writer (_cleanup_existing_container w container_name).
Proof. unfold _cleanup_existing_container. repeat effects_step. Qed.
End ContainerFacts.

Section Yields.
Context {A B : Type}.

Lemma yields_ret (Q : A -> Prop) (a : A) : Q a -> yields Q (ret a).
Proof. intros H s a' s' E. inversion E; subst. exact H. Qed.

Lemma yields_raise (Q : A -> Prop) (e : exn) : yields Q (@raise A e).
Proof. intros s a' s' E. discriminate. Qed.

Lemma yields_bind (Q : B -> Prop) (m : M A) (k : A -> M B) :
  (forall a, yields Q (k a)) -> yields Q (bind m k).
Proof.
  intros Hk s b s' E. unfold bind in E.
  destruct (m s) as [[a|e] s1]; [|discriminate]. exact (Hk a s1 b s' E).
Qed.
End Yields.

Lemma add_server_writer_calls
    (w : World) (extension : string) (server_config : LaunchDict) (s : state) :
  writer_calls (trace (snd (add_server_to_extension w extension server_config s)))
    = writer_calls (trace s) ++ [(extension, server_config)].
Proof.
  destruct (add_server_trace w extension server_config s) as (tail & E & F).
  rewrite E. change (EvAddServer extension server_config :: tail)
    with ([EvAddServer extension server_config] ++ tail).
  rewrite !writer_calls_app. destruct (fs_events_no_calls tail F) as [_ Hw].
  rewrite Hw, app_nil_r. reflexivity.
Qed.

(** X17. When [_run_docker_container] reports success, both extensions
    have been handed the same launch entry, once each and in the order
    cline, roo; the entry carries the server's name and starts [docker],
    and the writer was called for nothing else. *)
Theorem run_docker_container_success
    (w : World) (server_config : ServerDescriptor) (image msg : string) (s s' : state) :
  _run_docker_container w server_config image s = (Ret (true, msg), s') ->
  exists vscode_config,
    writer_calls (trace s')
      = writer_calls (trace s) ++ [("cline", vscode_config); ("roo", vscode_config)]
    /\ l_name vscode_config = Some (default "Server" (sd_name server_config))
    /\ l_command vscode_config = Some (CmdStr "docker")
    /\ msg = "Successfully configured " +:+ default "Server" (sd_name server_config)
               +:+ " for MCP via Docker".
Proof.
  intros H. unfold _run_docker_container in H.
  match type of H with
  | try_except (bind ?c ?k) ?h s = _ => set (configured := c) in H
  end.
  assert (Hquiet : effects_only not_writer configured).
  { unfold configured. destruct (String.eqb _ "interactive"); [apply effects_only_ret|].
    apply effects_only_bind; [apply volume_flags_quiet|]. intros vflags.
    apply effects_only_bind; [apply cleanup_existing_container_quiet|]. intros _.
    repeat effects_step. }
  assert (Hyields : yields (fun c : InstallResult + LaunchDict =>
                              match c with
                              | inl r => fst r = false
                              | inr cfg =>
                                  l_name cfg = Some (default "Server" (sd_name server_config))
                                  /\ l_command cfg = Some (CmdStr "docker")
                              end) configured).
  { unfold configured. destruct (String.eqb _ "interactive"); [apply yields_ret; auto|].
    apply yields_bind. intros vflags. apply yields_bind. intros _.
    apply yields_bind. intros result.
    destruct (negb (returncode result =? 0)); [apply yields_ret; reflexivity|].
    apply yields_bind. intros command. apply yields_ret. auto. }
  unfold try_except in H. unfold bind at 1 in H.
  destruct (Hquiet s) as (tail & Etail & Ftail).
  destruct (configured s) as [[[r|cfg]|e] s1] eqn:Hconf; simpl in Etail.
  - apply Hyields in Hconf. unfold ret in H. inversion H; subst r. discriminate.
  - apply Hyields in Hconf. destruct Hconf as [Hname Hcommand].
    unfold bind at 1 in H.
    pose proof (add_server_writer_calls w "cline" cfg s1) as Hcline.
    destruct (add_server_to_extension w "cline" cfg s1) as [[b1|e1] s2]; simpl in Hcline.
    2:{ destruct (is_class TimeoutExpired e1); discriminate. }
    unfold bind at 1 in H.
    pose proof (add_server_writer_calls w "roo" cfg s2) as Hroo.
    destruct (add_server_to_extension w "roo" cfg s2) as [[b2|e2] s3]; simpl in Hroo.
    2:{ destruct (is_class TimeoutExpired e2); discriminate. }
    unfold ret in H. inversion H; subst.
    exists cfg. split; [|auto].
    rewrite Hroo, Hcline. simpl trace. rewrite writer_calls_app.
    destruct (not_writer_no_calls tail Ftail) as [Hw _].
    rewrite Hw, app_nil_r, <- app_assoc. reflexivity.
  - destruct (is_class TimeoutExpired e); discriminate.
Qed.

Lemma run_docker_container_success_witness :
  let r := _run_docker_container
             (Scenario.posix_host Scenario.every_command_succeeds Scenario.nothing_present)
             Scenario.browser_daemon_server "mcr.microsoft.com/playwright/mcp" Scenario.fresh in
  exists vscode_config,
    writer_calls (trace (snd r)) = [("cline", vscode_config); ("roo", vscode_config)]
    /\ l_command vscode_config = Some (CmdStr "docker").
Proof.
  intros r.
  destruct (run_docker_container_success
              (Scenario.posix_host Scenario.every_command_succeeds Scenario.nothing_present)
              Scenario.browser_daemon_server "mcr.microsoft.com/playwright/mcp"
              "Successfully configured Browser Automation for MCP via Docker"
              Scenario.fresh (snd r)) as (cfg & Hcalls & _ & Hcommand & _).
  - vm_compute. reflexivity.
  - exists cfg. split; [exact Hcalls | exact Hcommand].
Defined.

Section DockerSetup.
Variable w : World.

Lemma check_docker_setup : effects_only docker_setup_event (check_docker w).
Proof. unfold check_docker. repeat effects_step. Qed.

Lemma get_docker_status_setup : effects_only docker_setup_event (get_docker_status w).
Proof.
  intros s. unfold get_docker_status.
  destruct (results s !! "docker"); [|apply check_docker_setup].
  exists []. destruct s. simpl. rewrite app_nil_r. auto.
Qed.

Lemma docker_install_loop_setup (cmds : list (list string)) :
  (forall cmd, In cmd cmds -> docker_setup_event (EvRun (Run cmd 600 false true None)) = true) ->
  effects_only docker_setup_event (docker_install_loop w cmds).
Proof.
  induction cmds as [|cmd rest IH]; intros Hcmds; simpl; [apply effects_only_ret|].
  apply effects_only_bind.
  - apply effects_only_try; [|intros; apply effects_only_ret].
    apply effects_only_bind.
    + apply effects_only_subprocess_run, Hcmds. left. reflexivity.
    + intros result. repeat effects_step.
  - intros [x|]; [apply effects_only_ret|]. apply IH. intros c Hc. apply Hcmds. right. exact Hc.
Qed.

Lemma install_docker_setup : effects_only docker_setup_event (_install_docker w).
Proof.
  unfold _install_docker.
  apply effects_only_try; [|intros; apply effects_only_ret].
  destruct (is_windows w); [|apply effects_only_ret].
  apply effects_only_bind.
  - apply docker_install_loop_setup. intros cmd Hcmd.
    simpl in Hcmd. destruct Hcmd as [<-|[<-|[]]]; reflexivity.
  - intros [x|]; apply effects_only_ret.
Qed.

Lemma docker_start_loop_setup (cmds : list (list string)) :
  (forall cmd, In cmd cmds -> docker_setup_event (EvRun (Run cmd 30 false true None)) = true) ->
  effects_only docker_setup_event (docker_start_loop w cmds).
Proof.
  induction cmds as [|cmd rest IH]; intros Hcmds; simpl; [apply effects_only_ret|].
  apply effects_only_bind.
  - apply effects_only_try; [|intros; apply effects_only_ret].
    apply effects_only_bind.
    + apply effects_only_subprocess_run, Hcmds. left. reflexivity.
    + intros result. destruct (returncode result =? 0); [|apply effects_only_ret].
      apply effects_only_bind; [apply effects_only_sleep; reflexivity|]. intros _.
      apply effects_only_bind; [apply get_docker_status_setup|]. intros docker_status.
      destruct (status docker_status); apply effects_only_ret.
  - intros [x|]; [apply effects_only_ret|]. apply IH. intros c Hc. apply Hcmds. right. exact Hc.
Qed.

Lemma start_docker_setup : effects_only docker_setup_event (_start_docker w).
Proof.
  unfold _start_docker.
  apply effects_only_try; [|intros; apply effects_only_ret].
  destruct (is_windows w).
  - apply effects_only_bind.
    + apply docker_start_loop_setup. intros cmd Hcmd.
      simpl in Hcmd. destruct Hcmd as [<-|[<-|[]]]; reflexivity.
    + intros [x|]; apply effects_only_ret.
  - repeat effects_step.
Qed.

Lemma ensure_docker_available_setup :
  effects_only docker_setup_event (_ensure_docker_available w).
Proof.
  unfold _ensure_docker_available.
  apply effects_only_try; [|intros; apply effects_only_ret].
  apply effects_only_bind; [apply get_docker_status_setup|]. intros docker_status.
  destruct (_ && _); [apply install_docker_setup|].
  destruct (_ && _); [apply start_docker_setup|].
  destruct (status docker_status); apply effects_only_ret.
Qed.

Lemma docker_ready_setup : effects_only docker_setup_event (docker_ready w).
Proof.
  unfold docker_ready.
  apply effects_only_bind; [apply get_docker_status_setup|]. intros docker_status.
  destruct (negb (status docker_status)); [|apply effects_only_ret].
  apply effects_only_bind; [apply ensure_docker_available_setup|]. intros install_result.
  destruct (negb (fst install_result)); [apply effects_only_ret|].
  apply effects_only_bind; [apply get_docker_status_setup|]. intros docker_status'.
  destruct (negb (status docker_status')); apply effects_only_ret.
Qed.

Lemma docker_ready_refuses : yields (fun early : option InstallResult =>
                                       match early with
                                       | Some r => fst r = false
                                       | None => True
                                       end) (docker_ready w).
Proof.
  unfold docker_ready. apply yields_bind. intros docker_status.
  destruct (negb (status docker_status)); [|apply yields_ret; exact I].
  apply yields_bind. intros install_result.
  destruct (negb (fst install_result)); [apply yields_ret; reflexivity|].
  apply yields_bind. intros docker_status'.
  destruct (negb (status docker_status')); apply yields_ret; [reflexivity | exact I].
Qed.
End DockerSetup.

(** X18. When the Docker check at the head of the docker backend gives up
    (Docker is not available and could not be installed or started), the
    backend returns that failure, and up to then it has only run set-up
    commands and waited: no image was pulled or built, no container run,
    no settings file changed, the settings writer not called. *)
Theorem docker_setup_failure_touches_no_image
    (w : World) (server_config : ServerDescriptor) (r : InstallResult) (s s1 : state) :
  docker_ready w s = (Ret (Some r), s1) ->
  _install_docker_server_impl w server_config s = (Ret r, s1)
  /\ fst r = false
  /\ files s1 = files s
  /\ exists tail,
       trace s1 = trace s ++ tail
       /\ forallb docker_setup_event tail = true
       /\ List.filter touches_image tail = []
       /\ writer_calls tail = [].
Proof.
  intros H. split.
  { unfold _install_docker_server_impl, try_except. unfold bind at 1. rewrite H. reflexivity. }
  split; [exact (docker_ready_refuses w s (Some r) s1 H)|].
  destruct (docker_ready_setup w s) as (tail & E & F). rewrite H in E. simpl in E. subst s1.
  split; [reflexivity|]. exists tail. split; [reflexivity|]. split; [exact F|].
  clear H. induction tail as [|e tail IH]; [auto|].
  simpl in F. apply andb_true_iff in F as [He Ht]. destruct (IH Ht) as [IH1 IH2].
  unfold docker_setup_event, no_image_command in He. apply andb_true_iff in He as [Hk Hn].
  simpl. destruct (touches_image e); [discriminate|].
  destruct e; try discriminate; auto.
Qed.

Lemma docker_setup_failure_touches_no_image_witness :
  let r := _install_docker_server_impl Scenario.bare_linux Scenario.browser_server Scenario.fresh in
  fst r = Ret (false, "Docker setup failed: Automatic Docker installation not supported on this platform. Please install Docker manually.")
  /\ subprocess_calls (trace (snd r))
     = [Run ["docker"; "--version"] 10 false true None;
        Run ["docker"; "--version"] 10 false true None].
Proof.
  intros r.
  destruct (docker_setup_failure_touches_no_image Scenario.bare_linux Scenario.browser_server
              (false, "Docker setup failed: Automatic Docker installation not supported on this platform. Please install Docker manually.")
              Scenario.fresh (snd r)) as (Himpl & _).
  - vm_compute. reflexivity.
  - unfold r. rewrite Himpl. split; [reflexivity|]. vm_compute. reflexivity.
Defined.

(** ** Uninstalling *)

Section UninstallFacts.
Variable w : World.


End UninstallFacts.

(** X19. [uninstall_server] only knows npm packages: for a descriptor that
    is not of type npm, or has no package, it answers "Uninstall not
    implemented for type: <type>" and does nothing at all. *)
Theorem uninstall_server_not_implemented
    (w : World) (server_config : ServerDescriptor) (s : state) :
  String.eqb (default "" (sd_type server_config)) "npm"
    && nonempty (default "" (sd_package server_config)) = false ->
  uninstall_server w server_config s
    = (Ret (false, "Uninstall not implemented for type: " +:+ default "" (sd_type server_config)),
       s).
Proof.
  intros H. unfold uninstall_server, try_except.
  destruct (String.eqb (default "" (sd_type server_config)) "npm"); [|reflexivity].
  simpl in H. rewrite H. reflexivity.
Qed.

Lemma uninstall_server_not_implemented_witness :
  uninstall_server Scenario.bare_linux Scenario.git_server Scenario.fresh
    = (Ret (false, "Uninstall not implemented for type: git"), Scenario.fresh).
Proof.
  apply (uninstall_server_not_implemented Scenario.bare_linux Scenario.git_server Scenario.fresh).
  reflexivity.
Defined.



(** ** The system checks *)

(** X21. [check_docker] never raises and changes no settings file. It reports
    status [True] exactly when [docker --version] and then [docker info]
    both ran and exited with code 0; the daemon is then marked as running,
    and [is_docker_available] gives the same answer as the status. *)
Theorem check_docker_status (w : World) (s : state) :
  let version_cmd := Run ["docker"; "--version"] 10 false true None in
  let info_cmd := Run ["docker"; "info"] 15 false true None in
  exists p s',
    check_docker w s = (Ret p, s')
    /\ files s' = files s
    /\ (status p = true <->
        exists version_result daemon_result,
          run_proc w (trace s) version_cmd = Ret version_result
          /\ returncode version_result = 0
          /\ run_proc w (trace s ++ [EvRun version_cmd]) info_cmd = Ret daemon_result
          /\ returncode daemon_result = 0)
    /\ (status p = true -> daemon_running p = Some true)
    /\ is_docker_available w s = (Ret (status p), s').
Proof.
  intros version_cmd info_cmd.
  assert (Hcheck : exists p s',
             check_docker w s = (Ret p, s')
             /\ files s' = files s
             /\ (status p = true <->
                 exists version_result daemon_result,
                   run_proc w (trace s) version_cmd = Ret version_result
                   /\ returncode version_result = 0
                   /\ run_proc w (trace s ++ [EvRun version_cmd]) info_cmd = Ret daemon_result
                   /\ returncode daemon_result = 0)
             /\ (status p = true -> daemon_running p = Some true)).
  { unfold check_docker, try_except. unfold bind at 1. fold version_cmd info_cmd.
    destruct (run_proc w (trace s) version_cmd) as [v|e] eqn:Hv.
    - rewrite (subprocess_run_ret w _ s v Hv).
      destruct (returncode v =? 0) eqn:Hvc; cbn [negb]; cbv beta iota.
      + apply Z.eqb_eq in Hvc. unfold bind at 1.
        destruct (run_proc w (trace s ++ [EvRun version_cmd]) info_cmd) as [i|e] eqn:Hi.
        * rewrite (subprocess_run_ret w info_cmd
                     (State (trace s ++ [EvRun version_cmd]) (files s) (results s)) i Hi).
          destruct (returncode i =? 0) eqn:Hic.
          -- apply Z.eqb_eq in Hic.
             eexists _, _. split; [reflexivity|]. split; [reflexivity|].
             split; [|reflexivity].
             split; [intros _; exists v, i; auto | reflexivity].
          -- apply Z.eqb_neq in Hic.
             eexists _, _. split; [reflexivity|]. split; [reflexivity|].
             split; [|discriminate].
             split; [discriminate|]. intros (v' & i' & _ & _ & Hi' & Hc'). congruence.
        * rewrite (subprocess_run_raise w info_cmd
                     (State (trace s ++ [EvRun version_cmd]) (files s) (results s)) e Hi).
          destruct (is_class TimeoutExpired e); [|destruct (is_class FileNotFoundError e)];
            (eexists _, _; split; [reflexivity|]; split; [reflexivity|];
             split; [|discriminate];
             split; [discriminate|]; intros (v' & i' & _ & _ & Hi' & _); congruence).
      + apply Z.eqb_neq in Hvc.
        eexists _, _. split; [reflexivity|]. split; [reflexivity|].
        split; [|discriminate].
        split; [discriminate|]. intros (v' & i' & Hv' & Hc' & _). congruence.
    - rewrite (subprocess_run_raise w _ s e Hv).
      destruct (is_class TimeoutExpired e); [|destruct (is_class FileNotFoundError e)];
        (eexists _, _; split; [reflexivity|]; split; [reflexivity|];
         split; [|discriminate];
         split; [discriminate|]; intros (v' & i' & Hv' & _); congruence). }
  destruct Hcheck as (p & s' & E & Hfiles & Hiff & Hdaemon).
  exists p, s'. split; [exact E|]. split; [exact Hfiles|]. split; [exact Hiff|].
  split; [exact Hdaemon|].
  unfold is_docker_available, try_except, bind. rewrite E. unfold ret.
  destruct (status p); [rewrite (Hdaemon eq_refl)|]; reflexivity.
Qed.

(** X22. [check_winget] never raises. Off Windows it runs nothing and
    reports status [True]; on Windows it runs [winget --version] and
    nothing else, and reports status [True] exactly when that command
    exited with code 0: with or without [auto_fix], nothing is installed. *)
Theorem check_winget_status (w : World) (auto_fix : bool) (s : state) :
  let version_cmd := Run ["winget"; "--version"] 10 false true None in
  exists p s',
    check_winget w auto_fix s = (Ret p, s')
    /\ trace s' = trace s ++ (if is_windows w then [EvRun version_cmd] else [])
    /\ files s' = files s
    /\ (status p = true <->
        is_windows w = false
        \/ exists result, run_proc w (trace s) version_cmd = Ret result /\ returncode result = 0).
Proof.
  intros version_cmd. unfold check_winget.
  destruct (is_windows w); cbn [negb]; cbv beta iota.
  - unfold try_except, bind. fold version_cmd.
    destruct (run_proc w (trace s) version_cmd) as [result|e] eqn:Hrun.
    + rewrite (subprocess_run_ret w _ s result Hrun).
      destruct (returncode result =? 0) eqn:Hcode.
      * apply Z.eqb_eq in Hcode.
        eexists _, _. split; [reflexivity|]. split; [reflexivity|]. split; [reflexivity|].
        split; [intros _; right; exists result; auto | reflexivity].
      * apply Z.eqb_neq in Hcode.
        destruct auto_fix;
          (eexists _, _; split; [reflexivity|]; split; [reflexivity|]; split; [reflexivity|];
           split; [discriminate|]; intros [Hw | (r' & Hr' & Hc')]; [discriminate | congruence]).
    + rewrite (subprocess_run_raise w _ s e Hrun).
      destruct auto_fix;
        (eexists _, _; split; [reflexivity|]; split; [reflexivity|]; split; [reflexivity|];
         split; [discriminate|]; intros [Hw | (r' & Hr' & _)]; [discriminate | congruence]).
  - eexists _, _. split; [reflexivity|]. split; [symmetry; apply app_nil_r|].
    split; [reflexivity|]. split; [intros _; left; reflexivity | reflexivity].
Qed.

Section NodeMore.
Variable w : World.
Variable auto_fix : bool.

(** The attempt of [check_nodejs] with one command name, when the command
    exits with 0 and prints a version whose major number is [major]. *)
Lemma node_attempt_parsed
    (node_cmd : string) (rest : list string) (s : state) (result : CompletedProcess) (major : Z) :
  run_proc w (trace s) (node_version_args node_cmd) = Ret result ->
  returncode result = 0 ->
  parse_major_version (PyStr.strip (stdout result)) = Ret major ->
  node_commands_loop w auto_fix (node_cmd :: rest) s
    = let version := PyStr.strip (stdout result) in
      let s1 := after s (EvRun (node_version_args node_cmd)) in
      if 16 <=? major then
        match subprocess_run w (Run ["npm"; "--version"] 10 false true None) s1 with
        | (Ret npm_result, s2) =>
            (Ret (Some (probe true ("Node.js " +:+ version +:+ " is installed")
                          ("Command: " +:+ node_cmd +:+ ", Version: " +:+ version +:+
                           (if returncode npm_result =? 0
                            then ", npm: " +:+ PyStr.strip (stdout npm_result) else "")))), s2)
        | (Raise e, s2) =>
            if is_class ValueError e || is_class IndexError e
            then (Ret (Some (probe true
                               ("Node.js " +:+ version +:+ " detected (version parsing failed)")
                               ("Command: " +:+ node_cmd +:+ ", Raw version: " +:+ version))), s2)
            else node_commands_loop w auto_fix rest s2
        end
      else if auto_fix then
        match _install_nodejs w s1 with
        | (Ret p, s2) => (Ret (Some p), s2)
        | (Raise e, s2) =>
            if is_class ValueError e || is_class IndexError e
            then (Ret (Some (probe true
                               ("Node.js " +:+ version +:+ " detected (version parsing failed)")
                               ("Command: " +:+ node_cmd +:+ ", Raw version: " +:+ version))), s2)
            else node_commands_loop w auto_fix rest s2
        end
      else
        (Ret (Some (probe false ("Node.js " +:+ version +:+ " is too old (need v16+)")
                      ("Current: " +:+ version +:+ ", Required: v16+"))), s1).
Proof.
  intros Hrun Hcode Hparse. cbv zeta.
  change (node_commands_loop w auto_fix (node_cmd :: rest))
    with (let* r := try_except
                      (let* result := subprocess_run w (node_version_args node_cmd) in
                       if returncode result =? 0 then
                         let version := PyStr.strip (stdout result) in
                         let* p := node_version_found w auto_fix node_cmd version in
                         ret (Some p)
                       else ret None)
                      (fun _ => ret None) in
          match r with
          | Some p => ret (Some p)
          | None => node_commands_loop w auto_fix rest
          end).
  unfold bind at 1. unfold try_except at 1. unfold bind at 1.
  rewrite (subprocess_run_ret w _ s result Hrun), Hcode.
  change (0 =? 0) with true. cbv beta iota zeta.
  unfold bind at 1.
  unfold node_version_found, try_except_when, try_except. unfold bind at 1. unfold lift at 1.
  rewrite Hparse. cbv beta iota.
  fold (after s (EvRun (node_version_args node_cmd))).
  destruct (16 <=? major).
  - unfold bind at 1.
    destruct (subprocess_run w _ (after s (EvRun (node_version_args node_cmd))))
      as [[npm_result|e] s2].
    + reflexivity.
    + destruct (is_class ValueError e || is_class IndexError e); reflexivity.
  - destruct auto_fix; [|reflexivity].
    destruct (_install_nodejs w (after s (EvRun (node_version_args node_cmd)))) as [[p|e] s2].
    + reflexivity.
    + destruct (is_class ValueError e || is_class IndexError e); reflexivity.
Qed.
End NodeMore.



(** X24. The npm question can hide a working Node.js: when [node --version]
    reports a supported version but running [npm --version] raises an
    exception that is neither a [ValueError] (which a [UnicodeDecodeError]
    is) nor an [IndexError] (npm is not on the path, say), nothing is
    reported for [node] and the check goes on with [nodejs]. Off Windows,
    without [auto_fix], and with no working [nodejs] command, the result is
    "Node.js not found". *)
Theorem check_nodejs_npm_raises
    (w : World) (s : state) (result : CompletedProcess) (major : Z) (e : exn) :
  let npm_cmd := Run ["npm"; "--version"] 10 false true None in
  let s1 := after s (EvRun (node_version_args "node")) in
  let s2 := after s1 (EvRun npm_cmd) in
  run_proc w (trace s) (node_version_args "node") = Ret result ->
  returncode result = 0 ->
  parse_major_version (PyStr.strip (stdout result)) = Ret major ->
  16 <= major ->
  run_proc w (trace s1) npm_cmd = Raise e ->
  is_class ValueError e || is_class IndexError e = false ->
  attempt_fails w (trace s2) "nodejs" = true ->
  is_windows w = false ->
  check_nodejs w false s
    = (Ret (probe false "Node.js not found"
              "Node.js is not installed or not accessible. Please install from https://nodejs.org"),
       after s2 (EvRun (node_version_args "nodejs"))).
Proof.
  intros npm_cmd s1 s2 Hrun Hcode Hparse Hmajor Hnpm Hclass Hnodejs Hposix.
  subst s2 s1 npm_cmd.
  unfold check_nodejs. unfold bind at 1.
  rewrite (node_attempt_parsed w false "node" ["nodejs"] s result major Hrun Hcode Hparse).
  cbv zeta. apply Z.leb_le in Hmajor. rewrite Hmajor.
  rewrite (subprocess_run_raise w _ (after s (EvRun (node_version_args "node"))) e Hnpm).
  rewrite Hclass.
  fold (after (after s (EvRun (node_version_args "node")))
              (EvRun (Run ["npm"; "--version"] 10 false true None))).
  rewrite (node_commands_loop_next w false "nodejs" [] _ Hnodejs).
  simpl node_commands_loop. unfold ret at 1. cbv beta iota. rewrite Hposix.
  unfold bind, ret. reflexivity.
Qed.

Lemma check_nodejs_npm_raises_witness :
  fst (check_nodejs (Scenario.posix_host Scenario.node18_without_npm Scenario.nothing_present)
         false Scenario.fresh)
    = Ret (probe false "Node.js not found"
             "Node.js is not installed or not accessible. Please install from https://nodejs.org").
Proof.
  rewrite (check_nodejs_npm_raises
             (Scenario.posix_host Scenario.node18_without_npm Scenario.nothing_present)
             Scenario.fresh (Completed 0 "v18.17.0" "") 18
             (Exn FileNotFoundError "[Errno 2] No such file or directory")
             eq_refl eq_refl eq_refl ltac:(lia) eq_refl eq_refl eq_refl eq_refl).
  reflexivity.
Defined.

(** What [except (ValueError, IndexError)] catches: a version that [int]
    refuses although [str.strip] would clean it, and a [UnicodeDecodeError]
    (a [ValueError]) raised when the output of [npm --version] is read. *)
Example check_nodejs_separator_version :
  fst (check_nodejs (Scenario.posix_host (fun _ _ => Scenario.exits 0 Scenario.separator_version "")
                       Scenario.nothing_present) false Scenario.fresh)
    = Ret (probe true ("Node.js " +:+ Scenario.separator_version
                       +:+ " detected (version parsing failed)")
             ("Command: node, Raw version: " +:+ Scenario.separator_version)).
Proof. vm_compute. reflexivity. Qed.

Example check_nodejs_npm_output_garbled :
  fst (check_nodejs (Scenario.posix_host Scenario.node18_npm_garbled Scenario.nothing_present)
         false Scenario.fresh)
    = Ret (probe true "Node.js v18.17.0 detected (version parsing failed)"
             "Command: node, Raw version: v18.17.0").
Proof. vm_compute. reflexivity. Qed.



Section SummaryFacts.



End SummaryFacts.


(** ** No exception leaves a backend *)

Section BackendsReturn.
Variable w : World.

Lemma returns_try {A} (body : M A) (handler : exn -> M A) :
  (forall e, returns (handler e)) -> returns (try_except body handler).
Proof.
  intros Hh s. apply try_except_returns. intros e s1. apply Hh.
Qed.

Lemma returns_ret {A} (a : A) : returns (ret a).
Proof. intros s. eexists _, _. reflexivity. Qed.

Lemma returns_if {A} (b : bool) (m1 m2 : M A) :
  returns m1 -> returns m2 -> returns (if b then m1 else m2).
Proof. destruct b; auto. Qed.

Lemma install_npm_server_returns (server_config : ServerDescriptor) (target_path : option string) :
  returns (_install_npm_server w server_config target_path).
Proof.
  unfold _install_npm_server. apply returns_if; [apply returns_ret|].
  apply returns_try. intros e. apply returns_if; apply returns_ret.
Qed.

Lemma install_git_server_returns (server_config : ServerDescriptor) (target_path : option string) :
  returns (_install_git_server w server_config target_path).
Proof.
  unfold _install_git_server. apply returns_if; [apply returns_ret|].
  apply returns_try. intros e. apply returns_if; apply returns_ret.
Qed.

Lemma install_python_server_returns (server_config : ServerDescriptor)
    (target_path : option string) :
  returns (_install_python_server w server_config target_path).
Proof.
  unfold _install_python_server.
  apply returns_try. intros e. apply returns_if; apply returns_ret.
Qed.

Lemma install_fallback_server_returns (original_config fallback_config : ServerDescriptor) :
  returns (_install_fallback_server w original_config fallback_config).
Proof.
  unfold _install_fallback_server. apply returns_try. intros e. apply returns_ret.
Qed.

Lemma install_docker_server_returns (server_config : ServerDescriptor) :
  returns (_install_docker_server w server_config).
Proof.
  unfold _install_docker_server. apply returns_if; [apply returns_ret|].
  apply returns_try. intros e.
  destruct (sd_fallback server_config) as [fb|]; [|apply returns_ret].
  apply returns_if; [apply install_fallback_server_returns | apply returns_ret].
Qed.
End BackendsReturn.

(** X27. No exception leaves a backend: the npm, git, python and docker
    backends and the fallback installer return a result on every
    descriptor, host and state. So the [except] clause of [install_server]
    is never entered with them, and [install_server] is its dispatch. *)
Theorem backends_never_raise
    (w : World) (server_config : ServerDescriptor) (target_path : option string) :
  returns (_install_npm_server w server_config target_path)
  /\ returns (_install_git_server w server_config target_path)
  /\ returns (_install_python_server w server_config target_path)
  /\ returns (_install_docker_server w server_config)
  /\ (forall fallback_config, returns (_install_fallback_server w server_config fallback_config))
  /\ forall s,
       install_server w server_config target_path s
         = dispatch (_install_npm_server w) (_install_git_server w) (_install_python_server w)
                    (_install_docker_server w) server_config target_path s.
Proof.
  split; [apply install_npm_server_returns|].
  split; [apply install_git_server_returns|].
  split; [apply install_python_server_returns|].
  split; [apply install_docker_server_returns|].
  split; [intros fb; apply install_fallback_server_returns|].
  intros s. unfold install_server, install_server_via, try_except.
  assert (H : returns (dispatch (_install_npm_server w) (_install_git_server w)
                         (_install_python_server w) (_install_docker_server w)
                         server_config target_path)).
  { unfold dispatch.
    apply returns_if; [apply install_npm_server_returns|].
    apply returns_if; [apply install_git_server_returns|].
    apply returns_if; [apply install_python_server_returns|].
    apply returns_if; [apply install_docker_server_returns | apply returns_ret]. }
  destruct (H s) as (r & s' & E). rewrite E. reflexivity.
Qed.

(** ** The official server list *)

Section OfficialFacts.




End OfficialFacts.


(** ** The default settings *)



(** ** The npm backend and the settings *)

Section NpmQuiet.
Variable w : World.

Lemma auto_install_nodejs_quiet : effects_only not_writer (_auto_install_nodejs w).
Proof. unfold _auto_install_nodejs. repeat effects_step. Qed.

Lemma npm_check_available_quiet : effects_only not_writer (npm_check_available w).
Proof.
  unfold npm_check_available.
  apply effects_only_try; [repeat effects_step|]. intros e.
  destruct (is_class FileNotFoundError e); [|apply effects_only_ret].
  destruct (is_windows w); [|apply effects_only_ret].
  apply effects_only_bind; [apply auto_install_nodejs_quiet|]. intros nodejs_success.
  repeat effects_step.
Qed.
End NpmQuiet.

(** X30. The npm backend touches the IDE settings only when it succeeds:
    whenever [_install_npm_server] returns a failure, the settings writer
    has not been called, the installer has written no settings file, and
    the stored settings are as before. *)
Theorem npm_backend_failure_leaves_settings
    (w : World) (server_config : ServerDescriptor) (target_path : option string)
    (s s' : state) (msg : string) :
  _install_npm_server w server_config target_path s = (Ret (false, msg), s') ->
  files s' = files s
  /\ writer_calls (trace s') = writer_calls (trace s)
  /\ file_writes (trace s') = file_writes (trace s).
Proof.
  assert (Hquiet : forall (s0 s1 : state) (tail : list event),
             s1 = State (trace s0 ++ tail) (files s0) (results s0) ->
             forallb not_writer tail = true ->
             files s1 = files s0
             /\ writer_calls (trace s1) = writer_calls (trace s0)
             /\ file_writes (trace s1) = file_writes (trace s0)).
  { intros s0 s1 tail -> F. simpl. destruct (not_writer_no_calls tail F) as [Hw Hf].
    rewrite writer_calls_app, file_writes_app, Hw, Hf, !app_nil_r. auto. }
  unfold _install_npm_server.
  destruct (negb (nonempty (default "" (sd_package server_config)))).
  { intros H. inversion H; subst. auto. }
  unfold try_except at 1. unfold bind at 1.
  destruct (npm_check_available_quiet w s) as (t1 & E1 & F1).
  destruct (npm_check_available w s) as [[[r|]|e] s1]; simpl in E1.
  - intros H. inversion H; subst. apply (Hquiet s _ t1 eq_refl F1).
  - unfold bind at 1.
    match goal with
    | |- context [try_except ?body ?handler s1] =>
        assert (Hrun : effects_only not_writer (try_except body handler))
          by (repeat effects_step);
        destruct (Hrun s1) as (t2 & E2 & F2);
        destruct (try_except body handler s1) as [[[r|result]|e] s2]
    end; simpl in E2.
    + intros H. inversion H; subst.
      apply (Hquiet s _ (t1 ++ t2)); [simpl; rewrite app_assoc; reflexivity|].
      rewrite forallb_app, F1, F2. reflexivity.
    + destruct (returncode result =? 0).
      * unfold bind at 1.
        pose proof (configure_server_in_vscode_returns w server_config s2) as Hconf.
        destruct (_configure_server_in_vscode w server_config s2) as [[[]|e] s3];
          simpl in Hconf; [|discriminate].
        intros H. inversion H.
      * intros H. inversion H; subst.
        apply (Hquiet s _ (t1 ++ t2)); [simpl; rewrite app_assoc; reflexivity|].
        rewrite forallb_app, F1, F2. reflexivity.
    + destruct (is_class TimeoutExpired e); intros H; inversion H; subst;
        (apply (Hquiet s _ (t1 ++ t2)); [simpl; rewrite app_assoc; reflexivity|];
         rewrite forallb_app, F1, F2; reflexivity).
  - destruct (is_class TimeoutExpired e); intros H; inversion H; subst;
      apply (Hquiet s _ t1 eq_refl F1).
Qed.

Lemma npm_backend_failure_leaves_settings_witness :
  let s' := snd (_install_npm_server Scenario.bare_linux Scenario.filesystem_server None
                   Scenario.fresh) in
  files s' = ∅ /\ writer_calls (trace s') = [] /\ file_writes (trace s') = [].
Proof.
  intros s'.
  apply (npm_backend_failure_leaves_settings Scenario.bare_linux Scenario.filesystem_server None
           Scenario.fresh s' "npm is not available. Please install Node.js first.").
  vm_compute. reflexivity.
Defined.
